(** * keydux: shared state manager, storage adaptor and consumer hook

    A shallow embedding of
      - [StateManager] (SharedStateProvider),
      - [StorageAdaptor] (useStorage.ts),
      - [useSharedState] (the consumer hook),
    followed by the properties established about them.

    Conventions of the embedding.
      - A JavaScript object used as a dictionary is made by [{}]: it has
        its own properties and a prototype, [Object.prototype] to start
        with.  Reading a name it does not own goes to the prototype, so
        ["toString"] or ["constructor"] read as functions, and assigning
        to ["__proto__"] reaches the setter of [Object.prototype], which
        replaces the prototype or does nothing.
      - Arrays and plain objects are values with a reference (their
        identity, compared by [===]) and a JSON tree (their content).
      - Functions are references.  A subscriber is invoked by appending an
        [Invocation] to the list of calls a [write] makes: the bodies of
        the callbacks belong to the consumers, not to this library.
      - Numbers are integers. *)

From stdpp Require Import gmap strings list fin_maps pretty.
From Stdlib Require Import ZArith Lia Ascii.

Open Scope string_scope.
Open Scope list_scope.

(** ** JavaScript values *)

#[warnings="-register-all"]
Inductive json : Type :=
  | JNull
  | JBool (b : bool)
  | JNum (n : Z)
  | JStr (s : string)
  | JArr (items : list json)
  | JObj (members : list (string * json)).

(** [VBuiltin name] is the function the platform keeps under [name] in
    [Object.prototype] ([Object] itself for ["constructor"]), and
    [VObjectPrototype] is [Object.prototype]. *)
Inductive jsval : Type :=
  | VUndefined
  | VNull
  | VBool (b : bool)
  | VNum (n : Z)
  | VStr (s : string)
  | VArr (ref : nat) (items : list json)
  | VObj (ref : nat) (members : list (string * json))
  | VFun (ref : nat)
  | VBuiltin (name : string)
  | VObjectPrototype.

Inductive js_type : Type :=
  | TUndefined | TObject | TBoolean | TNumber | TString | TFunction.

Definition typeof (v : jsval) : js_type :=
  match v with
  | VUndefined => TUndefined
  | VNull => TObject
  | VBool _ => TBoolean
  | VNum _ => TNumber
  | VStr _ => TString
  | VArr _ _ => TObject
  | VObj _ _ => TObject
  | VFun _ => TFunction
  | VBuiltin _ => TFunction
  | VObjectPrototype => TObject
  end.

(** [ToBoolean]: what [if (v)], [!v] and [v || w] test. *)
Definition truthy (v : jsval) : bool :=
  match v with
  | VUndefined => false
  | VNull => false
  | VBool b => b
  | VNum n => negb (Z.eqb n 0)
  | VStr s => negb (String.eqb s "")
  | VArr _ _ => true
  | VObj _ _ => true
  | VFun _ => true
  | VBuiltin _ => true
  | VObjectPrototype => true
  end.

(** [a || b] *)
Definition js_or (a b : jsval) : jsval := if truthy a then a else b.

(** [typeof v === 'object' && v !== null] *)
Definition is_object (v : jsval) : bool :=
  match v with
  | VArr _ _ => true
  | VObj _ _ => true
  | VObjectPrototype => true
  | _ => false
  end.

(** [typeof v === 'function'] *)
Definition is_function (v : jsval) : bool :=
  match v with
  | VFun _ => true
  | VBuiltin _ => true
  | _ => false
  end.

(** A function of [Object.prototype]. *)
Definition is_builtin (v : jsval) : bool :=
  match v with
  | VBuiltin _ => true
  | _ => false
  end.

(** Errors a call can throw. *)
Inductive js_error : Type := TypeError | SyntaxError.

Inductive result (A : Type) : Type :=
  | Ok (a : A)
  | Throw (e : js_error).
Arguments Ok {A} a.
Arguments Throw {A} e.

(** How a call that changes the world ends: it returns, or an error
    escapes from it; what it did before that stays done. *)
Inductive completion : Type :=
  | Normal
  | Abrupt (e : js_error).

(** ** The host environment

    [JSON.parse] and [JSON.stringify] are builtins of the platform:
    [JSON_parse] gives [None] where [JSON.parse] throws a [SyntaxError],
    [JSON_stringify] gives [None] where [JSON.stringify] returns
    [undefined].  [call f x] is the result of applying the consumer's
    function [f] to [x], and [call_builtin name x] that of applying the
    function [Object.prototype] keeps under [name]; a call that throws is
    not part of this model.  [member p key] is
    what [o[key]] reads for an object [o] that does not own [key] and
    whose prototype is the array, object or function [p]. *)
Class Host : Type := {
  JSON_parse : string → option json;
  JSON_stringify : jsval → option string;
  call : nat → jsval → jsval;
  call_builtin : string → jsval → jsval;
  member : jsval → string → jsval
}.

(** [value(x)] for a [value] with [typeof value === 'function']. *)
Definition invoke `{Host} (f x : jsval) : option jsval :=
  match f with
  | VFun ref => Some (call ref x)
  | VBuiltin name => Some (call_builtin name x)
  | _ => None
  end.

(** ** Objects made by [{}] *)

(** The functions of [Object.prototype]; its one other member is the
    accessor [__proto__]. *)
Definition Object_prototype_functions : list string :=
  [ "constructor"; "hasOwnProperty"; "isPrototypeOf"; "propertyIsEnumerable";
    "toLocaleString"; "toString"; "valueOf";
    "__defineGetter__"; "__defineSetter__";
    "__lookupGetter__"; "__lookupSetter__" ].

(** [Object.prototype] has a member of that name. *)
Definition Object_prototype_has (key : string) : bool :=
  bool_decide (key = "__proto__")
  || bool_decide (key ∈ Object_prototype_functions).

(** [o[key]] for an object that does not own [key] and whose prototype is
    [Object.prototype]: the getter of [__proto__] gives that prototype. *)
Definition Object_prototype (key : string) : jsval :=
  if bool_decide (key = "__proto__") then VObjectPrototype
  else if bool_decide (key ∈ Object_prototype_functions) then VBuiltin key
  else VUndefined.

(** An object made by [{}] whose properties are values: the properties
    it owns, and its prototype. *)
Record Dict : Type := mkDict {
  own : gmap string jsval;
  proto : jsval
}.

(** [{}] *)
#[global] Instance Dict_empty : Empty Dict :=
  {| own := ∅; proto := VObjectPrototype |}.

(** The own property of a name. *)
#[global] Instance Dict_lookup : Lookup string jsval Dict :=
  λ key o, own o !! key.

(** What the setter of [__proto__] accepts: an object (functions are
    objects) or [null]. *)
Definition can_be_prototype (v : jsval) : bool :=
  match v with
  | VNull | VArr _ _ | VObj _ _ | VFun _ | VBuiltin _ | VObjectPrototype => true
  | _ => false
  end.

(** Whether an assignment to [__proto__] on an object with the prototype
    [p] reaches the setter of [Object.prototype]: not past [null], and not
    past an object that owns a member of that name (as [JSON.parse] can
    make). *)
Definition reaches_proto_setter (p : jsval) : bool :=
  match p with
  | VObjectPrototype | VArr _ _ | VFun _ | VBuiltin _ => true
  | VObj _ members => bool_decide ("__proto__" ∉ members.*1)
  | _ => false
  end.

Section Objects.
Context `{Host}.

(** [o[key]] read through the prototype [p]. *)
Definition inherited (p : jsval) (key : string) : jsval :=
  match p with
  | VObjectPrototype => Object_prototype key
  | VArr _ _ | VObj _ _ | VFun _ | VBuiltin _ => member p key
  | _ => VUndefined
  end.

(** [o[key]] *)
Definition prop (o : Dict) (key : string) : jsval :=
  match own o !! key with
  | Some v => v
  | None => inherited (proto o) key
  end.

End Objects.

(** [o[key] = v].  A property the object owns is overwritten.  Otherwise
    the name is looked for along the prototypes: [__proto__] is found as
    the accessor of [Object.prototype], whose setter replaces the
    prototype of [o] by an object or [null] and ignores anything else;
    every other name becomes a property of [o].  (Where the prototype was
    replaced by a function, the names a function does not let be written,
    such as [name] and [length], are outside this model, and so are
    getters that throw: the statements below are about objects that
    still have their first prototype, unless they say otherwise.) *)
Definition assign (key : string) (v : jsval) (o : Dict) : Dict :=
  match own o !! key with
  | Some _ => {| own := <[key := v]> (own o); proto := proto o |}
  | None =>
      if bool_decide (key = "__proto__") && reaches_proto_setter (proto o)
      then if can_be_prototype v then {| own := own o; proto := v |} else o
      else {| own := <[key := v]> (own o); proto := proto o |}
  end.

(** ** SharedStateProvider: the state manager *)

(** A [RenderFunction] is known by its reference. *)
Definition RenderFunction : Type := nat.

Record RenderArgs : Type := mkArgs { lastValue : jsval; newValue : jsval }.

(** One call [render({ lastValue, newValue })]. *)
Record Invocation : Type := mkCall { callee : RenderFunction; args : RenderArgs }.

Module StateManager.

(** [rerendersToTrigger] is made by [{}] too; the class only ever stores
    arrays in it, under names [Object.prototype] has no member for, so it
    is given by the arrays it owns and its prototype stays
    [Object.prototype]. *)
Record t : Type := mk {
  state : Dict;
  rerendersToTrigger : gmap string (list RenderFunction)
}.

Definition new : t := {| state := ∅; rerendersToTrigger := ∅ |}.

(** The subscriber list of a key: the array [rerendersToTrigger] owns for
    it, nothing when it owns none. *)
Definition subscribers (m : t) (key : string) : list RenderFunction :=
  default [] (rerendersToTrigger m !! key).

(** The manager after the call, and the calls [forEach] made.  Where
    [rerendersToTrigger[key]] is a member of [Object.prototype], it is
    not nullish and has no [forEach]: the call of [undefined] throws a
    [TypeError], after the store. *)
Definition write `{Host} (key : string) (value : jsval) (m : t)
    : t * result (list Invocation) :=
  let lastValue := prop (state m) key in
  let m' := {| state := assign key value (state m);
               rerendersToTrigger := rerendersToTrigger m |} in
  (m', match rerendersToTrigger m' !! key with
       | Some renders =>
           Ok ((λ render, mkCall render (mkArgs lastValue value)) <$> renders)
       | None =>
           if Object_prototype_has key then Throw TypeError else Ok []
       end).

Definition read (m : t) : Dict := state m.

(** Where [rerendersToTrigger[key]] is a member of [Object.prototype], it
    is truthy, so no array is made, and it has no [push]: a [TypeError],
    and nothing is registered. *)
Definition watchForUpdates (key : string) (rerenderFunction : RenderFunction)
    (m : t) : result t :=
  match rerendersToTrigger m !! key with
  | None =>
      if Object_prototype_has key then Throw TypeError
      else
        let triggers := <[key := []]> (rerendersToTrigger m) in
        Ok {| state := state m;
              rerendersToTrigger :=
                <[key := default [] (triggers !! key) ++ [rerenderFunction]]>
                  triggers |}
  | Some renders =>
      Ok {| state := state m;
            rerendersToTrigger :=
              <[key := renders ++ [rerenderFunction]]> (rerendersToTrigger m) |}
  end.

(** [this.rerendersToTrigger[key].filter(...)] throws a [TypeError] when
    no list was ever created for [key]: [undefined] has no [filter], and
    a member of [Object.prototype] has none either. *)
Definition endWatch (key : string) (subscription : RenderFunction)
    (m : t) : result t :=
  match rerendersToTrigger m !! key with
  | Some renders =>
      Ok {| state := state m;
            rerendersToTrigger :=
              <[key := filter (λ s, s ≠ subscription) renders]>
                (rerendersToTrigger m) |}
  | None => Throw TypeError
  end.

End StateManager.

(** ** useStorage.ts: the persistent store adaptor *)

(** What is shared by everything running in one page: the allocator of
    references, the browser's [window.localStorage] (the items it holds)
    and the module-level [fallbackMemory].  [fallbackMemory] is made by
    [{}]; what is assigned to its names is a text or [undefined] ([None]),
    never an object, so it is given by the properties it owns and its
    prototype stays [Object.prototype]. *)
Record Realm : Type := mkRealm {
  next_ref : nat;
  isBrowser : bool;
  window_localStorage : gmap string string;
  fallbackMemory : gmap string (option string)
}.

(** A reference no value has yet. *)
Definition alloc (r : Realm) : nat * Realm :=
  (next_ref r,
   {| next_ref := S (next_ref r);
      isBrowser := isBrowser r;
      window_localStorage := window_localStorage r;
      fallbackMemory := fallbackMemory r |}).

(** The arrays and objects of a tree, itself included. *)
Fixpoint composites (j : json) : nat :=
  match j with
  | JArr items => S (foldr (λ item n, composites item + n)%nat O items)
  | JObj members =>
      S (foldr (λ m n, (let '(_, item) := m in composites item) + n)%nat O members)
  | _ => O
  end.

(** The realm after [n] references were given out. *)
Definition advance (n : nat) (r : Realm) : Realm :=
  {| next_ref := next_ref r + n;
     isBrowser := isBrowser r;
     window_localStorage := window_localStorage r;
     fallbackMemory := fallbackMemory r |}.

(** The value [JSON.parse] builds from a decoded tree.  Every array and
    every object of the tree is a new one: the outermost gets the next
    reference, the ones inside it the references that follow. *)
Definition reify (j : json) (r : Realm) : jsval * Realm :=
  match j with
  | JNull => (VNull, r)
  | JBool b => (VBool b, r)
  | JNum n => (VNum n, r)
  | JStr s => (VStr s, r)
  | JArr items => (VArr (next_ref r) items, advance (composites j) r)
  | JObj members => (VObj (next_ref r) members, advance (composites j) r)
  end.

(** The two implementations of [interface _Storage]. *)
Inductive _Storage : Type := localStorage | fallbackStorage.

(** What [storage.getItem] returns: a text; [null] or [undefined] for no
    item; or, from [fallbackMemory], a member of [Object.prototype]. *)
Inductive Item : Type :=
  | Text (text : string)
  | NoItem
  | Member (v : jsval).

Module Storage.

Definition getItem (s : _Storage) (key : string) (r : Realm) : Item :=
  match s with
  | localStorage =>
      match window_localStorage r !! key with
      | Some text => Text text
      | None => NoItem
      end
  | fallbackStorage =>
      match fallbackMemory r !! key with
      | Some (Some text) => Text text
      | Some None => NoItem
      | None => if Object_prototype_has key then Member (Object_prototype key)
                else NoItem
      end
  end.

(** [value] is [None] when the caller passes [undefined] (what
    [JSON.stringify] returns for [undefined] and for functions):
    [localStorage] stores the text of it, [fallbackMemory[key] = undefined]
    makes a property that reads as [undefined].  An assignment to
    [fallbackMemory["__proto__"]] reaches the setter of [Object.prototype],
    which ignores a text and [undefined]. *)
Definition setItem (s : _Storage) (key : string) (value : option string)
    (r : Realm) : Realm :=
  match s with
  | localStorage =>
      {| next_ref := next_ref r;
         isBrowser := isBrowser r;
         window_localStorage :=
           <[key := default "undefined" value]> (window_localStorage r);
         fallbackMemory := fallbackMemory r |}
  | fallbackStorage =>
      {| next_ref := next_ref r;
         isBrowser := isBrowser r;
         window_localStorage := window_localStorage r;
         fallbackMemory :=
           if bool_decide (key = "__proto__")
              && bool_decide (fallbackMemory r !! key = None)
           then fallbackMemory r
           else <[key := value]> (fallbackMemory r) |}
  end.

End Storage.

Module StorageAdaptor.

Record t : Type := mk {
  prefix : option string;
  storage : _Storage;
  objectCache : Dict
}.

(** [constructor(prefix?)]: in a browser the storage is
    [window.localStorage], which is taken to be there. *)
Definition new (prefix : option string) (r : Realm) : t :=
  {| prefix := prefix;
     storage := if isBrowser r then localStorage else fallbackStorage;
     objectCache := ∅ |}.

Definition getStorageKey (a : t) (key : string) : string :=
  match prefix a with
  | Some p => if String.eqb p "" then key else String.append p (String.append "-" key)
  | None => key
  end.

Section WithHost.
Context `{Host}.

(** The body of the [try] block: [JSON.parse] is what can throw.  An
    empty text is falsy; a member of [Object.prototype] is truthy, and
    [JSON.parse] is given its text, which is the source of a function or
    ["[object Object]"], no JSON. *)
Definition decode (storageKey : string) (item : Item) (a : t)
    (r : Realm) : result (jsval * t * Realm) :=
  match item with
  | Text text =>
      if String.eqb text "" then Ok (VUndefined, a, r)
      else
        match JSON_parse text with
        | Some tree =>
            let '(parsedItem, r') := reify tree r in
            let a' :=
              if is_object parsedItem
              then {| prefix := prefix a;
                      storage := storage a;
                      objectCache :=
                        assign storageKey parsedItem (objectCache a) |}
              else a in
            Ok (parsedItem, a', r')
        | None => Throw SyntaxError
        end
  | NoItem => Ok (VUndefined, a, r)
  | Member _ => Throw SyntaxError
  end.

Definition getItem (key : string) (a : t) (r : Realm) : jsval * t * Realm :=
  let storageKey := getStorageKey a key in
  if truthy (prop (objectCache a) storageKey)
  then (prop (objectCache a) storageKey, a, r)
  else
    let item := Storage.getItem (storage a) storageKey r in
    match decode storageKey item a r with
    | Ok returned => returned
    | Throw _ => (VUndefined, a, r)
    end.

Definition setItem (key : string) (value : jsval) (a : t) (r : Realm)
    : t * Realm :=
  let storageKey := getStorageKey a key in
  let a' :=
    if is_object value
    then {| prefix := prefix a;
            storage := storage a;
            objectCache := assign storageKey value (objectCache a) |}
    else a in
  (a', Storage.setItem (storage a') storageKey (JSON_stringify value) r).

End WithHost.

End StorageAdaptor.

(** ** useSharedState: the consumer hook *)

Record Params : Type := mkParams {
  key : string;
  initialValue : jsval;
  shouldSaveToStorage : option bool;
  debounceTime : option Z
}.

(** The hook cells React keeps for one consumer between its activations:
    the two [useMemo] cells, the key of the [useEffect] the last activation
    scheduled, and the cleanup the last effect that ran returned. *)
Record Cells : Type := mkCells {
  memo_fixedInitialValue : option jsval;
  memo_storage : option StorageAdaptor.t;
  pending_effect : option string;
  pending_cleanup : option (string * RenderFunction)
}.

Definition unmounted : Cells :=
  {| memo_fixedInitialValue := None;
     memo_storage := None;
     pending_effect := None;
     pending_cleanup := None |}.

(** The state manager of the provider, the realm, the cells of the
    consumer, and the calls made so far to subscribers. *)
Record World : Type := mkWorld {
  manager : StateManager.t;
  realm : Realm;
  cells : Cells;
  notified : list Invocation
}.

(** What the hook returns.  [setValue] and [clear] give the world they
    leave and how they ended.  [debouncedValue] follows [value] through
    timers, which are not part of this model. *)
Record StateInterface : Type := mkInterface {
  value : jsval;
  setValue : jsval → World → World * completion;
  clear : World → World * completion
}.

Section Hook.
Context `{Host}.

(** [useStorage()]: the adaptor of the consumer, made at its first
    activation. *)
Definition useStorage (w : World) : StorageAdaptor.t :=
  default (StorageAdaptor.new None (realm w)) (memo_storage (cells w)).

(** The closure [update] of an activation with parameters [params].  An
    error that escapes from [write] ends the call: [storage.setItem] is
    not reached. *)
Definition update (params : Params) (value : jsval) (w : World)
    : World * completion :=
  let value :=
    default value (invoke value (prop (StateManager.read (manager w)) (key params))) in
  let '(m, written) := StateManager.write (key params) value (manager w) in
  match written with
  | Throw e =>
      ({| manager := m;
          realm := realm w;
          cells := cells w;
          notified := notified w |}, Abrupt e)
  | Ok calls =>
      if default false (shouldSaveToStorage params)
      then
        let '(a, r) :=
          StorageAdaptor.setItem (key params) value (useStorage w) (realm w) in
        ({| manager := m;
            realm := r;
            cells := {| memo_fixedInitialValue := memo_fixedInitialValue (cells w);
                        memo_storage := Some a;
                        pending_effect := pending_effect (cells w);
                        pending_cleanup := pending_cleanup (cells w) |};
            notified := notified w ++ calls |}, Normal)
      else
        ({| manager := m;
            realm := realm w;
            cells := cells w;
            notified := notified w ++ calls |}, Normal)
  end.

(** One activation of the hook (one render of the consumer). *)
Definition useSharedState (params : Params) (w : World) : StateInterface * World :=
  let fixedInitialValue :=
    default (initialValue params) (memo_fixedInitialValue (cells w)) in
  let storage := useStorage w in
  let '(storedValue, storage', r) :=
    if default false (shouldSaveToStorage params)
    then StorageAdaptor.getItem (key params) storage (realm w)
    else (VUndefined, storage, realm w) in
  let val :=
    js_or (js_or (prop (StateManager.read (manager w)) (key params)) storedValue)
          fixedInitialValue in
  ({| value := val;
      setValue := update params;
      clear := update params (initialValue params) |},
   {| manager := manager w;
      realm := r;
      cells := {| memo_fixedInitialValue := Some fixedInitialValue;
                  memo_storage := Some storage';
                  pending_effect := Some (key params);
                  pending_cleanup := pending_cleanup (cells w) |};
      notified := notified w |}).

End Hook.

(** What React does with the [useEffect] of the hook once a render is
    committed: the cleanup the previous effect returned, then the effect,
    which makes its [rerender] closure and subscribes it; the cleanup it
    returns is kept for the next time.  An effect that throws returns no
    cleanup. *)
Definition commitEffect (w : World) : World * completion :=
  match pending_effect (cells w) with
  | Some k =>
      let cleaned :=
        match pending_cleanup (cells w) with
        | Some (k0, rerender0) => StateManager.endWatch k0 rerender0 (manager w)
        | None => Ok (manager w)
        end in
      match cleaned with
      | Ok m =>
          let '(rerender, r) := alloc (realm w) in
          match StateManager.watchForUpdates k rerender m with
          | Ok m' =>
              ({| manager := m';
                  realm := r;
                  cells := {| memo_fixedInitialValue := memo_fixedInitialValue (cells w);
                              memo_storage := memo_storage (cells w);
                              pending_effect := None;
                              pending_cleanup := Some (k, rerender) |};
                  notified := notified w |}, Normal)
          | Throw e =>
              ({| manager := m;
                  realm := r;
                  cells := {| memo_fixedInitialValue := memo_fixedInitialValue (cells w);
                              memo_storage := memo_storage (cells w);
                              pending_effect := None;
                              pending_cleanup := None |};
                  notified := notified w |}, Abrupt e)
          end
      | Throw e => (w, Abrupt e)
      end
  | None => (w, Normal)
  end.

(** A page that was just loaded: nothing in memory, the storage as the
    last page left it. *)
Definition reload (w : World) : World :=
  {| manager := StateManager.new;
     realm := realm w;
     cells := unmounted;
     notified := [] |}.

(** The world after an activation and one [setValue v] of it. *)
Definition after_setValue `{Host} (p : Params) (v : jsval) (w : World) : World :=
  (setValue (useSharedState p w).1 v (useSharedState p w).2).1.

(** ** Vocabulary of the statements *)

(** The functions a list of calls went to, in the order of the calls. *)
Definition callees (calls : list Invocation) : list RenderFunction :=
  callee <$> calls.

(** How many times [f] occurs in a list of references. *)
Definition occurrences (f : RenderFunction) (l : list RenderFunction) : nat :=
  length (filter (λ g, g = f) l).

(** [l] without its first occurrence of [f]. *)
Fixpoint remove_first (f : RenderFunction) (l : list RenderFunction)
    : list RenderFunction :=
  match l with
  | [] => []
  | g :: rest => if decide (g = f) then rest else g :: remove_first f rest
  end.

(** [endWatch] as the specification words it: the first occurrence goes,
    and nothing happens when there is none, list or no list. *)
Definition endWatch_first_only (key : string) (subscription : RenderFunction)
    (m : StateManager.t) : result StateManager.t :=
  match StateManager.rerendersToTrigger m !! key with
  | Some renders =>
      Ok {| StateManager.state := StateManager.state m;
            StateManager.rerendersToTrigger :=
              <[key := remove_first subscription renders]>
                (StateManager.rerendersToTrigger m) |}
  | None => Ok m
  end.

(** A name [Object.prototype] has no member for. *)
Definition ordinary (k : string) : Prop := Object_prototype_has k = false.

(** An object that still has the prototype [{}] gave it. *)
Definition plain (o : Dict) : Prop := proto o = VObjectPrototype.

(** The calls a [write] made before it ended. *)
Definition calls_made (written : result (list Invocation)) : list Invocation :=
  match written with
  | Ok calls => calls
  | Throw _ => []
  end.

(** The text has the separator [-] in it. *)
Fixpoint has_separator (s : string) : bool :=
  match s with
  | EmptyString => false
  | String c rest => Ascii.eqb c "-" || has_separator rest
  end.

(** An array or an object, as opposed to a primitive. *)
Definition is_composite (tree : json) : bool :=
  match tree with
  | JArr _ => true
  | JObj _ => true
  | _ => false
  end.

(** The JSON tree of a value that has one. *)
Definition content (v : jsval) : option json :=
  match v with
  | VUndefined => None
  | VNull => Some JNull
  | VBool b => Some (JBool b)
  | VNum n => Some (JNum n)
  | VStr s => Some (JStr s)
  | VArr _ items => Some (JArr items)
  | VObj _ members => Some (JObj members)
  | VFun _ => None
  | VBuiltin _ => None
  | VObjectPrototype => None
  end.

(** The same value, or for arrays and objects one with the same content:
    what survives a round trip through text. *)
Definition same_content (a b : jsval) : Prop :=
  match a, b with
  | VArr _ x, VArr _ y => x = y
  | VObj _ x, VObj _ y => x = y
  | _, _ => a = b
  end.

(** The adaptor of a consumer is the one [useStorage()] builds: no prefix,
    on the storage the realm offers. *)
Definition adaptor_of_realm (w : World) : Prop :=
  match memo_storage (cells w) with
  | Some a =>
      StorageAdaptor.prefix a = None
      ∧ StorageAdaptor.storage a
        = (if isBrowser (realm w) then localStorage else fallbackStorage)
  | None => True
  end.

(** ** A host to run the model on

    [sample_parse] and [sample_stringify] are [JSON.parse] and
    [JSON.stringify] on a fragment of JSON: the literals, the integers in
    decimal, the empty array and the empty object.  [sample_parse] rejects
    every other text, and [sample_stringify] is used on values of the
    fragment, [undefined] and functions only.  [sample_call] knows one
    function, reference [0]: [v => v + 1], and applies no function of
    [Object.prototype].  Reference [1] is for an object of the consumer,
    and the realm allocates from [2].  [sample_member] reads through an
    object whose members are primitives: its members, then those of
    [Object.prototype], where the getter of [__proto__] gives the object. *)

Definition is_digit (c : ascii) : bool :=
  let n := nat_of_ascii c in (48 <=? n)%nat && (n <=? 57)%nat.

Fixpoint digits_value (acc : Z) (s : string) : option Z :=
  match s with
  | EmptyString => Some acc
  | String c rest =>
      if is_digit c
      then digits_value (acc * 10 + Z.of_nat (nat_of_ascii c - 48)) rest
      else None
  end.

(** [0], or digits that do not start with [0]. *)
Definition parse_natural (s : string) : option Z :=
  match s with
  | EmptyString => None
  | String "0" EmptyString => Some 0%Z
  | String "0" _ => None
  | _ => digits_value 0 s
  end.

Definition sample_parse (text : string) : option json :=
  if String.eqb text "null" then Some JNull
  else if String.eqb text "true" then Some (JBool true)
  else if String.eqb text "false" then Some (JBool false)
  else if String.eqb text "[]" then Some (JArr [])
  else if String.eqb text "{}" then Some (JObj [])
  else
    match text with
    | String "-" rest => (λ n, JNum (- n)) <$> parse_natural rest
    | _ => JNum <$> parse_natural text
    end.

Definition sample_stringify (v : jsval) : option string :=
  match v with
  | VUndefined => None
  | VFun _ => None
  | VNull => Some "null"
  | VBool true => Some "true"
  | VBool false => Some "false"
  | VNum n => Some (pretty n)
  | VArr _ [] => Some "[]"
  | VObj _ [] => Some "{}"
  | _ => None
  end.

Definition sample_call (f : nat) (v : jsval) : jsval :=
  match f, v with
  | O, VNum n => VNum (n + 1)
  | _, _ => VUndefined
  end.

Definition sample_member (p : jsval) (key : string) : jsval :=
  match p with
  | VObj _ members =>
      match (list_to_map members : gmap string json) !! key with
      | Some JNull => VNull
      | Some (JBool b) => VBool b
      | Some (JNum n) => VNum n
      | Some (JStr s) => VStr s
      | Some _ => VUndefined
      | None => if bool_decide (key = "__proto__") then p else Object_prototype key
      end
  | _ => VUndefined
  end.

Definition sample_host : Host :=
  {| JSON_parse := sample_parse;
     JSON_stringify := sample_stringify;
     call := sample_call;
     call_builtin := λ _ _, VUndefined;
     member := sample_member |}.

Definition empty_realm (browser : bool) : Realm :=
  {| next_ref := 2;
     isBrowser := browser;
     window_localStorage := ∅;
     fallbackMemory := ∅ |}.

Definition empty_world (browser : bool) : World :=
  {| manager := StateManager.new;
     realm := empty_realm browser;
     cells := unmounted;
     notified := [] |}.

(** ** Concrete managers, adaptors and consumers *)

(** The manager after [watchForUpdates(key, f)], which is the manager as
    it was when the call throws. *)
Definition watching (key : string) (f : RenderFunction) (m : StateManager.t)
    : StateManager.t :=
  match StateManager.watchForUpdates key f m with
  | Ok m' => m'
  | Throw _ => m
  end.

Definition two_subscribers : StateManager.t :=
  watching "k" 2 (watching "k" 1 StateManager.new).

Definition second_subscriber_only : StateManager.t :=
  {| StateManager.state := ∅;
     StateManager.rerendersToTrigger := {[ "k" := [2%nat] ]} |}.

Definition registered_twice : StateManager.t :=
  watching "k" 1 (watching "k" 2 (watching "k" 1 StateManager.new)).

(** A manager with two subscribers of ["k"] where ["j"] holds [1]. *)
Definition two_subscribers_one_value : StateManager.t :=
  (StateManager.write (H := sample_host) "j" (VNum 1) two_subscribers).1.

(** The state object of a new manager after an object with the member
    [a: 1] was written under ["__proto__"]. *)
Definition reparented : Dict :=
  StateManager.state
    (StateManager.write (H := sample_host) "__proto__" (VObj 1 [("a", JNum 1)])
       StateManager.new).1.

(** A consumer of the key ["counter"]. *)
Definition counter (initial : Z) (persistent : option bool) : Params :=
  {| key := "counter";
     initialValue := VNum initial;
     shouldSaveToStorage := persistent;
     debounceTime := None |}.

(** A consumer of the key [k]. *)
Definition consumer_of (k : string) (initial : Z) (persistent : option bool)
    : Params :=
  {| key := k;
     initialValue := VNum initial;
     shouldSaveToStorage := persistent;
     debounceTime := None |}.

(** The world after the first activation of that consumer, outside a
    browser and without persistence, and [setValue(v)]. *)
Definition counter_world (initial v : Z) : World :=
  after_setValue (H := sample_host) (counter initial None) (VNum v)
    (empty_world false).

(** The same in a browser, with persistence. *)
Definition persisted_world (initial v : Z) : World :=
  after_setValue (H := sample_host) (counter initial (Some true)) (VNum v)
    (empty_world true).

(** A consumer first activated with the initial value [1] sets [7] and is
    activated again, now with the initial value [2]; then it calls the
    [clear] of that second activation. *)
Definition second_activation : StateInterface * World :=
  useSharedState (H := sample_host) (counter 2 None) (counter_world 1 7).

Definition cleared : World :=
  (clear second_activation.1 second_activation.2).1.

(** An adaptor in a browser, after [setItem("k", {})] and then
    [setItem("k", undefined)]. *)
Definition browser_adaptor : StorageAdaptor.t :=
  StorageAdaptor.new None (empty_realm true).

Definition overwritten : StorageAdaptor.t * Realm :=
  let '(a1, r1) :=
    StorageAdaptor.setItem (H := sample_host) "k" (VObj 1 []) browser_adaptor
      (empty_realm true) in
  StorageAdaptor.setItem (H := sample_host) "k" VUndefined a1 r1.

(** Outside a browser: a realm whose fallback memory holds the given text
    for ["k"], a new adaptor, a page that opens on that realm and a
    consumer of ["k"] in it. *)
Definition holding (text : string) : Realm :=
  Storage.setItem fallbackStorage "k" (Some text) (empty_realm false).

(** The same with the text under the name [k]. *)
Definition holding_at (k text : string) : Realm :=
  Storage.setItem fallbackStorage k (Some text) (empty_realm false).

Definition node_adaptor : StorageAdaptor.t :=
  StorageAdaptor.new None (empty_realm false).

Definition opening (text : string) : World :=
  {| manager := StateManager.new;
     realm := holding text;
     cells := unmounted;
     notified := [] |}.

Definition persistent_k : Params :=
  {| key := "k";
     initialValue := VNum 5;
     shouldSaveToStorage := Some true;
     debounceTime := None |}.

(** ** SharedStateContext: the hook inside and outside a provider

    The four operations a consumer gets from [useContext]. *)
Record SharedStateOperations : Type := mkOperations {
  ctx_read : StateManager.t → Dict;
  ctx_write : string → jsval → StateManager.t
              → StateManager.t * result (list Invocation);
  ctx_watchForUpdates : string → RenderFunction → StateManager.t
                        → result StateManager.t;
  ctx_endWatch : string → RenderFunction → StateManager.t → result StateManager.t
}.

(** The value [SharedStateProvider] gives to its context: the methods of
    its state manager. *)
Definition provided `{Host} : SharedStateOperations :=
  {| ctx_read := StateManager.read;
     ctx_write := StateManager.write;
     ctx_watchForUpdates := StateManager.watchForUpdates;
     ctx_endWatch := StateManager.endWatch |}.


Section HookInContext.
Context `{Host}.
Variable ctx : SharedStateOperations.

(** [update] and [useSharedState] with the operations of the context. *)
Definition update_in (params : Params) (value : jsval) (w : World)
    : World * completion :=
  let value :=
    default value (invoke value (prop (ctx_read ctx (manager w)) (key params))) in
  let '(m, written) := ctx_write ctx (key params) value (manager w) in
  match written with
  | Throw e =>
      ({| manager := m;
          realm := realm w;
          cells := cells w;
          notified := notified w |}, Abrupt e)
  | Ok calls =>
      if default false (shouldSaveToStorage params)
      then
        let '(a, r) :=
          StorageAdaptor.setItem (key params) value (useStorage w) (realm w) in
        ({| manager := m;
            realm := r;
            cells := {| memo_fixedInitialValue := memo_fixedInitialValue (cells w);
                        memo_storage := Some a;
                        pending_effect := pending_effect (cells w);
                        pending_cleanup := pending_cleanup (cells w) |};
            notified := notified w ++ calls |}, Normal)
      else
        ({| manager := m;
            realm := realm w;
            cells := cells w;
            notified := notified w ++ calls |}, Normal)
  end.

Definition useSharedState_in (params : Params) (w : World)
    : StateInterface * World :=
  let fixedInitialValue :=
    default (initialValue params) (memo_fixedInitialValue (cells w)) in
  let storage := useStorage w in
  let '(storedValue, storage', r) :=
    if default false (shouldSaveToStorage params)
    then StorageAdaptor.getItem (key params) storage (realm w)
    else (VUndefined, storage, realm w) in
  let val :=
    js_or (js_or (prop (ctx_read ctx (manager w)) (key params)) storedValue)
          fixedInitialValue in
  ({| value := val;
      setValue := update_in params;
      clear := update_in params (initialValue params) |},
   {| manager := manager w;
      realm := r;
      cells := {| memo_fixedInitialValue := Some fixedInitialValue;
                  memo_storage := Some storage';
                  pending_effect := Some (key params);
                  pending_cleanup := pending_cleanup (cells w) |};
      notified := notified w |}).

End HookInContext.

(** ** useStoredValue: a value kept in the storage

    The cells React keeps for one user of [useStoredValue]: the adaptor of
    [useStorage()] and the [useState] cell. *)
Record StoredCells : Type := mkStoredCells {
  stored_storage : option StorageAdaptor.t;
  stored_state : option jsval
}.

Record StoredWorld : Type := mkStoredWorld {
  stored_realm : Realm;
  stored_cells : StoredCells
}.

Section StoredValue.
Context `{Host}.

(** The closure [set] of an activation for [key]: [storage.setItem(key,
    value)], then [setValue(value)], which for a function is React's
    updater form, applied to the state. *)
Definition stored_set (key : string) (value : jsval) (sw : StoredWorld)
    : StoredWorld :=
  let storage :=
    default (StorageAdaptor.new None (stored_realm sw))
            (stored_storage (stored_cells sw)) in
  let '(a, r) := StorageAdaptor.setItem key value storage (stored_realm sw) in
  {| stored_realm := r;
     stored_cells :=
       {| stored_storage := Some a;
          stored_state :=
            Some (default value
                    (invoke value
                       (default VUndefined (stored_state (stored_cells sw))))) |} |}.

(** One activation. The argument of [useState] is computed every time and
    used the first time only; a function there is React's lazy
    initialiser, called without argument. *)
Definition useStoredValue (key : string) (defaultValue : jsval)
    (sw : StoredWorld) : (jsval * (jsval → StoredWorld → StoredWorld)) * StoredWorld :=
  let storage :=
    default (StorageAdaptor.new None (stored_realm sw))
            (stored_storage (stored_cells sw)) in
  let '(storedValue, storage', r) :=
    StorageAdaptor.getItem key storage (stored_realm sw) in
  let initial := js_or storedValue defaultValue in
  let state :=
    match stored_state (stored_cells sw) with
    | Some s => s
    | None =>
        default initial (invoke initial VUndefined)
    end in
  ((state, stored_set key),
   {| stored_realm := r;
      stored_cells := {| stored_storage := Some storage';
                         stored_state := Some state |} |}).

End StoredValue.


(** ** Sequences of operations *)

(** The calls a client can make on a state manager. *)
Inductive manager_op : Type :=
  | OpWrite (key : string) (value : jsval)
  | OpWatch (key : string) (rerenderFunction : RenderFunction)
  | OpEndWatch (key : string) (subscription : RenderFunction).

(** One call.  A [write] that throws has made its store; a
    [watchForUpdates] or an [endWatch] that throws leaves the manager as it
    was. *)
Definition manager_step `{Host} (m : StateManager.t) (op : manager_op)
    : StateManager.t :=
  match op with
  | OpWrite k v => (StateManager.write k v m).1
  | OpWatch k f => watching k f m
  | OpEndWatch k f =>
      match StateManager.endWatch k f m with
      | Ok m' => m'
      | Throw _ => m
      end
  end.

Definition manager_run `{Host} (ops : list manager_op) (m : StateManager.t)
    : StateManager.t :=
  foldl manager_step m ops.

(** [op] is a [watchForUpdates] for the key [k]. *)
Definition watches (k : string) (op : manager_op) : bool :=
  match op with
  | OpWatch k' _ => bool_decide (k' = k)
  | _ => false
  end.

(** [op] does not give the state object another prototype: it is no
    [write] of an object or [null] under ["__proto__"]. *)
Definition keeps_prototype (op : manager_op) : bool :=
  match op with
  | OpWrite k v => negb (bool_decide (k = "__proto__") && can_be_prototype v)
  | _ => true
  end.

(** The value of the last [write] to [k] among [ops], after [earlier]. *)
Definition last_written (k : string) (ops : list manager_op)
    (earlier : option jsval) : option jsval :=
  foldl (λ acc op,
           match op with
           | OpWrite k' v => if bool_decide (k' = k) then Some v else acc
           | _ => acc
           end) earlier ops.

(** What can happen to an adaptor and the realm it runs in: its own
    [getItem] and [setItem], and anything other code does to the realm. *)
Inductive adaptor_op : Type :=
  | OpGetItem (key : string)
  | OpSetItem (key : string) (value : jsval)
  | OpElsewhere (r : Realm).

Definition adaptor_step `{Host} (s : StorageAdaptor.t * Realm) (op : adaptor_op)
    : StorageAdaptor.t * Realm :=
  match op with
  | OpGetItem k =>
      ((StorageAdaptor.getItem k s.1 s.2).1.2, (StorageAdaptor.getItem k s.1 s.2).2)
  | OpSetItem k v => StorageAdaptor.setItem k v s.1 s.2
  | OpElsewhere r => (s.1, r)
  end.

Definition adaptor_run `{Host} (ops : list adaptor_op)
    (s : StorageAdaptor.t * Realm) : StorageAdaptor.t * Realm :=
  foldl adaptor_step s ops.

(** [op] does not put another object in the cache under the storage key
    [sk], for an adaptor with the prefix of [a]. *)
Definition keeps_cached (a : StorageAdaptor.t) (sk : string) (op : adaptor_op)
    : bool :=
  match op with
  | OpSetItem k v =>
      negb (is_object v && bool_decide (StorageAdaptor.getStorageKey a k = sk))
  | _ => true
  end.

(** Every property the cache of an adaptor owns is an array or an object,
    and so is its prototype. *)
Definition cache_holds_objects (a : StorageAdaptor.t) : Prop :=
  (∀ k v, StorageAdaptor.objectCache a !! k = Some v → is_object v = true)
  ∧ is_object (proto (StorageAdaptor.objectCache a)) = true.

(** The reference of a value that has one. *)
Definition reference (v : jsval) : option nat :=
  match v with
  | VArr n _ => Some n
  | VObj n _ => Some n
  | VFun n => Some n
  | _ => None
  end.

(** What happens to a consumer: an activation, the [setValue] or the
    [clear] of an activation with the given parameters, and the commit of
    the effect; each leaves the world as it is when the call ends, by a
    return or by an error. *)
Inductive hook_op : Type :=
  | OpActivate (params : Params)
  | OpSetValue (params : Params) (value : jsval)
  | OpClear (params : Params)
  | OpCommit.

Definition hook_step `{Host} (w : World) (op : hook_op) : World :=
  match op with
  | OpActivate p => (useSharedState p w).2
  | OpSetValue p v => (setValue (useSharedState p w).1 v w).1
  | OpClear p => (clear (useSharedState p w).1 w).1
  | OpCommit => (commitEffect w).1
  end.

Definition hook_run `{Host} (ops : list hook_op) (w : World) : World :=
  foldl hook_step w ops.

(** The value [update] writes: the argument, or what the function that was
    passed makes of the value of the slot. *)
Definition computed `{Host} (p : Params) (v : jsval) (w : World) : jsval :=
  default v (invoke v (prop (StateManager.read (manager w)) (key p))).

(** [n] renders of a consumer, each followed by the commit of its effect,
    up to the first commit that throws. *)
Fixpoint render_cycles `{Host} (params : Params) (n : nat) (w : World)
    : World * completion :=
  match n with
  | O => (w, Normal)
  | S n' =>
      match render_cycles params n' w with
      | (w', Normal) => commitEffect (useSharedState params w').2
      | (w', Abrupt e) => (w', Abrupt e)
      end
  end.

(** Every reference a manager holds for [k] was given out by the realm. *)
Definition subscribers_allocated (k : string) (w : World) : Prop :=
  ∀ g, g ∈ StateManager.subscribers (manager w) k → (g < next_ref (realm w))%nat.

(** The two storages of a realm, which is all of it that persists. *)
Definition stored_texts (r : Realm)
    : gmap string string * gmap string (option string) :=
  (window_localStorage r, fallbackMemory r).

(** An adaptor with the prefix ["app"], and one with the prefix
    ["app-user"]. *)
Definition app_adaptor : StorageAdaptor.t :=
  StorageAdaptor.new (Some "app") (empty_realm false).

Definition app_user_adaptor : StorageAdaptor.t :=
  StorageAdaptor.new (Some "app-user") (empty_realm false).

(** The browser adaptor after [setItem("k", {})], with its realm. *)
Definition object_set : StorageAdaptor.t * Realm :=
  StorageAdaptor.setItem (H := sample_host) "k" (VObj 1 []) browser_adaptor (empty_realm true).

(** Outside a browser, what [getItem("k")] gives where the text stored is
    [{}], and the adaptor and the realm after a [setItem("k", o)] that
    follows, for an object [o] of the consumer. *)
Definition decoded_object : jsval * StorageAdaptor.t * Realm :=
  StorageAdaptor.getItem (H := sample_host) "k" node_adaptor (holding "{}").

Definition replaced_object : StorageAdaptor.t * Realm :=
  StorageAdaptor.setItem (H := sample_host) "k" (VObj 1 [])
    decoded_object.1.2 decoded_object.2.

(** Calls that leave the object cached for ["k"] where it is. *)
Definition other_calls : list adaptor_op :=
  [ OpSetItem "k" (VNum 3); OpGetItem "j"; OpSetItem "j" (VObj 1 []);
    OpElsewhere (holding "[]") ].

(** A user of [useStoredValue] that was not activated yet, in a realm. *)
Definition stored_start (r : Realm) : StoredWorld :=
  {| stored_realm := r;
     stored_cells := {| stored_storage := None; stored_state := None |} |}.

(** * Properties of objects made by [{}] *)

Section ObjectFacts.
Context `{Host}.
Implicit Types (o : Dict) (k : string) (v : jsval).

Lemma ordinary_not_proto k : ordinary k → k ≠ "__proto__".
Proof.
  unfold ordinary, Object_prototype_has. intros Hk ->.
  by rewrite bool_decide_eq_true_2 in Hk.
Qed.

Lemma Object_prototype_ordinary k : ordinary k → Object_prototype k = VUndefined.
Proof.
  unfold ordinary, Object_prototype_has, Object_prototype.
  intros Hk. apply orb_false_iff in Hk as [H1 H2].
  by rewrite H1, H2.
Qed.

Lemma Object_prototype_truthy k :
  Object_prototype_has k = true → truthy (Object_prototype k) = true.
Proof.
  unfold Object_prototype_has, Object_prototype.
  intros Hk. apply orb_true_iff in Hk.
  destruct (bool_decide (k = "__proto__")); [done|].
  destruct Hk as [Hk|Hk]; [done|]. by rewrite Hk.
Qed.

Lemma Dict_lookup_own o k : o !! k = own o !! k.
Proof. reflexivity. Qed.

Lemma prop_own o k v : o !! k = Some v → prop o k = v.
Proof. rewrite Dict_lookup_own. unfold prop. by intros ->. Qed.

Lemma prop_plain o k :
  plain o → o !! k = None → prop o k = Object_prototype k.
Proof.
  rewrite Dict_lookup_own. unfold plain, prop. intros Hp Hk.
  by rewrite Hk, Hp.
Qed.

Lemma prop_plain_ordinary o k :
  plain o → ordinary k → prop o k = default VUndefined (o !! k).
Proof.
  intros Hp Hk. destruct (o !! k) as [v|] eqn:E.
  - by rewrite (prop_own _ _ _ E).
  - by rewrite prop_plain, Object_prototype_ordinary.
Qed.

Lemma assign_insert k v o :
  k ≠ "__proto__" →
  assign k v o = {| own := <[k := v]> (own o); proto := proto o |}.
Proof.
  intros Hk. unfold assign.
  rewrite (bool_decide_eq_false_2 _ Hk). simpl.
  by destruct (own o !! k).
Qed.

Lemma assign_proto_ignored v o :
  plain o → o !! "__proto__" = None → can_be_prototype v = false →
  assign "__proto__" v o = o.
Proof.
  rewrite Dict_lookup_own. unfold plain, assign. intros Hp Ho Hv.
  by rewrite Ho, Hp, Hv.
Qed.

Lemma assign_proto_replaced v o :
  plain o → o !! "__proto__" = None → can_be_prototype v = true →
  assign "__proto__" v o = {| own := own o; proto := v |}.
Proof.
  rewrite Dict_lookup_own. unfold plain, assign. intros Hp Ho Hv.
  by rewrite Ho, Hp, Hv.
Qed.

Lemma assign_plain k v o : k ≠ "__proto__" → plain o → plain (assign k v o).
Proof. intros Hk Hp. by rewrite assign_insert. Qed.

Lemma assign_lookup k v o : k ≠ "__proto__" → assign k v o !! k = Some v.
Proof.
  intros Hk. rewrite assign_insert, Dict_lookup_own by done.
  simpl. apply lookup_insert_eq.
Qed.

Lemma assign_lookup_ne k k' v o :
  k ≠ "__proto__" → k' ≠ k → assign k v o !! k' = o !! k'.
Proof.
  intros Hk Hne. rewrite assign_insert, !Dict_lookup_own by done.
  simpl. by rewrite lookup_insert_ne.
Qed.

Lemma assign_prop k v o : k ≠ "__proto__" → prop (assign k v o) k = v.
Proof. intros Hk. apply prop_own. by apply assign_lookup. Qed.

Lemma assign_prop_ne k k' v o :
  k ≠ "__proto__" → k' ≠ k → prop (assign k v o) k' = prop o k'.
Proof.
  intros Hk Hne. rewrite assign_insert by done.
  unfold prop. simpl. by rewrite lookup_insert_ne.
Qed.

End ObjectFacts.

(** * Properties of the state manager *)

Section StateManagerFacts.
Context `{Host}.
Import StateManager.
Implicit Types (m : StateManager.t) (k : string) (f g : RenderFunction).

Lemma occurrences_app f l1 l2 :
  occurrences f (l1 ++ l2) = occurrences f l1 + occurrences f l2.
Proof. unfold occurrences. by rewrite filter_app, length_app. Qed.

Lemma occurrences_replicate f n : occurrences f (replicate n f) = n.
Proof.
  unfold occurrences. induction n as [|n IH]; simpl; [done|].
  rewrite filter_cons_True by done. simpl. by rewrite IH.
Qed.

(** A [write] returns when the key has a list or is ordinary. *)
Lemma write_returns k v m :
  ordinary k ∨ is_Some (rerendersToTrigger m !! k) →
  (write k v m).2 =
  Ok ((λ f, mkCall f (mkArgs (prop (state m) k) v)) <$> subscribers m k).
Proof.
  unfold write, subscribers, ordinary. simpl.
  destruct (rerendersToTrigger m !! k) as [l|]; [done|].
  intros [->|[l Hl]]; done.
Qed.

(** It throws when the key has no list and [Object.prototype] has a member
    of its name. *)
Lemma write_throws k v m :
  rerendersToTrigger m !! k = None → Object_prototype_has k = true →
  (write k v m).2 = Throw TypeError.
Proof. unfold write. simpl. by intros -> ->. Qed.

Lemma write_calls_made k v m :
  calls_made (write k v m).2 =
  (λ f, mkCall f (mkArgs (prop (state m) k) v)) <$> subscribers m k.
Proof.
  unfold write, subscribers. simpl.
  destruct (rerendersToTrigger m !! k) as [l|]; [done|].
  by destruct (Object_prototype_has k).
Qed.

Lemma write_callees k v m :
  callees (calls_made (write k v m).2) = subscribers m k.
Proof.
  unfold callees. rewrite write_calls_made, <- list_fmap_compose.
  apply list_fmap_id.
Qed.

Lemma write_state k v m : state (write k v m).1 = assign k v (state m).
Proof. done. Qed.

Lemma write_rerendersToTrigger k v m :
  rerendersToTrigger (write k v m).1 = rerendersToTrigger m.
Proof. done. Qed.

Lemma write_subscribers k k' v m :
  subscribers (write k v m).1 k' = subscribers m k'.
Proof. done. Qed.

Lemma watchForUpdates_returns k f m :
  ordinary k ∨ is_Some (rerendersToTrigger m !! k) →
  ∃ m', watchForUpdates k f m = Ok m'
        ∧ watching k f m = m'
        ∧ state m' = state m
        ∧ rerendersToTrigger m' =
            <[k := subscribers m k ++ [f]]> (rerendersToTrigger m).
Proof.
  unfold watching, watchForUpdates, subscribers, ordinary.
  destruct (rerendersToTrigger m !! k) as [l|] eqn:E.
  - intros _. eexists. by repeat split.
  - intros [->|[l Hl]]; [|done]. eexists. repeat split.
    simpl. by rewrite lookup_insert_eq, insert_insert_eq.
Qed.

Lemma watchForUpdates_throws k f m :
  rerendersToTrigger m !! k = None → Object_prototype_has k = true →
  watchForUpdates k f m = Throw TypeError ∧ watching k f m = m.
Proof. unfold watching, watchForUpdates. by intros -> ->. Qed.

Lemma subscribers_watching k f m :
  ordinary k → subscribers (watching k f m) k = subscribers m k ++ [f].
Proof.
  intros Hk.
  destruct (watchForUpdates_returns k f m (or_introl Hk))
    as (m' & _ & -> & _ & Hr).
  unfold subscribers at 1. by rewrite Hr, lookup_insert_eq.
Qed.

Lemma subscribers_watching_ne k k' f m :
  k' ≠ k → subscribers (watching k f m) k' = subscribers m k'.
Proof.
  intros Hne. unfold watching, watchForUpdates, subscribers.
  destruct (rerendersToTrigger m !! k) as [l|] eqn:E; simpl.
  - by rewrite lookup_insert_ne.
  - destruct (Object_prototype_has k); [done|]. simpl.
    by rewrite !lookup_insert_ne.
Qed.

Lemma state_watching k f m : state (watching k f m) = state m.
Proof.
  unfold watching, watchForUpdates.
  destruct (rerendersToTrigger m !! k); [done|].
  by destruct (Object_prototype_has k).
Qed.

Lemma subscribers_endWatch k f m m' :
  endWatch k f m = Ok m' →
  subscribers m' k = filter (λ s, s ≠ f) (subscribers m k).
Proof.
  unfold endWatch, subscribers.
  destruct (rerendersToTrigger m !! k) as [l|]; [|done].
  intros [= <-]. simpl. by rewrite lookup_insert_eq.
Qed.

Lemma subscribers_iter_watching k f n m :
  ordinary k →
  subscribers (Nat.iter n (watching k f) m) k =
  subscribers m k ++ replicate n f.
Proof.
  intros Hk. induction n as [|n IH]; simpl.
  - by rewrite app_nil_r.
  - rewrite subscribers_watching, IH, <- app_assoc by done.
    f_equal. clear IH. induction n as [|n IH]; simpl; [done|].
    by rewrite IH.
Qed.

Lemma state_iter_watching k f n m :
  state (Nat.iter n (watching k f) m) = state m.
Proof.
  induction n as [|n IH]; simpl; [done|]. by rewrite state_watching.
Qed.

Lemma filter_ne_absent f (l : list RenderFunction) :
  f ∉ l → filter (λ s, s ≠ f) l = l.
Proof.
  induction l as [|x l IH]; [done|].
  intros Hx. apply not_elem_of_cons in Hx as [Hne Hl].
  rewrite filter_cons_True by done. by rewrite IH.
Qed.

Lemma filter_ne_single f (l1 l2 : list RenderFunction) :
  f ∉ l1 → f ∉ l2 → filter (λ s, s ≠ f) (l1 ++ f :: l2) = l1 ++ l2.
Proof.
  intros H1 H2. rewrite filter_app, filter_cons_False by (intros ?; done).
  by rewrite !filter_ne_absent.
Qed.

End StateManagerFacts.

Section StateManagerClaims.
Context `{Host}.
Import StateManager.
Implicit Types (m : StateManager.t) (k : string) (f g : RenderFunction).

(** C1, as the code has it. For a key [k] that is not the name of a member
    of [Object.prototype], on a state object that still has its first
    prototype: [write k v] returns, and the calls it made are one for each
    registration of [k], in the order of the list, each with the value [k]
    had before ([undefined] when it had none) and [v]; [watchForUpdates]
    returns and puts the callback at the end of the list, so that order is
    the order of registration and a write that follows calls it last; a
    callback is called as many times as it is registered; and a callback
    that [endWatch] removed before the write is not called. *)
Theorem write_notifies_subscribers k v m :
  ordinary k →
  plain (state m) →
  (write k v m).2 =
    Ok ((λ f, mkCall f (mkArgs (default VUndefined (state m !! k)) v))
          <$> subscribers m k)
  ∧ (∀ f, ∃ m', watchForUpdates k f m = Ok m'
        ∧ subscribers m' k = subscribers m k ++ [f]
        ∧ (write k v m').2 =
            Ok ((λ f, mkCall f (mkArgs (default VUndefined (state m !! k)) v))
                  <$> (subscribers m k ++ [f])))
  ∧ (∀ f, occurrences f (callees (calls_made (write k v m).2))
          = occurrences f (subscribers m k))
  ∧ (∀ f m0, endWatch k f m0 = Ok m →
       f ∉ callees (calls_made (write k v m).2)).
Proof.
  intros Hk Hp.
  split.
  { rewrite write_returns by (by left). by rewrite prop_plain_ordinary. }
  split.
  { intros f.
    destruct (watchForUpdates_returns k f m (or_introl Hk))
      as (m' & Hw & _ & Hs & Hr).
    exists m'. split; [done|].
    assert (Hsub : subscribers m' k = subscribers m k ++ [f]).
    { unfold subscribers at 1. by rewrite Hr, lookup_insert_eq. }
    split; [done|].
    rewrite write_returns by (by left).
    rewrite Hsub, Hs. by rewrite prop_plain_ordinary. }
  split; [intros f; by rewrite write_callees|].
  intros f m0 Hend. rewrite write_callees.
  rewrite (subscribers_endWatch _ _ _ _ Hend), list_elem_of_filter.
  by intros [Hne _].
Qed.

(** C2, as the code has it. For a key other than ["__proto__"], on a state
    object that still has its first prototype: after [write k v] the
    mapping [read()] returns owns [k], and reads [v] itself there, also
    when the [write] threw after its store. *)
Theorem read_after_write k v m :
  k ≠ "__proto__" →
  plain (state m) →
  read (write k v m).1 !! k = Some v
  ∧ prop (read (write k v m).1) k = v
  ∧ plain (read (write k v m).1).
Proof.
  intros Hk Hp. unfold read. rewrite write_state.
  split; [by apply assign_lookup|].
  split; [by apply assign_prop|].
  by apply assign_plain.
Qed.

(** C6, as the code has it. When [k] has a subscriber list, [endWatch k f]
    succeeds and leaves in it the callbacks other than [f], in their order:
    every occurrence of [f] is gone, which is the only one when [f] was
    registered once; nothing changes when [f] is not in the list; the
    values and the lists of the other keys are untouched. *)
Theorem endWatch_removes_by_identity k f m (renders : list RenderFunction) :
  rerendersToTrigger m !! k = Some renders →
  ∃ m', endWatch k f m = Ok m'
    ∧ subscribers m' k = filter (λ s, s ≠ f) renders
    ∧ (f ∉ subscribers m' k)
    ∧ (∀ g, g ≠ f → occurrences g (subscribers m' k) = occurrences g renders)
    ∧ (∀ l1 l2, renders = l1 ++ f :: l2 → f ∉ l1 → f ∉ l2 →
         subscribers m' k = l1 ++ l2)
    ∧ (f ∉ renders → m' = m)
    ∧ state m' = state m
    ∧ (∀ k', k' ≠ k → rerendersToTrigger m' !! k' = rerendersToTrigger m !! k').
Proof.
  intros Hk. unfold endWatch. rewrite Hk. eexists. split; [done|].
  unfold subscribers. simpl. rewrite lookup_insert_eq. simpl.
  split; [done|]. split.
  { rewrite list_elem_of_filter. by intros [Hne _]. }
  split.
  { intros g Hg. unfold occurrences. rewrite list_filter_filter.
    f_equal. apply list_filter_iff. intros x. split; [by intros [? ?]|].
    intros ->. done. }
  split.
  { intros l1 l2 -> H1 H2. by apply filter_ne_single. }
  split.
  { intros Hf. rewrite filter_ne_absent by done.
    rewrite insert_id by done. by destruct m. }
  split; [done|].
  intros k' Hne. by rewrite lookup_insert_ne.
Qed.

(** C9, as the code has it. For a key other than ["__proto__"], on a state
    object that still has its first prototype: [write k v] changes the
    value of [k] and nothing else.  The other names are owned and read as
    before and the prototype is the same, every subscriber list is as
    before, and the calls made go to the subscribers of [k], so a callback
    that is registered under other keys only is not called. *)
Theorem write_frame k v m :
  k ≠ "__proto__" →
  plain (state m) →
  (∀ k', k' ≠ k →
     state (write k v m).1 !! k' = state m !! k'
     ∧ prop (state (write k v m).1) k' = prop (state m) k')
  ∧ plain (state (write k v m).1)
  ∧ rerendersToTrigger (write k v m).1 = rerendersToTrigger m
  ∧ callees (calls_made (write k v m).2) = subscribers m k
  ∧ (∀ k' g, k' ≠ k → g ∈ subscribers m k' → g ∉ subscribers m k →
       g ∉ callees (calls_made (write k v m).2)).
Proof.
  intros Hk Hp. rewrite write_state.
  split.
  { intros k' Hne. split; [by apply assign_lookup_ne|by apply assign_prop_ne]. }
  split; [by apply assign_plain|].
  split; [done|].
  split; [apply write_callees|].
  intros k' g _ _ Hg. by rewrite write_callees.
Qed.

(** C10, as the code has it. For a key that is not the name of a member of
    [Object.prototype], on a state object that still has its first
    prototype, [watchForUpdates] returns and does not deduplicate: [n]
    registrations of [f] under [k] put [n] more copies of [f] at the end of
    the list of [k], and a write to [k] then returns after calling [f] [n]
    more times; on a manager where [f] was not registered, that is a list
    with [f] [n] times and [n] calls. *)
Theorem watchForUpdates_keeps_duplicates k f n m v :
  ordinary k →
  plain (state m) →
  let m' := Nat.iter n (watching k f) m in
  (∀ m0, ∃ m1, watchForUpdates k f m0 = Ok m1 ∧ watching k f m0 = m1)
  ∧ subscribers m' k = subscribers m k ++ replicate n f
  ∧ occurrences f (subscribers m' k) = occurrences f (subscribers m k) + n
  ∧ (∃ calls, (write k v m').2 = Ok calls
       ∧ occurrences f (callees calls) = occurrences f (subscribers m k) + n)
  ∧ subscribers (Nat.iter n (watching k f) new) k = replicate n f
  ∧ (∃ calls, (write k v (Nat.iter n (watching k f) new)).2 = Ok calls
       ∧ occurrences f (callees calls) = n).
Proof.
  intros Hk Hp m'. unfold m'.
  assert (Hocc : ∀ m0, occurrences f (subscribers (Nat.iter n (watching k f) m0) k)
                       = occurrences f (subscribers m0 k) + n).
  { intros m0.
    by rewrite subscribers_iter_watching, occurrences_app, occurrences_replicate. }
  assert (Hcalls : ∀ m0, ∃ calls,
            (write k v (Nat.iter n (watching k f) m0)).2 = Ok calls
            ∧ occurrences f (callees calls) = occurrences f (subscribers m0 k) + n).
  { intros m0. eexists. split; [apply write_returns; by left|].
    unfold callees. rewrite <- list_fmap_compose, list_fmap_id. apply Hocc. }
  split.
  { intros m0.
    destruct (watchForUpdates_returns k f m0 (or_introl Hk)) as (m1 & ? & ? & _).
    by exists m1. }
  split; [by apply subscribers_iter_watching|].
  split; [apply Hocc|].
  split; [apply Hcalls|].
  split; [by rewrite subscribers_iter_watching|].
  apply Hcalls.
Qed.

End StateManagerClaims.

(** ** The state manager on concrete inputs *)

Section StateManagerSamples.
#[local] Existing Instance sample_host.

(** C1, as stated, fails for the key ["toString"]: subscribing throws a
    [TypeError] and registers nothing, and the write that follows stores
    the value, throws a [TypeError] and calls nobody. *)
Lemma subscription_under_toString_fails :
  StateManager.watchForUpdates "toString" 1 StateManager.new = Throw TypeError
  ∧ watching "toString" 1 StateManager.new = StateManager.new
  ∧ (StateManager.write "toString" (VNum 5) StateManager.new).2 = Throw TypeError
  ∧ StateManager.state (StateManager.write "toString" (VNum 5) StateManager.new).1
      !! "toString" = Some (VNum 5)
  ∧ 1%nat ∉ callees (calls_made
                       (StateManager.write "toString" (VNum 5) StateManager.new).2).
Proof.
  repeat split; try (vm_compute; reflexivity).
  vm_compute. by intros ?%elem_of_nil.
Qed.

Lemma write_notifies_subscribers_witness :
  ordinary "k"
  ∧ plain (StateManager.state second_subscriber_only)
  ∧ StateManager.endWatch "k" 1 two_subscribers = Ok second_subscriber_only
  ∧ 1%nat ∉ callees (calls_made
                       (StateManager.write "k" (VNum 5) second_subscriber_only).2).
Proof.
  assert (Hk : ordinary "k") by (vm_compute; reflexivity).
  assert (Hp : plain (StateManager.state second_subscriber_only))
    by (vm_compute; reflexivity).
  assert (E : StateManager.endWatch "k" 1 two_subscribers = Ok second_subscriber_only)
    by (vm_compute; reflexivity).
  split; [exact Hk|]. split; [exact Hp|]. split; [exact E|].
  exact (proj2 (proj2 (proj2
    (write_notifies_subscribers "k" (VNum 5) second_subscriber_only Hk Hp)))
    1%nat two_subscribers E).
Defined.

(** C2, as stated, fails for the key ["__proto__"]: the setter of
    [Object.prototype] ignores the number, [read()] owns no such name and
    reads [Object.prototype] there; the manager is as before, and the
    write threw. *)
Lemma write_under_proto_is_ignored :
  StateManager.read (StateManager.write "__proto__" (VNum 5) StateManager.new).1
    !! "__proto__" = None
  ∧ prop (StateManager.read
            (StateManager.write "__proto__" (VNum 5) StateManager.new).1)
         "__proto__" = VObjectPrototype
  ∧ VObjectPrototype ≠ VNum 5
  ∧ (StateManager.write "__proto__" (VNum 5) StateManager.new).1 = StateManager.new
  ∧ (StateManager.write "__proto__" (VNum 5) StateManager.new).2 = Throw TypeError.
Proof. repeat split; try (vm_compute; reflexivity). discriminate. Qed.

Lemma read_after_write_witness :
  "toString" ≠ "__proto__"
  ∧ plain (StateManager.state two_subscribers)
  ∧ prop (StateManager.read
            (StateManager.write "toString" (VNum 5) two_subscribers).1)
         "toString" = VNum 5.
Proof.
  assert (Hk : "toString" ≠ "__proto__") by discriminate.
  assert (Hp : plain (StateManager.state two_subscribers))
    by (vm_compute; reflexivity).
  split; [exact Hk|]. split; [exact Hp|].
  exact (proj1 (proj2
    (read_after_write "toString" (VNum 5) two_subscribers Hk Hp))).
Defined.

(** C6, as stated, fails. With [1] registered twice around [2],
    [endWatch "k" 1] leaves [[2]], not the list [[2; 1]] that losing the
    first occurrence gives; and on a manager with no list for ["k"] it
    throws a [TypeError] instead of doing nothing. *)
Lemma endWatch_is_not_first_only :
  StateManager.endWatch "k" 1 registered_twice
    ≠ endWatch_first_only "k" 1 registered_twice
  ∧ StateManager.endWatch "k" 1 registered_twice
    = Ok {| StateManager.state := ∅;
            StateManager.rerendersToTrigger := {[ "k" := [2%nat] ]} |}
  ∧ endWatch_first_only "k" 1 registered_twice
    = Ok {| StateManager.state := ∅;
            StateManager.rerendersToTrigger := {[ "k" := [2%nat; 1%nat] ]} |}
  ∧ StateManager.endWatch "k" 1 StateManager.new = Throw TypeError
  ∧ endWatch_first_only "k" 1 StateManager.new = Ok StateManager.new.
Proof.
  assert (E1 : StateManager.endWatch "k" 1 registered_twice
    = Ok {| StateManager.state := ∅;
            StateManager.rerendersToTrigger := {[ "k" := [2%nat] ]} |})
    by (vm_compute; reflexivity).
  assert (E2 : endWatch_first_only "k" 1 registered_twice
    = Ok {| StateManager.state := ∅;
            StateManager.rerendersToTrigger := {[ "k" := [2%nat; 1%nat] ]} |})
    by (vm_compute; reflexivity).
  split; [|repeat split; done].
  rewrite E1, E2. intros [= Heq].
Qed.

Lemma endWatch_removes_by_identity_witness :
  StateManager.rerendersToTrigger two_subscribers !! "k" = Some [1%nat; 2%nat]
  ∧ ∃ m', StateManager.endWatch "k" 1 two_subscribers = Ok m'
          ∧ StateManager.subscribers m' "k" = filter (λ s, s ≠ 1%nat) [1%nat; 2%nat].
Proof.
  assert (E : StateManager.rerendersToTrigger two_subscribers !! "k"
              = Some [1%nat; 2%nat]) by (vm_compute; reflexivity).
  split; [exact E|].
  destruct (endWatch_removes_by_identity "k" 1%nat two_subscribers _ E)
    as (m' & Hok & Hsubs & _).
  exists m'. split; [exact Hok | exact Hsubs].
Defined.

(** C9, as stated, fails for the key ["__proto__"]: writing an object
    there makes it the prototype of the state object, so the name ["a"],
    which read [undefined], reads the member [a] of that object. *)
Lemma write_under_proto_changes_other_keys :
  prop (StateManager.state StateManager.new) "a" = VUndefined
  ∧ prop reparented "a" = VNum 1
  ∧ proto reparented = VObj 1 [("a", JNum 1)]
  ∧ reparented !! "a" = None.
Proof. repeat split; vm_compute; reflexivity. Qed.

Lemma write_frame_witness :
  "k" ≠ "__proto__"
  ∧ plain (StateManager.state two_subscribers_one_value)
  ∧ "j" ≠ "k"
  ∧ StateManager.state
      (StateManager.write "k" (VNum 5) two_subscribers_one_value).1 !! "j"
    = Some (VNum 1).
Proof.
  assert (Hk : "k" ≠ "__proto__") by discriminate.
  assert (Hp : plain (StateManager.state two_subscribers_one_value))
    by (vm_compute; reflexivity).
  assert (Hne : "j" ≠ "k") by discriminate.
  assert (E : StateManager.state two_subscribers_one_value !! "j" = Some (VNum 1))
    by (vm_compute; reflexivity).
  split; [exact Hk|]. split; [exact Hp|]. split; [exact Hne|].
  exact (eq_trans
    (proj1 (proj1 (write_frame "k" (VNum 5) two_subscribers_one_value Hk Hp)
                  "j" Hne)) E).
Defined.

(** C10, as stated, fails for the key ["toString"]: each of three
    registrations throws a [TypeError], no list is made, and the write
    that follows calls nobody. *)
Lemma registrations_under_toString_are_lost :
  StateManager.watchForUpdates "toString" 1 StateManager.new = Throw TypeError
  ∧ StateManager.rerendersToTrigger
      (Nat.iter 3 (watching "toString" 1) StateManager.new) !! "toString" = None
  ∧ StateManager.subscribers
      (Nat.iter 3 (watching "toString" 1) StateManager.new) "toString"
    ≠ replicate 3 1%nat
  ∧ occurrences 1
      (callees (calls_made
         (StateManager.write "toString" (VNum 5)
            (Nat.iter 3 (watching "toString" 1) StateManager.new)).2)) = 0%nat.
Proof. repeat split; try (vm_compute; reflexivity). vm_compute. discriminate. Qed.

Lemma watchForUpdates_keeps_duplicates_witness :
  ordinary "k"
  ∧ plain (StateManager.state StateManager.new)
  ∧ StateManager.subscribers (Nat.iter 2 (watching "k" 1) StateManager.new) "k"
    = replicate 2 1%nat.
Proof.
  assert (Hk : ordinary "k") by (vm_compute; reflexivity).
  assert (Hp : plain (StateManager.state StateManager.new))
    by (vm_compute; reflexivity).
  split; [exact Hk|]. split; [exact Hp|].
  exact (proj1 (proj2 (proj2 (proj2 (proj2
    (watchForUpdates_keeps_duplicates "k" 1%nat 2 StateManager.new VUndefined
       Hk Hp)))))).
Defined.

End StateManagerSamples.

(** * Properties of the storage adaptor *)

Section StorageAdaptorFacts.
Context `{Host}.
Import StorageAdaptor.
Implicit Types (a : StorageAdaptor.t) (r : Realm) (v : jsval).

Lemma is_object_typeof v :
  is_object v = true ↔ typeof v = TObject ∧ v ≠ VNull.
Proof. destruct v; simpl; split; try done; by intros [? ?]. Qed.

Lemma is_function_typeof v : is_function v = true ↔ typeof v = TFunction.
Proof. by destruct v. Qed.

Lemma is_object_truthy v : is_object v = true → truthy v = true.
Proof. by destruct v. Qed.

Lemma reify_composite tree r :
  is_composite tree = true →
  ∃ v, reify tree r = (v, advance (composites tree) r)
       ∧ is_object v = true
       ∧ content v = Some tree
       ∧ reference v = Some (next_ref r).
Proof.
  destruct tree; try discriminate; intros _; eexists; by repeat split.
Qed.

Lemma reify_primitive tree r :
  is_composite tree = false →
  ∃ v, reify tree r = (v, r) ∧ is_object v = false ∧ content v = Some tree.
Proof.
  destruct tree; try discriminate; intros _; simpl; eexists; eauto.
Qed.

Lemma composites_pos tree : is_composite tree = true → (0 < composites tree)%nat.
Proof. destruct tree; try discriminate; intros _; simpl; lia. Qed.

(** An assignment leaves the properties of the other names as they are,
    whatever it does to the prototype. *)
Lemma assign_lookup_other k k' v (o : Dict) :
  k' ≠ k → assign k v o !! k' = o !! k'.
Proof.
  intros Hne. rewrite !Dict_lookup_own. unfold assign.
  destruct (own o !! k); simpl; [by rewrite lookup_insert_ne|].
  destruct (bool_decide (k = "__proto__") && reaches_proto_setter (proto o)).
  - by destruct (can_be_prototype v).
  - simpl. by rewrite lookup_insert_ne.
Qed.

(** On an object with its first prototype, a name that reads falsy is
    assigned as a property. *)
Lemma assign_falsy k v (o : Dict) :
  plain o → truthy (prop o k) = false →
  assign k v o = {| own := <[k := v]> (own o); proto := proto o |}.
Proof.
  intros Hp Hf. destruct (decide (k = "__proto__")) as [->|Hk].
  - unfold assign. destruct (own o !! "__proto__") eqn:E; [done|].
    rewrite prop_plain in Hf by done. done.
  - by apply assign_insert.
Qed.

Lemma getItem_cached key a r v :
  objectCache a !! getStorageKey a key = Some v →
  truthy v = true →
  getItem key a r = (v, a, r).
Proof.
  intros Hc Ht. unfold getItem. rewrite (prop_own _ _ _ Hc). by rewrite Ht.
Qed.

(** What the cache reads for the key is returned when it is truthy,
    whether the cache owns it or inherits it. *)
Lemma getItem_hit key a r :
  truthy (prop (objectCache a) (getStorageKey a key)) = true →
  getItem key a r = (prop (objectCache a) (getStorageKey a key), a, r).
Proof. intros Ht. unfold getItem. by rewrite Ht. Qed.

Lemma getItem_miss key a r :
  truthy (prop (objectCache a) (getStorageKey a key)) = false →
  getItem key a r =
    match decode (getStorageKey a key)
            (Storage.getItem (storage a) (getStorageKey a key) r) a r with
    | Ok returned => returned
    | Throw _ => (VUndefined, a, r)
    end.
Proof. intros Hm. unfold getItem. by rewrite Hm. Qed.

Lemma getItem_prefix key a r : prefix (getItem key a r).1.2 = prefix a.
Proof.
  unfold getItem. destruct (truthy _); [done|].
  unfold decode. destruct (Storage.getItem _ _ _) as [text| |]; [|done..].
  destruct (String.eqb text ""); [done|].
  destruct (JSON_parse text) as [tree|]; [|done].
  destruct (reify tree r) as [v r']. by destruct (is_object v).
Qed.

Lemma getItem_storage key a r : storage (getItem key a r).1.2 = storage a.
Proof.
  unfold getItem. destruct (truthy _); [done|].
  unfold decode. destruct (Storage.getItem _ _ _) as [text| |]; [|done..].
  destruct (String.eqb text ""); [done|].
  destruct (JSON_parse text) as [tree|]; [|done].
  destruct (reify tree r) as [v r']. by destruct (is_object v).
Qed.

(** A cached object stays where it is through any [getItem]. *)
Lemma getItem_keeps_cached key a r sk v :
  objectCache a !! sk = Some v →
  is_object v = true →
  objectCache (getItem key a r).1.2 !! sk = Some v.
Proof.
  intros Hc Hobj. unfold getItem.
  destruct (truthy (prop (objectCache a) (getStorageKey a key))) eqn:Ht; [done|].
  unfold decode. destruct (Storage.getItem _ _ _) as [text| |]; [|done..].
  destruct (String.eqb text ""); [done|].
  destruct (JSON_parse text) as [tree|]; [|done].
  destruct (reify tree r) as [v' r']. destruct (is_object v'); [|done].
  simpl. destruct (decide (getStorageKey a key = sk)) as [Heq|Hne].
  - rewrite Heq, (prop_own _ _ _ Hc) in Ht.
    by rewrite (is_object_truthy _ Hobj) in Ht.
  - by rewrite assign_lookup_other.
Qed.

Lemma getStorageKey_prefix a a' key :
  prefix a' = prefix a → getStorageKey a' key = getStorageKey a key.
Proof. unfold getStorageKey. by intros ->. Qed.

Lemma setItem_prefix key v a r : prefix (setItem key v a r).1 = prefix a.
Proof. unfold setItem. simpl. by destruct (is_object v). Qed.

Lemma setItem_storage key v a r : storage (setItem key v a r).1 = storage a.
Proof. unfold setItem. simpl. by destruct (is_object v). Qed.

(** [setItem] with a primitive leaves the adaptor as it was, with
    whatever object it held for the key. *)
Lemma setItem_primitive key v a r :
  is_object v = false → (setItem key v a r).1 = a.
Proof. intros Hobj. unfold setItem. simpl. by rewrite Hobj. Qed.

Lemma setItem_keeps_cached key v a r sk v0 :
  objectCache a !! sk = Some v0 →
  is_object v = false ∨ getStorageKey a key ≠ sk →
  objectCache (setItem key v a r).1 !! sk = Some v0.
Proof.
  intros Hc Hop. unfold setItem. simpl.
  destruct (is_object v) eqn:Hobj; [|done].
  destruct Hop as [?|Hne]; [done|]. simpl. by rewrite assign_lookup_other.
Qed.

Lemma adaptor_step_prefix s op : prefix (adaptor_step s op).1 = prefix s.1.
Proof.
  destruct op as [k|k v|r']; [apply getItem_prefix|apply setItem_prefix|done].
Qed.

Lemma adaptor_step_keeps_cached a0 s op sk v :
  prefix s.1 = prefix a0 →
  objectCache s.1 !! sk = Some v →
  is_object v = true →
  keeps_cached a0 sk op = true →
  objectCache (adaptor_step s op).1 !! sk = Some v.
Proof.
  intros Hpre Hc Hobj Hop. destruct op as [k|k v'|r'].
  - by apply getItem_keeps_cached.
  - apply (setItem_keeps_cached k v' s.1 s.2); [done|].
    simpl in Hop. apply negb_true_iff, andb_false_iff in Hop as [?|Hk];
      [by left|right].
    rewrite (getStorageKey_prefix a0) by done.
    by apply bool_decide_eq_false in Hk.
  - done.
Qed.

Lemma adaptor_run_keeps_cached a0 ops s sk v :
  prefix s.1 = prefix a0 →
  objectCache s.1 !! sk = Some v →
  is_object v = true →
  Forall (λ op, keeps_cached a0 sk op = true) ops →
  prefix (adaptor_run ops s).1 = prefix a0
  ∧ objectCache (adaptor_run ops s).1 !! sk = Some v.
Proof.
  intros Hpre Hc Hobj Hops. revert s Hpre Hc.
  induction Hops as [|op ops Hop _ IH]; intros s Hpre Hc; simpl; [done|].
  apply IH.
  - by rewrite adaptor_step_prefix.
  - by apply (adaptor_step_keeps_cached a0).
Qed.

End StorageAdaptorFacts.

Section StorageAdaptorClaims.
Context `{Host}.
Import StorageAdaptor.
Implicit Types (a : StorageAdaptor.t) (r : Realm) (v : jsval).

(** C8, as the code has it. On an adaptor whose cache still has its first
    prototype, when the cache reads nothing for the key (so the storage
    key is not the name of a member of [Object.prototype]) and [getItem]
    decodes the stored text: an array or an object is a new instance, which
    is cached, and every later [getItem] for the key returns that very
    instance without reading or decoding anything, whatever the storage
    holds by then and whatever calls of [getItem] and [setItem] came in
    between, as long as none of them gave [setItem] another object for the
    key; a primitive is returned and the adaptor is left as it was, so the
    next [getItem] reads the storage and decodes again, and returns what
    the storage holds at that time.  [setItem] does not cache a primitive
    either. *)
Theorem getItem_caches_objects_only key a r text tree :
  plain (objectCache a) →
  truthy (prop (objectCache a) (getStorageKey a key)) = false →
  Storage.getItem (storage a) (getStorageKey a key) r = Text text →
  text ≠ "" →
  JSON_parse text = Some tree →
  (is_composite tree = true →
     ∃ v a1, getItem key a r = (v, a1, advance (composites tree) r)
       ∧ is_object v = true
       ∧ content v = Some tree
       ∧ reference v = Some (next_ref r)
       ∧ objectCache a1 !! getStorageKey a key = Some v
       ∧ (∀ ops r1,
            Forall (λ op, keeps_cached a (getStorageKey a key) op = true) ops →
            getItem key (adaptor_run ops (a1, r1)).1 (adaptor_run ops (a1, r1)).2
            = (v, (adaptor_run ops (a1, r1)).1, (adaptor_run ops (a1, r1)).2)))
  ∧ (is_composite tree = false →
     ∃ v, getItem key a r = (v, a, r)
       ∧ is_object v = false
       ∧ content v = Some tree
       ∧ (∀ r2 text2 tree2,
            Storage.getItem (storage a) (getStorageKey a key) r2 = Text text2 →
            text2 ≠ "" →
            JSON_parse text2 = Some tree2 →
            (getItem key (getItem key a r).1.2 r2).1.1 = (reify tree2 r2).1))
  ∧ (∀ v r1, is_object v = false → (setItem key v a r1).1 = a).
Proof.
  intros Hplain Hmiss Hitem Htext Hparse.
  assert (Hneq : String.eqb text "" = false) by by apply String.eqb_neq.
  split; [|split]; [intros Hshape..|].
  - destruct (reify_composite tree r Hshape) as (v & Hv & Hobj & Hcontent & Href).
    exists v. eexists. split.
    { rewrite getItem_miss by done. unfold decode.
      rewrite Hitem, Hneq, Hparse, Hv, Hobj. reflexivity. }
    split; [done|]. split; [done|]. split; [done|].
    assert (Hcached :
      assign (getStorageKey a key) v (objectCache a) !! getStorageKey a key = Some v).
    { rewrite assign_falsy, Dict_lookup_own by done. simpl.
      apply lookup_insert_eq. }
    split; [done|].
    intros ops r1 Hops.
    destruct (adaptor_run_keeps_cached a ops
                ({| prefix := prefix a; storage := storage a;
                    objectCache := assign (getStorageKey a key) v (objectCache a) |},
                 r1)
                (getStorageKey a key) v eq_refl Hcached Hobj Hops) as [Hpre Hc].
    apply getItem_cached; [|by apply is_object_truthy].
    by rewrite (getStorageKey_prefix a).
  - destruct (reify_primitive tree r Hshape) as (v & Hv & Hobj & Hcontent).
    assert (Hget : getItem key a r = (v, a, r)).
    { rewrite getItem_miss by done. unfold decode.
      rewrite Hitem, Hneq, Hparse, Hv, Hobj. reflexivity. }
    exists v. split; [done|]. split; [done|]. split; [done|].
    intros r2 text2 tree2 Hitem2 Htext2 Hparse2.
    rewrite Hget. simpl. rewrite getItem_miss by done. unfold decode.
    rewrite Hitem2, Hparse2.
    rewrite (proj2 (String.eqb_neq text2 "")) by done.
    destruct (reify tree2 r2) as [v2 r2']. by destruct (is_object v2).
  - intros v r1 Hobj. by apply setItem_primitive.
Qed.

End StorageAdaptorClaims.

(** * Properties of the consumer hook *)

Section HookFacts.
Context `{Host}.
Implicit Types (p : Params) (w : World) (v : jsval).

Lemma reify_content tree r : content (reify tree r).1 = Some tree.
Proof. by destruct tree. Qed.

Lemma reify_isBrowser tree r : isBrowser (reify tree r).2 = isBrowser r.
Proof. by destruct tree. Qed.

Lemma reify_reference tree r :
  is_composite tree = true → reference (reify tree r).1 = Some (next_ref r).
Proof. by destruct tree. Qed.

Lemma content_truthy v v' tree :
  content v = Some tree → content v' = Some tree → truthy v' = truthy v.
Proof. destruct v, v'; simpl; congruence. Qed.

Lemma content_same v v' tree :
  content v = Some tree → content v' = Some tree → same_content v v'.
Proof. destruct v, v'; simpl; congruence. Qed.

Lemma content_is_object v v' tree :
  content v = Some tree → content v' = Some tree → is_object v' = is_object v.
Proof. destruct v, v'; simpl; congruence. Qed.

Lemma content_primitive v v' tree :
  content v = Some tree → content v' = Some tree → is_object v = false → v' = v.
Proof. destruct v, v'; simpl; congruence. Qed.

Lemma content_composite v tree :
  content v = Some tree → is_composite tree = is_object v.
Proof. destruct v; simpl; try congruence; by intros [= <-]. Qed.

Lemma invoke_not_function v x : is_function v = false → invoke v x = None.
Proof. by destruct v. Qed.

Lemma getItem_isBrowser key a r :
  isBrowser (StorageAdaptor.getItem key a r).2 = isBrowser r.
Proof.
  unfold StorageAdaptor.getItem. destruct (truthy _); [done|].
  unfold StorageAdaptor.decode.
  destruct (Storage.getItem _ _ _) as [text| |]; [|done..].
  destruct (String.eqb text ""); [done|].
  destruct (JSON_parse text) as [tree|]; [|done].
  pose proof (reify_isBrowser tree r) as Hb.
  by destruct (reify tree r) as [v r'].
Qed.

Lemma getItem_decoded key a r text tree :
  truthy (prop (StorageAdaptor.objectCache a) (StorageAdaptor.getStorageKey a key))
    = false →
  Storage.getItem (StorageAdaptor.storage a) (StorageAdaptor.getStorageKey a key) r
    = Text text →
  text ≠ "" →
  JSON_parse text = Some tree →
  (StorageAdaptor.getItem key a r).1.1 = (reify tree r).1.
Proof.
  intros Hmiss Hitem Htext Hparse.
  rewrite getItem_miss by done. unfold StorageAdaptor.decode.
  rewrite Hitem, Hparse, (proj2 (String.eqb_neq text "")) by done.
  by destruct (reify tree r) as [v r'].
Qed.

Lemma getItem_decoded_realm key a r text tree :
  truthy (prop (StorageAdaptor.objectCache a) (StorageAdaptor.getStorageKey a key))
    = false →
  Storage.getItem (StorageAdaptor.storage a) (StorageAdaptor.getStorageKey a key) r
    = Text text →
  text ≠ "" →
  JSON_parse text = Some tree →
  (StorageAdaptor.getItem key a r).2 = (reify tree r).2.
Proof.
  intros Hmiss Hitem Htext Hparse.
  rewrite getItem_miss by done. unfold StorageAdaptor.decode.
  rewrite Hitem, Hparse, (proj2 (String.eqb_neq text "")) by done.
  by destruct (reify tree r) as [v r'].
Qed.

Lemma getItem_undecodable key a r text :
  truthy (prop (StorageAdaptor.objectCache a) (StorageAdaptor.getStorageKey a key))
    = false →
  Storage.getItem (StorageAdaptor.storage a) (StorageAdaptor.getStorageKey a key) r
    = Text text →
  JSON_parse text = None →
  StorageAdaptor.getItem key a r = (VUndefined, a, r).
Proof.
  intros Hmiss Hitem Hparse.
  rewrite getItem_miss by done. unfold StorageAdaptor.decode.
  rewrite Hitem, Hparse. by destruct (String.eqb text "").
Qed.

(** A new adaptor has nothing cached: what its cache reads is what
    [Object.prototype] has under the name. *)
Lemma new_adaptor_cache prefix r key :
  prop (StorageAdaptor.objectCache (StorageAdaptor.new prefix r)) key
  = Object_prototype key.
Proof. done. Qed.

(** The value an activation returns, in terms of what it read. *)
Lemma useSharedState_value p w :
  value (useSharedState p w).1 =
    js_or (js_or (prop (StateManager.read (manager w)) (key p))
                 (if default false (shouldSaveToStorage p)
                  then (StorageAdaptor.getItem (key p) (useStorage w) (realm w)).1.1
                  else VUndefined))
          (default (initialValue p) (memo_fixedInitialValue (cells w))).
Proof.
  unfold useSharedState. simpl.
  destruct (default false (shouldSaveToStorage p)); [|done].
  by destruct (StorageAdaptor.getItem _ _ _) as [[sv a'] r'].
Qed.

Lemma useSharedState_cells p w :
  memo_fixedInitialValue (cells (useSharedState p w).2)
    = Some (default (initialValue p) (memo_fixedInitialValue (cells w)))
  ∧ memo_storage (cells (useSharedState p w).2)
    = Some (if default false (shouldSaveToStorage p)
            then (StorageAdaptor.getItem (key p) (useStorage w) (realm w)).1.2
            else useStorage w)
  ∧ realm (useSharedState p w).2
    = (if default false (shouldSaveToStorage p)
       then (StorageAdaptor.getItem (key p) (useStorage w) (realm w)).2
       else realm w)
  ∧ manager (useSharedState p w).2 = manager w.
Proof.
  unfold useSharedState. simpl.
  destruct (default false (shouldSaveToStorage p)); [|done].
  by destruct (StorageAdaptor.getItem _ _ _) as [[sv a'] r'].
Qed.

Lemma useSharedState_closures p w :
  setValue (useSharedState p w).1 = update p
  ∧ clear (useSharedState p w).1 = update p (initialValue p).
Proof.
  unfold useSharedState. simpl.
  destruct (default false (shouldSaveToStorage p)); [|done].
  by destruct (StorageAdaptor.getItem _ _ _) as [[sv a'] r'].
Qed.

Lemma useStorage_adaptor_of_realm w :
  adaptor_of_realm w →
  StorageAdaptor.prefix (useStorage w) = None
  ∧ StorageAdaptor.storage (useStorage w)
    = (if isBrowser (realm w) then localStorage else fallbackStorage).
Proof.
  unfold adaptor_of_realm, useStorage.
  by destruct (memo_storage (cells w)).
Qed.

Lemma useSharedState_adaptor_of_realm p w :
  adaptor_of_realm w → adaptor_of_realm (useSharedState p w).2.
Proof.
  intros Hwf. destruct (useStorage_adaptor_of_realm w Hwf) as [Hp Hs].
  destruct (useSharedState_cells p w) as (_ & Ha & Hr & _).
  unfold adaptor_of_realm. rewrite Ha, Hr.
  destruct (default false (shouldSaveToStorage p)).
  - by rewrite getItem_prefix, getItem_storage, getItem_isBrowser.
  - done.
Qed.

Lemma storage_setItem_isBrowser s k text r :
  isBrowser (Storage.setItem s k text r) = isBrowser r.
Proof. by destruct s. Qed.

(** The manager [update] leaves is the one its [write] leaves. *)
Lemma update_manager p v w :
  manager (update p v w).1
  = (StateManager.write (key p) (computed p v w) (manager w)).1.
Proof.
  unfold update, computed. simpl.
  destruct (StateManager.rerendersToTrigger (manager w) !! key p); simpl.
  - by destruct (default false (shouldSaveToStorage p)).
  - destruct (Object_prototype_has (key p)); [done|].
    by destruct (default false (shouldSaveToStorage p)).
Qed.

(** [update] ends as its [write] does. *)
Lemma update_completion p v w :
  (update p v w).2
  = match (StateManager.write (key p) (computed p v w) (manager w)).2 with
    | Ok _ => Normal
    | Throw e => Abrupt e
    end.
Proof.
  unfold update, computed. simpl.
  destruct (StateManager.rerendersToTrigger (manager w) !! key p); simpl.
  - by destruct (default false (shouldSaveToStorage p)).
  - destruct (Object_prototype_has (key p)); [done|].
    by destruct (default false (shouldSaveToStorage p)).
Qed.

(** What [update] does to the realm and to the adaptor when its [write]
    returns: nothing without persistence, [setItem] with it. *)
Lemma update_storage p v w calls :
  (StateManager.write (key p) (computed p v w) (manager w)).2 = Ok calls →
  realm (update p v w).1
  = (if default false (shouldSaveToStorage p)
     then (StorageAdaptor.setItem (key p) (computed p v w) (useStorage w) (realm w)).2
     else realm w)
  ∧ memo_storage (cells (update p v w).1)
    = (if default false (shouldSaveToStorage p)
       then Some (StorageAdaptor.setItem (key p) (computed p v w) (useStorage w)
                    (realm w)).1
       else memo_storage (cells w))
  ∧ notified (update p v w).1 = notified w ++ calls.
Proof.
  unfold update, computed. simpl.
  destruct (StateManager.rerendersToTrigger (manager w) !! key p); simpl.
  - intros [= <-]. by destruct (default false (shouldSaveToStorage p)).
  - destruct (Object_prototype_has (key p)); [done|]. intros [= <-].
    by destruct (default false (shouldSaveToStorage p)).
Qed.

(** When its [write] throws, [update] leaves the realm and the cells. *)
Lemma update_thrown p v w e :
  (StateManager.write (key p) (computed p v w) (manager w)).2 = Throw e →
  realm (update p v w).1 = realm w
  ∧ cells (update p v w).1 = cells w
  ∧ notified (update p v w).1 = notified w.
Proof.
  unfold update, computed. simpl.
  destruct (StateManager.rerendersToTrigger (manager w) !! key p); simpl; [done|].
  by destruct (Object_prototype_has (key p)).
Qed.

Lemma update_adaptor_of_realm p v w :
  adaptor_of_realm w → adaptor_of_realm (update p v w).1.
Proof.
  intros Hwf. destruct (useStorage_adaptor_of_realm w Hwf) as [Hp Hs].
  destruct (StateManager.write (key p) (computed p v w) (manager w)).2
    as [calls|e] eqn:E.
  - destruct (update_storage p v w calls E) as (Hr & Ha & _).
    unfold adaptor_of_realm. rewrite Hr, Ha.
    destruct (default false (shouldSaveToStorage p)); [|done].
    rewrite setItem_prefix, setItem_storage.
    unfold StorageAdaptor.setItem. simpl.
    by rewrite storage_setItem_isBrowser.
  - destruct (update_thrown p v w e E) as (Hr & Hc & _).
    unfold adaptor_of_realm. by rewrite Hr, Hc.
Qed.

(** What [setValue] leaves in the slot: the value, or for a function what
    it makes of the value the slot had. *)
Lemma update_slot p v w :
  key p ≠ "__proto__" →
  StateManager.read (manager (update p v w).1) !! key p = Some (computed p v w).
Proof.
  intros Hk. rewrite update_manager. unfold StateManager.read.
  rewrite write_state. by apply assign_lookup.
Qed.

(** [clear()] of an activation writes the initial value that activation
    was given. *)
Lemma clear_slot p w w' :
  key p ≠ "__proto__" →
  is_function (initialValue p) = false →
  StateManager.read (manager (clear (useSharedState p w).1 w').1) !! key p
  = Some (initialValue p).
Proof.
  intros Hk Hfun. rewrite (proj2 (useSharedState_closures p w)), update_slot by done.
  unfold computed. by rewrite invoke_not_function.
Qed.

End HookFacts.

Section HookClaims.
Context `{Host}.
Implicit Types (p : Params) (w : World) (v : jsval).

(** C3, as the code has it. For a key that is not the name of a member of
    [Object.prototype], on a state object that still has its first
    prototype: the value an activation returns is the value the state
    object owns for the key when that value is truthy; otherwise, with
    persistence enabled, what the adaptor's [getItem] returns when that is
    truthy; otherwise the initial value of the first activation, which the
    activation keeps for the later ones. *)
Theorem value_resolution_order p w :
  ordinary (key p) →
  plain (StateManager.read (manager w)) →
  let slot := default VUndefined (StateManager.read (manager w) !! key p) in
  let stored :=
    (StorageAdaptor.getItem (key p) (useStorage w) (realm w)).1.1 in
  let fixed := default (initialValue p) (memo_fixedInitialValue (cells w)) in
  let persistent := default false (shouldSaveToStorage p) in
  (truthy slot = true → value (useSharedState p w).1 = slot)
  ∧ (truthy slot = false → persistent = true → truthy stored = true →
       value (useSharedState p w).1 = stored)
  ∧ (truthy slot = false → persistent = false ∨ truthy stored = false →
       value (useSharedState p w).1 = fixed)
  ∧ memo_fixedInitialValue (cells (useSharedState p w).2) = Some fixed.
Proof.
  intros Hk Hplain slot stored fixed persistent.
  rewrite useSharedState_value, prop_plain_ordinary by done.
  fold slot fixed persistent stored.
  unfold js_or. split; [|split; [|split]].
  - intros Hslot. by rewrite Hslot, Hslot.
  - intros Hslot Hp Hs. by rewrite Hslot, Hp, Hs.
  - intros Hslot [Hp | Hs]; rewrite Hslot.
    + by rewrite Hp.
    + destruct persistent; [by rewrite Hs | done].
  - apply useSharedState_cells.
Qed.

(** C5, as the code has it. With persistence enabled, for a key that is
    not the name of a member of [Object.prototype] and a state object that
    still has its first prototype: a truthy value [v] that is not a
    function and that the text [JSON.stringify] gives for it decodes back
    to, once set, is what an activation after a reload returns, whatever
    initial value that activation is given: [v] itself when it is a
    primitive; otherwise an array or object with the content of [v] that
    the activation decoded, with the next reference of the realm, so
    another instance than [v]. *)
Theorem persisted_value_survives_reload p p' w v text tree :
  adaptor_of_realm w →
  ordinary (key p) →
  plain (StateManager.read (manager w)) →
  shouldSaveToStorage p = Some true →
  shouldSaveToStorage p' = Some true →
  key p' = key p →
  is_function v = false →
  truthy v = true →
  JSON_stringify v = Some text →
  text ≠ "" →
  JSON_parse text = Some tree →
  content v = Some tree →
  let returned := value (useSharedState p' (reload (after_setValue p v w))).1 in
  same_content v returned
  ∧ (is_object v = false → returned = v)
  ∧ (is_object v = true →
       reference returned = Some (next_ref (realm (after_setValue p v w)))
       ∧ (next_ref (realm (after_setValue p v w))
          < next_ref (realm (useSharedState p'
                               (reload (after_setValue p v w))).2))%nat
       ∧ (∀ n, reference v = Some n →
            (n < next_ref (realm (after_setValue p v w)))%nat →
            returned ≠ v)).
Proof.
  intros Hwf Hk Hplain Hp Hp' Hkey Hfun Htruthy Hstr Htext Hparse Hcontent.
  cbv zeta. unfold after_setValue. rewrite (proj1 (useSharedState_closures p w)).
  pose proof (useSharedState_adaptor_of_realm p w Hwf) as Hwf1.
  destruct (useStorage_adaptor_of_realm _ Hwf1) as [Hprefix Hstorage].
  set (w1 := (useSharedState p w).2) in *.
  assert (Hcomputed : computed p v w1 = v).
  { unfold computed. by rewrite invoke_not_function. }
  (* the world after [setValue v] *)
  destruct (update_storage p v w1 _
              (write_returns (key p) (computed p v w1) (manager w1) (or_introl Hk)))
    as (Hrealm & _ & _).
  rewrite Hp, Hcomputed in Hrealm. simpl in Hrealm.
  unfold StorageAdaptor.setItem in Hrealm. simpl in Hrealm.
  replace (StorageAdaptor.getStorageKey (useStorage w1) (key p)) with (key p)
    in Hrealm by (unfold StorageAdaptor.getStorageKey; by rewrite Hprefix).
  rewrite Hstr in Hrealm.
  replace (StorageAdaptor.storage
             (if is_object v
              then {| StorageAdaptor.prefix := StorageAdaptor.prefix (useStorage w1);
                      StorageAdaptor.storage := StorageAdaptor.storage (useStorage w1);
                      StorageAdaptor.objectCache :=
                        assign (key p) v (StorageAdaptor.objectCache (useStorage w1)) |}
              else useStorage w1))
    with (StorageAdaptor.storage (useStorage w1)) in Hrealm
    by (by destruct (is_object v)).
  set (r := realm (update p v w1).1) in *.
  assert (Hbrowser : isBrowser r = isBrowser (realm w1)).
  { rewrite Hrealm. by destruct (StorageAdaptor.storage (useStorage w1)). }
  assert (Hitem : Storage.getItem
            (if isBrowser r then localStorage else fallbackStorage) (key p) r
          = Text text).
  { rewrite Hbrowser, <- Hstorage, Hrealm.
    destruct (StorageAdaptor.storage (useStorage w1)); simpl.
    - by rewrite lookup_insert_eq.
    - rewrite (bool_decide_eq_false_2 _ (ordinary_not_proto _ Hk)). simpl.
      by rewrite lookup_insert_eq. }
  (* the activation after the reload *)
  assert (Hmiss : truthy (prop (StorageAdaptor.objectCache
                                  (StorageAdaptor.new None r)) (key p)) = false).
  { by rewrite new_adaptor_cache, Object_prototype_ordinary. }
  assert (Hvalue :
    value (useSharedState p' (reload (update p v w1).1)).1 = (reify tree r).1).
  { rewrite useSharedState_value, Hp', Hkey. simpl.
    unfold useStorage. simpl. fold r.
    erewrite getItem_decoded; [| exact Hmiss | | done | exact Hparse].
    2:{ simpl. by destruct (isBrowser r). }
    rewrite prop_plain_ordinary by done.
    unfold js_or. simpl.
    by rewrite (content_truthy v _ tree), Htruthy
      by (done || apply reify_content). }
  assert (Hshape : is_composite tree = is_object v)
    by by apply content_composite.
  rewrite Hvalue.
  split; [apply (content_same _ _ tree); [done|apply reify_content]|].
  split.
  { intros Hprim. apply (content_primitive _ _ tree); [done| |done].
    apply reify_content. }
  intros Hobj. rewrite Hobj in Hshape.
  split; [by apply reify_reference|].
  split.
  2:{ intros n Hn Hlt Heq.
      pose proof (reify_reference tree r Hshape) as Href.
      rewrite Heq, Hn in Href. injection Href as ->. lia. }
  destruct (useSharedState_cells p' (reload (update p v w1).1)) as (_ & _ & -> & _).
  rewrite Hp', Hkey. simpl. unfold useStorage. simpl. fold r.
  erewrite getItem_decoded_realm; [| exact Hmiss | | done | exact Hparse].
  2:{ simpl. by destruct (isBrowser r). }
  destruct (reify_composite tree r Hshape) as (v' & -> & _). simpl.
  pose proof (composites_pos tree Hshape). lia.
Qed.

(** C7, as the code has it. When the cache reads nothing for the key (on
    a new adaptor, when the storage key is not the name of a member of
    [Object.prototype]), a stored text
    that does not decode makes [getItem] return [undefined]: the
    [SyntaxError] of the decoding is caught, the cache and the storage are
    as before; and the first activation of a consumer whose slot is empty
    then returns its initial value.  When the cache owns an object for the
    key, [getItem] returns that object, whatever the storage holds. *)
Theorem undecodable_text_is_absent text :
  JSON_parse text = None →
  (∀ key a r,
     truthy (prop (StorageAdaptor.objectCache a)
                  (StorageAdaptor.getStorageKey a key)) = false →
     Storage.getItem (StorageAdaptor.storage a)
       (StorageAdaptor.getStorageKey a key) r = Text text →
     (text ≠ "" →
        StorageAdaptor.decode (StorageAdaptor.getStorageKey a key) (Text text) a r
        = Throw SyntaxError)
     ∧ StorageAdaptor.getItem key a r = (VUndefined, a, r))
  ∧ (∀ p w,
     cells w = unmounted →
     shouldSaveToStorage p = Some true →
     ordinary (key p) →
     plain (StateManager.read (manager w)) →
     truthy (default VUndefined (StateManager.read (manager w) !! key p)) = false →
     Storage.getItem (if isBrowser (realm w) then localStorage else fallbackStorage)
       (key p) (realm w) = Text text →
     value (useSharedState p w).1 = initialValue p)
  ∧ (∀ key a v,
     StorageAdaptor.objectCache a !! StorageAdaptor.getStorageKey a key = Some v →
     is_object v = true →
     ∀ r, StorageAdaptor.getItem key a r = (v, a, r)).
Proof.
  intros Hparse. split; [|split].
  - intros key a r Hmiss Hitem. split.
    + intros Htext. unfold StorageAdaptor.decode.
      by rewrite (proj2 (String.eqb_neq text "")), Hparse.
    + by apply (getItem_undecodable _ _ _ text).
  - intros p w Hcells Hp Hk Hplain Hslot Hitem.
    rewrite useSharedState_value, Hp. unfold useStorage. rewrite Hcells. simpl.
    rewrite (getItem_undecodable _ _ _ text); [| | | done].
    2:{ by rewrite new_adaptor_cache, Object_prototype_ordinary. }
    2:{ simpl. unfold StorageAdaptor.getStorageKey. simpl.
        by destruct (isBrowser (realm w)). }
    rewrite prop_plain_ordinary by done.
    unfold js_or. simpl. by rewrite Hslot.
  - intros key a v Hc Hobj r. apply getItem_cached; [done|].
    by apply is_object_truthy.
Qed.

End HookClaims.

(** * The hook and the adaptor on concrete inputs *)

Section Samples.
#[local] Existing Instance sample_host.

(** C3, as stated, fails. The slot of ["counter"] holds [0], and the
    activation returns the initial value [5]; and on a new manager, where
    the state object owns nothing, the activation for the key
    ["constructor"] returns the function [Object.prototype] has under that
    name, not the initial value [5]. *)
Lemma value_resolution_ignores_falsy_slot :
  StateManager.read (manager (counter_world 5 0)) !! "counter" = Some (VNum 0)
  ∧ value (useSharedState (counter 5 None) (counter_world 5 0)).1 = VNum 5
  ∧ value (useSharedState (counter 5 None) (counter_world 5 0)).1
    ≠ prop (StateManager.read (manager (counter_world 5 0))) "counter"
  ∧ StateManager.read (manager (empty_world false)) !! "constructor" = None
  ∧ value (useSharedState (consumer_of "constructor" 5 None) (empty_world false)).1
    = VBuiltin "constructor".
Proof.
  split; [vm_compute; reflexivity|].
  split; [vm_compute; reflexivity|].
  split; [vm_compute; discriminate|].
  split; vm_compute; reflexivity.
Qed.

Lemma value_resolution_order_witness :
  ordinary "counter"
  ∧ (plain (StateManager.read (manager (counter_world 5 7)))
     ∧ truthy (default VUndefined
                 (StateManager.read (manager (counter_world 5 7)) !! "counter")) = true
     ∧ value (useSharedState (counter 9 None) (counter_world 5 7)).1
       = default VUndefined
           (StateManager.read (manager (counter_world 5 7)) !! "counter"))
  ∧ (plain (StateManager.read (manager (reload (persisted_world 5 3))))
     ∧ truthy (default VUndefined
                 (StateManager.read (manager (reload (persisted_world 5 3)))
                    !! "counter")) = false
     ∧ truthy (StorageAdaptor.getItem "counter"
                 (useStorage (reload (persisted_world 5 3)))
                 (realm (reload (persisted_world 5 3)))).1.1 = true
     ∧ value (useSharedState (counter 9 (Some true))
                (reload (persisted_world 5 3))).1
       = (StorageAdaptor.getItem "counter"
            (useStorage (reload (persisted_world 5 3)))
            (realm (reload (persisted_world 5 3)))).1.1)
  ∧ (plain (StateManager.read (manager (counter_world 5 0)))
     ∧ truthy (default VUndefined
                 (StateManager.read (manager (counter_world 5 0)) !! "counter")) = false
     ∧ value (useSharedState (counter 9 None) (counter_world 5 0)).1 = VNum 5).
Proof.
  assert (Hk : ordinary "counter") by (vm_compute; reflexivity).
  assert (P1 : plain (StateManager.read (manager (counter_world 5 7))))
    by (vm_compute; reflexivity).
  assert (P2 : plain (StateManager.read (manager (reload (persisted_world 5 3)))))
    by (vm_compute; reflexivity).
  assert (P3 : plain (StateManager.read (manager (counter_world 5 0))))
    by (vm_compute; reflexivity).
  assert (H1 : truthy (default VUndefined
                 (StateManager.read (manager (counter_world 5 7))
                    !! key (counter 9 None))) = true)
    by (vm_compute; reflexivity).
  assert (H2 : truthy (default VUndefined
                 (StateManager.read (manager (reload (persisted_world 5 3)))
                    !! key (counter 9 (Some true)))) = false)
    by (vm_compute; reflexivity).
  assert (S2 : truthy (StorageAdaptor.getItem (key (counter 9 (Some true)))
                 (useStorage (reload (persisted_world 5 3)))
                 (realm (reload (persisted_world 5 3)))).1.1 = true)
    by (vm_compute; reflexivity).
  assert (H3 : truthy (default VUndefined
                 (StateManager.read (manager (counter_world 5 0))
                    !! key (counter 9 None))) = false)
    by (vm_compute; reflexivity).
  split; [exact Hk|]. split; [|split].
  - split; [exact P1|]. split; [exact H1|].
    exact (proj1 (value_resolution_order (counter 9 None) (counter_world 5 7)
                    Hk P1) H1).
  - split; [exact P2|]. split; [exact H2|]. split; [exact S2|].
    exact (proj1 (proj2 (value_resolution_order (counter 9 (Some true))
                           (reload (persisted_world 5 3)) Hk P2))
             H2 eq_refl S2).
  - split; [exact P3|]. split; [exact H3|].
    exact (proj1 (proj2 (proj2
             (value_resolution_order (counter 9 None) (counter_world 5 0) Hk P3)))
             H3 (or_introl eq_refl)).
Defined.

(** C4 on a failing input. After the second activation the hook still
    holds [1], the initial value of the first one, as its fixed initial
    value, and returns the [7] that was set; the [clear] of the second
    activation writes [2] into the slot, and that is what the next
    activation returns. *)
Theorem clear_writes_latest_initialValue :
  memo_fixedInitialValue (cells second_activation.2) = Some (VNum 1)
  ∧ value second_activation.1 = VNum 7
  ∧ StateManager.read (manager cleared) !! "counter" = Some (VNum 2)
  ∧ value (useSharedState (counter 2 None) cleared).1 = VNum 2.
Proof.
  split; [vm_compute; reflexivity|].
  split; [vm_compute; reflexivity|].
  split; [|vm_compute; reflexivity].
  apply (clear_slot (counter 2 None)); [discriminate|reflexivity].
Qed.

(** C5, as stated, fails. With persistence enabled, [setValue(0)] stores
    the text ["0"]; after a reload the activation returns the initial value
    [5], not [0].  And for the key ["constructor"], [setValue(3)] throws
    before anything is stored, and after a reload the activation returns
    the function [Object.prototype] has under that name. *)
Lemma falsy_value_is_lost_on_reload :
  window_localStorage (realm (persisted_world 5 0)) !! "counter" = Some "0"
  ∧ value (useSharedState (counter 5 (Some true))
             (reload (persisted_world 5 0))).1 = VNum 5
  ∧ value (useSharedState (counter 5 (Some true))
             (reload (persisted_world 5 0))).1 ≠ VNum 0
  ∧ window_localStorage
      (realm (after_setValue (consumer_of "constructor" 5 (Some true)) (VNum 3)
                (empty_world true))) !! "constructor" = None
  ∧ value (useSharedState (consumer_of "constructor" 5 (Some true))
             (reload (after_setValue (consumer_of "constructor" 5 (Some true))
                        (VNum 3) (empty_world true)))).1
    = VBuiltin "constructor".
Proof.
  split; [vm_compute; reflexivity|].
  split; [vm_compute; reflexivity|].
  split; [vm_compute; discriminate|].
  split; vm_compute; reflexivity.
Qed.

Lemma persisted_value_survives_reload_witness :
  ordinary "counter"
  ∧ truthy (VObj 1 []) = true
  ∧ JSON_stringify (VObj 1 []) = Some "{}"
  ∧ JSON_parse "{}" = Some (JObj [])
  ∧ same_content (VObj 1 [])
      (value (useSharedState (counter 9 (Some true))
                (reload (after_setValue (counter 5 (Some true)) (VObj 1 [])
                           (empty_world true)))).1)
  ∧ truthy (VNum 3) = true
  ∧ value (useSharedState (counter 9 (Some true))
             (reload (persisted_world 5 3))).1 = VNum 3.
Proof.
  assert (Hk : ordinary "counter") by (vm_compute; reflexivity).
  assert (Hp : plain (StateManager.read (manager (empty_world true))))
    by (vm_compute; reflexivity).
  split; [exact Hk|].
  split; [reflexivity|]. split; [reflexivity|]. split; [reflexivity|].
  split; [|split; [reflexivity|]].
  - exact (proj1 (persisted_value_survives_reload
             (counter 5 (Some true)) (counter 9 (Some true)) (empty_world true)
             (VObj 1 []) "{}" (JObj [])
             I Hk Hp eq_refl eq_refl eq_refl eq_refl eq_refl eq_refl
             ltac:(discriminate) eq_refl eq_refl)).
  - exact (proj1 (proj2 (persisted_value_survives_reload
             (counter 5 (Some true)) (counter 9 (Some true)) (empty_world true)
             (VNum 3) "3" (JNum 3)
             I Hk Hp eq_refl eq_refl eq_refl eq_refl eq_refl eq_refl
             ltac:(discriminate) eq_refl eq_refl)) eq_refl).
Defined.

(** [setValue(1)] and then [setValue(v => v + 1)] on a counter that started
    at [0]: the value is [2]. *)
Example transform_applies_to_slot :
  value (useSharedState (counter 0 None)
           (after_setValue (counter 0 None) (VFun 0) (counter_world 0 1))).1
  = VNum 2.
Proof. vm_compute. reflexivity. Qed.

(** An object that was set comes back after a reload as another object
    with the same content. *)
Example object_survives_reload_as_copy :
  value (useSharedState (counter 9 (Some true))
           (reload (after_setValue (counter 5 (Some true)) (VObj 1 [])
                      (empty_world true)))).1
  = VObj 2 [].
Proof. vm_compute. reflexivity. Qed.

(** C7, as stated, fails. The text stored for ["k"] is ["undefined"], which
    does not decode, and [getItem] returns the object cached for ["k"].
    And where the text stored for ["toString"] does not decode, [getItem]
    returns the function [Object.prototype] has under that name. *)
Lemma getItem_prefers_cached_object :
  Storage.getItem (StorageAdaptor.storage overwritten.1)
    (StorageAdaptor.getStorageKey overwritten.1 "k") overwritten.2
    = Text "undefined"
  ∧ JSON_parse "undefined" = None
  ∧ (StorageAdaptor.getItem "k" overwritten.1 overwritten.2).1.1 = VObj 1 []
  ∧ (StorageAdaptor.getItem "k" overwritten.1 overwritten.2).1.1 ≠ VUndefined
  ∧ Storage.getItem fallbackStorage "toString" (holding_at "toString" "{oops")
    = Text "{oops"
  ∧ JSON_parse "{oops" = None
  ∧ (StorageAdaptor.getItem "toString" node_adaptor
       (holding_at "toString" "{oops")).1.1 = VBuiltin "toString".
Proof.
  split; [vm_compute; reflexivity|].
  split; [vm_compute; reflexivity|].
  split; [vm_compute; reflexivity|].
  split; [vm_compute; discriminate|].
  repeat split; vm_compute; reflexivity.
Qed.

Lemma undecodable_text_is_absent_witness :
  JSON_parse "{oops" = None
  ∧ StorageAdaptor.getItem "k" node_adaptor (holding "{oops")
    = (VUndefined, node_adaptor, holding "{oops")
  ∧ value (useSharedState persistent_k (opening "{oops")).1 = VNum 5
  ∧ StorageAdaptor.getItem "k" overwritten.1 overwritten.2
    = (VObj 1 [], overwritten.1, overwritten.2).
Proof.
  assert (Hparse : JSON_parse "{oops" = None) by reflexivity.
  split; [exact Hparse|]. split; [|split].
  - apply (proj1 (undecodable_text_is_absent "{oops" Hparse)
             "k" node_adaptor (holding "{oops")).
    + reflexivity.
    + vm_compute; reflexivity.
  - apply (proj1 (proj2 (undecodable_text_is_absent "{oops" Hparse))
             persistent_k (opening "{oops")).
    + reflexivity.
    + reflexivity.
    + vm_compute; reflexivity.
    + reflexivity.
    + reflexivity.
    + vm_compute; reflexivity.
  - apply (proj2 (proj2 (undecodable_text_is_absent "{oops" Hparse))
             "k" overwritten.1 (VObj 1 [])).
    + vm_compute; reflexivity.
    + reflexivity.
Defined.

(** C8, as stated, fails. Outside a browser the text stored for
    ["constructor"] is ["5"], and [getItem] returns the function
    [Object.prototype] has under that name: nothing is read or decoded.
    And the object that [getItem("k")] decoded and cached is no longer what
    [getItem("k")] returns once [setItem("k", o)] was given another object. *)
Lemma getItem_under_constructor_never_decodes :
  Storage.getItem fallbackStorage "constructor" (holding_at "constructor" "5")
    = Text "5"
  ∧ JSON_parse "5" = Some (JNum 5)
  ∧ StorageAdaptor.getItem "constructor" node_adaptor
      (holding_at "constructor" "5")
    = (VBuiltin "constructor", node_adaptor, holding_at "constructor" "5")
  ∧ decoded_object.1.1 = VObj 2 []
  ∧ (StorageAdaptor.getItem "k" replaced_object.1 replaced_object.2).1.1
    = VObj 1 []
  ∧ VObj 1 [] ≠ VObj 2 [].
Proof. repeat split; try (vm_compute; reflexivity). discriminate. Qed.

Lemma getItem_caches_objects_only_witness :
  (∃ v a1, StorageAdaptor.getItem "k" node_adaptor (holding "{}")
           = (v, a1, advance 1 (holding "{}"))
     ∧ StorageAdaptor.objectCache a1 !! "k" = Some v
     ∧ StorageAdaptor.getItem "k"
         (adaptor_run other_calls (a1, holding "{}")).1
         (adaptor_run other_calls (a1, holding "{}")).2
       = (v, (adaptor_run other_calls (a1, holding "{}")).1,
             (adaptor_run other_calls (a1, holding "{}")).2))
  ∧ (∃ v, StorageAdaptor.getItem "k" node_adaptor (holding "3")
          = (v, node_adaptor, holding "3")
     ∧ is_object v = false).
Proof.
  split.
  - destruct (proj1 (getItem_caches_objects_only "k" node_adaptor (holding "{}")
                       "{}" (JObj [])
                       eq_refl eq_refl ltac:(vm_compute; reflexivity)
                       ltac:(discriminate) eq_refl) eq_refl)
      as (v & a1 & Hget & _ & _ & _ & Hcache & Hlater).
    exists v, a1. split; [exact Hget|]. split; [exact Hcache|].
    apply (Hlater other_calls (holding "{}")).
    repeat constructor.
  - destruct (proj1 (proj2
                (getItem_caches_objects_only "k" node_adaptor (holding "3")
                       "3" (JNum 3)
                       eq_refl eq_refl ltac:(vm_compute; reflexivity)
                       ltac:(discriminate) eq_refl)) eq_refl)
      as (v & Hget & Hprim & _).
    exists v. split; [exact Hget | exact Hprim].
Defined.

End Samples.

(** * Further properties of the state manager *)

Section StateManagerSequences.
Context `{Host}.
Import StateManager.
Implicit Types (m : StateManager.t) (k : string) (f g : RenderFunction).

Lemma manager_step_has_list m op k :
  is_Some (rerendersToTrigger (manager_step m op) !! k)
  ↔ is_Some (rerendersToTrigger m !! k) ∨ (watches k op = true ∧ ordinary k).
Proof.
  destruct op as [k' v | k' f | k' f]; simpl.
  - split; [by left | by intros [?|[? _]]].
  - unfold watching, watchForUpdates, ordinary.
    destruct (decide (k' = k)) as [->|Hne].
    + rewrite bool_decide_eq_true_2 by done.
      destruct (rerendersToTrigger m !! k) as [l|] eqn:E; simpl.
      * rewrite lookup_insert_eq. split; [by left; eexists | by eexists].
      * destruct (Object_prototype_has k); simpl.
        -- rewrite E. split; [by left | by intros [?|[_ ?]]].
        -- rewrite lookup_insert_eq. split; [by right | by eexists].
    + rewrite bool_decide_eq_false_2 by done.
      destruct (rerendersToTrigger m !! k') eqn:E; simpl.
      * rewrite lookup_insert_ne by done.
        split; [by left | by intros [?|[? _]]].
      * destruct (Object_prototype_has k'); simpl.
        -- split; [by left | by intros [?|[? _]]].
        -- rewrite !lookup_insert_ne by done.
           split; [by left | by intros [?|[? _]]].
  - unfold endWatch. destruct (rerendersToTrigger m !! k') as [l|] eqn:E; simpl.
    + destruct (decide (k' = k)) as [->|Hne].
      * rewrite lookup_insert_eq, E. split; [by left | by eexists].
      * rewrite lookup_insert_ne by done.
        split; [by left | by intros [?|[? _]]].
    + split; [by left | by intros [?|[? _]]].
Qed.

Lemma manager_run_has_list ops m k :
  is_Some (rerendersToTrigger (manager_run ops m) !! k)
  ↔ is_Some (rerendersToTrigger m !! k)
    ∨ (existsb (watches k) ops = true ∧ ordinary k).
Proof.
  revert m. induction ops as [|op ops IH]; intros m; simpl.
  - split; [by left | by intros [?|[? _]]].
  - unfold manager_run in *. simpl. rewrite IH, manager_step_has_list.
    rewrite orb_true_iff. tauto.
Qed.

Lemma manager_step_plain m op :
  keeps_prototype op = true → plain (state m) → plain (state (manager_step m op)).
Proof.
  destruct op as [k' v | k' f | k' f]; simpl; intros Hop Hp.
  - unfold plain, assign in *. destruct (own (state m) !! k'); [done|].
    apply negb_true_iff, andb_false_iff in Hop as [Hk|Hv].
    + by rewrite Hk.
    + rewrite Hv. by destruct (_ && _).
  - by rewrite state_watching.
  - unfold endWatch. by destruct (rerendersToTrigger m !! k').
Qed.

Lemma manager_step_state m op k :
  k ≠ "__proto__" →
  state (manager_step m op) !! k
  = match op with
    | OpWrite k' v => if bool_decide (k' = k) then Some v else state m !! k
    | _ => state m !! k
    end.
Proof.
  intros Hk. destruct op as [k' v | k' f | k' f]; simpl.
  - case_bool_decide as Hk'; [subst; by apply assign_lookup|].
    by apply assign_lookup_other.
  - by rewrite state_watching.
  - unfold endWatch. by destruct (rerendersToTrigger m !! k').
Qed.

(** X1. On a manager that started empty, [endWatch k f] throws a
    [TypeError] as long as no [watchForUpdates] was made for [k], whatever
    was written, and always does for the name of a member of
    [Object.prototype], under which nothing can be subscribed; for another
    name it never throws once a [watchForUpdates] was made, whatever was
    unsubscribed since. *)
Theorem endWatch_throws_until_watched ops k f :
  (existsb (watches k) ops = false ∨ Object_prototype_has k = true →
     endWatch k f (manager_run ops new) = Throw TypeError)
  ∧ (existsb (watches k) ops = true → ordinary k →
     ∃ m', endWatch k f (manager_run ops new) = Ok m').
Proof.
  pose proof (manager_run_has_list ops new k) as Hlist.
  unfold endWatch. split.
  - intros Hw.
    destruct (rerendersToTrigger (manager_run ops new) !! k) eqn:E; [|done].
    destruct (proj1 Hlist) as [[? Hn]|[Hn Hk]]; [by eexists | done |].
    unfold ordinary in Hk. destruct Hw; congruence.
  - intros Hw Hk. destruct (proj2 Hlist (or_intror (conj Hw Hk))) as [l ->].
    by eexists.
Qed.

(** X2. On a state object that has its first prototype and is not given
    another, the value [read()] owns for a key other than ["__proto__"]
    after any sequence of calls is the value of the last [write] to that
    key, whether that [write] threw or not, and what it owned before when
    there was none: subscribing and unsubscribing never change a value. *)
Theorem read_is_last_write ops m k :
  k ≠ "__proto__" →
  plain (state m) →
  forallb keeps_prototype ops = true →
  read (manager_run ops m) !! k = last_written k ops (read m !! k)
  ∧ plain (read (manager_run ops m)).
Proof.
  intros Hk. revert m. induction ops as [|op ops IH]; intros m Hp Hops; [done|].
  simpl in Hops. apply andb_true_iff in Hops as [Hop Hops].
  unfold manager_run, last_written in *. simpl.
  destruct (IH (manager_step m op)) as [-> Hplain];
    [by apply manager_step_plain | done |].
  split; [|done].
  unfold read. rewrite manager_step_state by done. by destruct op.
Qed.

(** X3. For a key that is not the name of a member of [Object.prototype],
    subscribing returns, and unsubscribing right after it never throws and
    removes every registration of the callback under that key, the earlier
    ones included; the list is the one from before when the callback was
    not in it. The values and the lists of the other keys are as before. *)
Theorem endWatch_after_watchForUpdates k f m :
  ordinary k →
  ∃ m1 m', watchForUpdates k f m = Ok m1
    ∧ endWatch k f m1 = Ok m'
    ∧ subscribers m' k = filter (λ s, s ≠ f) (subscribers m k)
    ∧ (f ∉ subscribers m k → subscribers m' k = subscribers m k)
    ∧ state m' = state m
    ∧ (∀ k', k' ≠ k → subscribers m' k' = subscribers m k').
Proof.
  intros Hk.
  destruct (watchForUpdates_returns k f m (or_introl Hk))
    as (m1 & Hw & Hwatching & Hs & Hr).
  exists m1.
  destruct (endWatch k f m1) as [m'|e] eqn:E.
  2:{ unfold endWatch in E. by rewrite Hr, lookup_insert_eq in E. }
  exists m'. split; [done|]. split; [done|].
  pose proof (subscribers_endWatch _ _ _ _ E) as Hsub.
  rewrite <- Hwatching, subscribers_watching, filter_app in Hsub by done.
  rewrite filter_cons_False, filter_nil, app_nil_r in Hsub by (intros ?; done).
  split; [done|]. split.
  { intros Hf. by rewrite Hsub, filter_ne_absent. }
  unfold endWatch in E. rewrite Hr, lookup_insert_eq in E.
  injection E as <-. split; [done|].
  intros k' Hne. unfold subscribers. simpl.
  by rewrite !lookup_insert_ne.
Qed.

(** X4. Of two writes in a row to a key other than ["__proto__"], on a
    state object that still has its first prototype, the second tells the
    subscribers the value of the first as [lastValue], and leaves the
    manager as if only the second had been made. *)
Theorem write_then_write k v1 v2 m :
  k ≠ "__proto__" →
  plain (state m) →
  (write k v2 (write k v1 m).1).1 = (write k v2 m).1
  ∧ calls_made (write k v2 (write k v1 m).1).2
    = (λ f, mkCall f (mkArgs v1 v2)) <$> subscribers m k.
Proof.
  intros Hk Hp. split.
  - unfold write. simpl. rewrite !assign_insert by done. simpl.
    by rewrite insert_insert_eq.
  - rewrite write_calls_made, write_state, write_subscribers.
    by rewrite assign_prop.
Qed.

(** X5. [write] does not compare: writing the value the state object
    already owns for a key leaves the manager as it is, and still calls
    every subscriber of the key, with that value as [lastValue] and as
    [newValue]; where the key has no list and is the name of a member of
    [Object.prototype], it still throws. *)
Theorem write_same_value_still_notifies k v m :
  state m !! k = Some v →
  (write k v m).1 = m
  ∧ calls_made (write k v m).2 = (λ f, mkCall f (mkArgs v v)) <$> subscribers m k
  ∧ (ordinary k ∨ is_Some (rerendersToTrigger m !! k) →
       (write k v m).2 = Ok ((λ f, mkCall f (mkArgs v v)) <$> subscribers m k))
  ∧ (rerendersToTrigger m !! k = None → Object_prototype_has k = true →
       (write k v m).2 = Throw TypeError).
Proof.
  intros Hv. split.
  { unfold write, assign. simpl. rewrite Dict_lookup_own in Hv. rewrite Hv.
    rewrite insert_id by done. by destruct m as [[? ?] ?]. }
  split; [by rewrite write_calls_made, (prop_own _ _ _ Hv)|].
  split.
  - intros Hk. by rewrite write_returns, (prop_own _ _ _ Hv).
  - apply write_throws.
Qed.

(** X6. On a state object that still has its first prototype, writes to
    two different keys other than ["__proto__"] can be made in either
    order: the manager is the same, and each write ends and makes the calls
    it would have made alone. *)
Theorem write_commutes k1 k2 v1 v2 m :
  k1 ≠ k2 →
  k1 ≠ "__proto__" →
  k2 ≠ "__proto__" →
  plain (state m) →
  (write k1 v1 (write k2 v2 m).1).1 = (write k2 v2 (write k1 v1 m).1).1
  ∧ (write k1 v1 (write k2 v2 m).1).2 = (write k1 v1 m).2
  ∧ (write k2 v2 (write k1 v1 m).1).2 = (write k2 v2 m).2.
Proof.
  intros Hne H1 H2 Hp. split.
  - unfold write. simpl. rewrite !assign_insert by done. simpl.
    do 2 f_equal. by apply insert_insert_ne.
  - unfold write. simpl. by rewrite !assign_prop_ne.
Qed.

(** X7. Unsubscribing twice is unsubscribing once, and two callbacks can
    be unsubscribed in either order. *)
Theorem endWatch_idempotent_and_commutes k f g m m1 :
  endWatch k f m = Ok m1 →
  endWatch k f m1 = Ok m1
  ∧ ∃ m2 m12, endWatch k g m = Ok m2
      ∧ endWatch k g m1 = Ok m12 ∧ endWatch k f m2 = Ok m12.
Proof.
  unfold endWatch.
  destruct (rerendersToTrigger m !! k) as [l|] eqn:E; [|done].
  intros [= <-]. simpl. rewrite lookup_insert_eq. split.
  - rewrite insert_insert_eq. do 3 f_equal.
    rewrite list_filter_filter. apply list_filter_iff. tauto.
  - eexists _, _. split; [done|]. simpl. rewrite lookup_insert_eq.
    split; [done|]. rewrite !insert_insert_eq. do 3 f_equal.
    rewrite !list_filter_filter. apply list_filter_iff. tauto.
Qed.

End StateManagerSequences.

(** * Further properties of the storage and of the adaptor *)

Section StorageAdaptorSequences.
Context `{Host}.
Import StorageAdaptor.
Implicit Types (a b : StorageAdaptor.t) (r : Realm) (v : jsval).

Lemma append_assoc (x y z : string) :
  String.append (String.append x y) z = String.append x (String.append y z).
Proof.
  induction x as [|c x IH]; [done|].
  change (String c (String.append (String.append x y) z)
          = String c (String.append x (String.append y z))).
  by rewrite IH.
Qed.

Lemma append_inj_r (x y z : string) :
  String.append x y = String.append x z → y = z.
Proof.
  induction x as [|c x IH]; [done|].
  change (String c (String.append x y) = String c (String.append x z) → y = z).
  intros [= Heq]. auto.
Qed.

Lemma primitive_reify v tree r :
  is_object v = false → content v = Some tree → reify tree r = (v, r).
Proof. destruct v; simpl; try done; by intros _ [= <-]. Qed.

(** What [getItem] does to the realm: nothing, or the references of a
    tree it decoded. *)
Lemma getItem_realm key a r :
  (getItem key a r).2 = r
  ∨ ∃ text tree,
      Storage.getItem (storage a) (getStorageKey a key) r = Text text
      ∧ JSON_parse text = Some tree
      ∧ is_composite tree = true
      ∧ (getItem key a r).2 = advance (composites tree) r.
Proof.
  unfold getItem. destruct (truthy _); [by left|].
  unfold decode.
  destruct (Storage.getItem _ _ _) as [text| |] eqn:E; [|by left..].
  destruct (String.eqb text ""); [by left|].
  destruct (JSON_parse text) as [tree|] eqn:Ep; [|by left].
  destruct (is_composite tree) eqn:Ec.
  - right. exists text, tree. repeat split; try done.
    by destruct tree.
  - left. by destruct tree.
Qed.

Lemma getItem_stored_texts key a r :
  stored_texts (getItem key a r).2 = stored_texts r
  ∧ (next_ref r ≤ next_ref (getItem key a r).2)%nat.
Proof.
  destruct (getItem_realm key a r) as [->|(text & tree & _ & _ & _ & ->)];
    [done|].
  split; [done|]. simpl. lia.
Qed.

Lemma assign_holds_objects k v (o : Dict) :
  is_object v = true →
  (∀ k' v', o !! k' = Some v' → is_object v' = true) →
  is_object (proto o) = true →
  (∀ k' v', assign k v o !! k' = Some v' → is_object v' = true)
  ∧ is_object (proto (assign k v o)) = true.
Proof.
  intros Hv Hown Hproto. unfold assign.
  assert (Hins : ∀ k' v', ({| own := <[k := v]> (own o); proto := proto o |} : Dict)
                            !! k' = Some v' → is_object v' = true).
  { intros k' v'. rewrite Dict_lookup_own. simpl.
    destruct (decide (k = k')) as [->|Hne].
    - rewrite lookup_insert_eq. by intros [= <-].
    - rewrite lookup_insert_ne by done. apply Hown. }
  destruct (own o !! k); [done|].
  destruct (bool_decide (k = "__proto__") && reaches_proto_setter (proto o));
    [|done].
  destruct (can_be_prototype v); [|done]. done.
Qed.

Lemma getItem_cache_holds_objects key a r :
  cache_holds_objects a → cache_holds_objects (getItem key a r).1.2.
Proof.
  intros Hc. unfold getItem. destruct (truthy _); [done|].
  unfold decode. destruct (Storage.getItem _ _ _) as [text| |]; [|done..].
  destruct (String.eqb text ""); [done|].
  destruct (JSON_parse text) as [tree|]; [|done].
  destruct (reify tree r) as [v r']. destruct (is_object v) eqn:Hv; [|done].
  destruct Hc as [Hown Hproto]. by apply assign_holds_objects.
Qed.

Lemma setItem_cache_holds_objects key v a r :
  cache_holds_objects a → cache_holds_objects (setItem key v a r).1.
Proof.
  intros Hc. unfold setItem. simpl. destruct (is_object v) eqn:Hv; [|done].
  destruct Hc as [Hown Hproto]. by apply assign_holds_objects.
Qed.

Lemma storage_set_get s k text r :
  s = localStorage ∨ k ≠ "__proto__" →
  Storage.getItem s k (Storage.setItem s k (Some text) r) = Text text.
Proof.
  intros Hk. destruct s; simpl.
  - by rewrite lookup_insert_eq.
  - destruct Hk as [?|Hk]; [done|].
    rewrite (bool_decide_eq_false_2 _ Hk). simpl. by rewrite lookup_insert_eq.
Qed.

Lemma storage_set_other_key s k k' value r :
  k' ≠ k →
  Storage.getItem s k' (Storage.setItem s k value r) = Storage.getItem s k' r.
Proof.
  intros Hne. destruct s; simpl.
  - by rewrite lookup_insert_ne.
  - destruct (_ && _); [done|]. by rewrite lookup_insert_ne.
Qed.

Lemma storage_set_other_storage s s' k k' value r :
  s' ≠ s →
  Storage.getItem s' k' (Storage.setItem s k value r) = Storage.getItem s' k' r.
Proof. intros Hne. by destruct s, s'. Qed.

Lemma setItem_realm key v a r :
  (setItem key v a r).2
  = Storage.setItem (storage a) (getStorageKey a key) (JSON_stringify v) r.
Proof. unfold setItem. simpl. by destruct (is_object v). Qed.

Lemma setItem_next_ref key v a r : next_ref (setItem key v a r).2 = next_ref r.
Proof. rewrite setItem_realm. by destruct (storage a). Qed.

(** After [setItem] with an array or an object, the cache owns it under
    the storage key, unless that key is ["__proto__"]. *)
Lemma setItem_object key v a r r' :
  getStorageKey a key ≠ "__proto__" →
  is_object v = true →
  objectCache (setItem key v a r).1 !! getStorageKey a key = Some v
  ∧ getItem key (setItem key v a r).1 r' = (v, (setItem key v a r).1, r').
Proof.
  intros Hk Hobj.
  assert (Hc : objectCache (setItem key v a r).1 !! getStorageKey a key = Some v).
  { unfold setItem. simpl. rewrite Hobj. simpl. by apply assign_lookup. }
  split; [done|].
  apply getItem_cached; [|by apply is_object_truthy].
  by rewrite (getStorageKey_prefix a) by apply setItem_prefix.
Qed.

(** X8. What [setItem] of a storage stores under a key is what [getItem]
    returns for it, and an [undefined] stored in the fallback storage reads
    back as a missing item; but the fallback storage ignores what is
    stored under ["__proto__"], where it reads [Object.prototype].  The
    other keys and the other storage are not touched. *)
Theorem storage_setItem_getItem s k text r :
  (s = localStorage ∨ k ≠ "__proto__" →
     Storage.getItem s k (Storage.setItem s k (Some text) r) = Text text)
  ∧ (k ≠ "__proto__" →
     Storage.getItem fallbackStorage k (Storage.setItem fallbackStorage k None r)
     = NoItem)
  ∧ (fallbackMemory r !! "__proto__" = None →
     Storage.getItem fallbackStorage "__proto__"
       (Storage.setItem fallbackStorage "__proto__" (Some text) r)
     = Member VObjectPrototype
     ∧ fallbackMemory (Storage.setItem fallbackStorage "__proto__" (Some text) r)
       = fallbackMemory r)
  ∧ (∀ value k', k' ≠ k →
       Storage.getItem s k' (Storage.setItem s k value r) = Storage.getItem s k' r)
  ∧ (∀ value s' k', s' ≠ s →
       Storage.getItem s' k' (Storage.setItem s k value r) = Storage.getItem s' k' r).
Proof.
  split; [apply storage_set_get|].
  split.
  { intros Hk. simpl. rewrite (bool_decide_eq_false_2 _ Hk). simpl.
    by rewrite lookup_insert_eq. }
  split.
  { intros Hown. simpl. rewrite !(bool_decide_eq_true_2 _ Hown). simpl.
    by rewrite Hown. }
  split.
  - intros value k' Hne. by apply storage_set_other_key.
  - intros value s' k' Hne. by apply storage_set_other_storage.
Qed.

(** X9. Within one adaptor, two different keys never share a storage key. *)
Theorem getStorageKey_injective a k1 k2 :
  getStorageKey a k1 = getStorageKey a k2 → k1 = k2.
Proof.
  unfold getStorageKey. destruct (prefix a) as [p|]; [|done].
  destruct (String.eqb p ""); [done|].
  intros Heq. apply append_inj_r in Heq. by apply append_inj_r in Heq.
Qed.

(** X10. The prefix does not keep adaptors apart when a prefix or a key
    has the separator in it: the adaptor with the prefix [p-q] has for [key]
    the storage key the adaptor with the prefix [p] has for [q-key]. An
    empty prefix is no prefix. *)
Theorem getStorageKey_prefixes_overlap a b p q key :
  p ≠ "" →
  prefix a = Some (String.append p (String.append "-" q)) →
  prefix b = Some p →
  getStorageKey a key = getStorageKey b (String.append q (String.append "-" key))
  ∧ (∀ c, prefix c = Some "" → getStorageKey c key = key).
Proof.
  intros Hp Ha Hb. split.
  - unfold getStorageKey. rewrite Ha, Hb.
    rewrite (proj2 (String.eqb_neq p "")) by done.
    destruct p as [|ch p]; [done|]. simpl.
    by rewrite !append_assoc.
  - intros c Hc. unfold getStorageKey. by rewrite Hc.
Qed.

(** X11. Whatever [getItem] and [setItem] calls are made on a new adaptor,
    and whatever other code does to the storage in between, every property
    the cache of the adaptor owns is an array or an object, and so is its
    prototype: [Object.prototype], or what a [setItem] under ["__proto__"]
    put in its place.  The prefix and the storage of the adaptor stay the
    ones it was built with. *)
Theorem cache_only_ever_holds_objects ops pre r0 r :
  cache_holds_objects (adaptor_run ops (new pre r0, r)).1
  ∧ prefix (adaptor_run ops (new pre r0, r)).1 = pre
  ∧ storage (adaptor_run ops (new pre r0, r)).1 = storage (new pre r0).
Proof.
  assert (Hgen : ∀ s, cache_holds_objects s.1 →
            cache_holds_objects (adaptor_run ops s).1
            ∧ prefix (adaptor_run ops s).1 = prefix s.1
            ∧ storage (adaptor_run ops s).1 = storage s.1).
  { induction ops as [|op ops IH]; intros s Hs; [done|].
    unfold adaptor_run in *. simpl.
    destruct op as [k | k v | r1]; simpl.
    - destruct (IH ((getItem k s.1 s.2).1.2, (getItem k s.1 s.2).2))
        as (Hc & Hp & Hst); [by apply getItem_cache_holds_objects|].
      simpl in *. by rewrite Hp, Hst, getItem_prefix, getItem_storage.
    - destruct (IH (setItem k v s.1 s.2)) as (Hc & Hp & Hst);
        [by apply setItem_cache_holds_objects|].
      by rewrite Hp, Hst, setItem_prefix, setItem_storage.
    - by apply (IH (s.1, r1)). }
  apply (Hgen (new pre r0, r)). split; [|done].
  intros k v Hk. rewrite Dict_lookup_own in Hk. simpl in Hk.
  by rewrite lookup_empty in Hk.
Qed.

(** X12. A primitive does not replace a cached object: after [setItem] of a
    value that is not an array or an object, the adaptor is as before, the
    storage holds the text of that value (unless it is the fallback storage
    and the storage key is ["__proto__"]), and [getItem] of the same adaptor
    still returns the object its cache owns for the key. *)
Theorem primitive_does_not_replace_cached_object key a r obj v text :
  objectCache a !! getStorageKey a key = Some obj →
  is_object obj = true →
  is_object v = false →
  JSON_stringify v = Some text →
  (setItem key v a r).1 = a
  ∧ (storage a = localStorage ∨ getStorageKey a key ≠ "__proto__" →
     Storage.getItem (storage a) (getStorageKey a key) (setItem key v a r).2
     = Text text)
  ∧ getItem key (setItem key v a r).1 (setItem key v a r).2
    = (obj, a, (setItem key v a r).2).
Proof.
  intros Hc Hobj Hv Hstr.
  assert (Ha : (setItem key v a r).1 = a) by (by apply setItem_primitive).
  split; [done|]. split.
  - intros Hk. rewrite setItem_realm, Hstr. by apply storage_set_get.
  - rewrite Ha. apply getItem_cached; [done | by apply is_object_truthy].
Qed.

(** X13. When the cache reads nothing for the key, an item that is missing
    or is the empty text makes [getItem] return [undefined] without
    decoding anything; the adaptor and the realm are as before.  On a new
    adaptor the cache reads nothing for exactly the storage keys that are
    not the name of a member of [Object.prototype]; for those that are,
    [getItem] returns that member. *)
Theorem getItem_nothing_stored key a r :
  (truthy (prop (objectCache a) (getStorageKey a key)) = false →
   Storage.getItem (storage a) (getStorageKey a key) r = NoItem
   ∨ Storage.getItem (storage a) (getStorageKey a key) r = Text "" →
   decode (getStorageKey a key)
     (Storage.getItem (storage a) (getStorageKey a key) r) a r
   = Ok (VUndefined, a, r)
   ∧ getItem key a r = (VUndefined, a, r))
  ∧ (∀ pre r0,
       (ordinary (getStorageKey (new pre r0) key) ↔
        truthy (prop (objectCache (new pre r0)) (getStorageKey (new pre r0) key))
        = false)
       ∧ (Object_prototype_has (getStorageKey (new pre r0) key) = true →
          getItem key (new pre r0) r
          = (Object_prototype (getStorageKey (new pre r0) key), new pre r0, r))).
Proof.
  split.
  - intros Hmiss Hitem.
    assert (Hd : decode (getStorageKey a key)
              (Storage.getItem (storage a) (getStorageKey a key) r) a r
            = Ok (VUndefined, a, r)).
    { unfold decode. by destruct Hitem as [-> | ->]. }
    split; [done|]. rewrite getItem_miss by done. by rewrite Hd.
  - intros pre r0. rewrite new_adaptor_cache. split.
    + split.
      * intros Hk. by rewrite Object_prototype_ordinary.
      * intros Hf. unfold ordinary.
        destruct (Object_prototype_has _) eqn:E; [|done].
        by rewrite Object_prototype_truthy in Hf.
    + intros Hk. rewrite getItem_hit; rewrite new_adaptor_cache; [done|].
      by apply Object_prototype_truthy.
Qed.

(** X14. [getItem] never writes: the two storages of the realm are as
    before, whatever it returns.  It gives out no reference, or, when it
    decoded an array or an object, one for each array and object of the
    decoded tree; and the adaptor keeps its prefix and its storage. *)
Theorem getItem_never_writes key a r :
  stored_texts (getItem key a r).2 = stored_texts r
  ∧ (∀ s k, Storage.getItem s k (getItem key a r).2 = Storage.getItem s k r)
  ∧ ((getItem key a r).2 = r
     ∨ ∃ text tree,
         Storage.getItem (storage a) (getStorageKey a key) r = Text text
         ∧ JSON_parse text = Some tree
         ∧ is_composite tree = true
         ∧ next_ref (getItem key a r).2 = (next_ref r + composites tree)%nat)
  ∧ prefix (getItem key a r).1.2 = prefix a
  ∧ storage (getItem key a r).1.2 = storage a.
Proof.
  destruct (getItem_stored_texts key a r) as (Ht & _).
  split; [done|]. split.
  { intros s k. unfold stored_texts in Ht. injection Ht as Hl Hf.
    destruct s; simpl; [by rewrite Hl | by rewrite Hf]. }
  split.
  { destruct (getItem_realm key a r) as [?|(text & tree & ? & ? & ? & Hr)];
      [by left|right].
    exists text, tree. by rewrite Hr. }
  split; [apply getItem_prefix | apply getItem_storage].
Qed.

(** X15. [setItem] writes one item: in the storage of the adaptor every
    other storage key reads as before, the other storage is not touched,
    no reference is given out, and the cache owns for every other storage
    key what it owned.  Unless the storage key is ["__proto__"], the cache
    keeps its prototype, so every other storage key reads in it as before. *)
Theorem setItem_writes_one_item key v a r :
  (∀ sk, sk ≠ getStorageKey a key →
     Storage.getItem (storage a) sk (setItem key v a r).2
     = Storage.getItem (storage a) sk r
     ∧ objectCache (setItem key v a r).1 !! sk = objectCache a !! sk
     ∧ (getStorageKey a key ≠ "__proto__" →
        prop (objectCache (setItem key v a r).1) sk = prop (objectCache a) sk))
  ∧ (getStorageKey a key ≠ "__proto__" →
     proto (objectCache (setItem key v a r).1) = proto (objectCache a))
  ∧ (∀ s sk, s ≠ storage a →
       Storage.getItem s sk (setItem key v a r).2 = Storage.getItem s sk r)
  ∧ next_ref (setItem key v a r).2 = next_ref r
  ∧ prefix (setItem key v a r).1 = prefix a
  ∧ storage (setItem key v a r).1 = storage a.
Proof.
  split.
  { intros sk Hne. split; [|split].
    - rewrite setItem_realm. by apply storage_set_other_key.
    - unfold setItem. simpl. destruct (is_object v); [|done].
      simpl. by apply assign_lookup_other.
    - intros Hk. unfold setItem. simpl. destruct (is_object v); [|done].
      simpl. by apply assign_prop_ne. }
  split.
  { intros Hk. unfold setItem. simpl. destruct (is_object v); [|done].
    simpl. by rewrite assign_insert. }
  split.
  { intros s sk Hne. rewrite setItem_realm.
    by apply storage_set_other_storage. }
  split; [apply setItem_next_ref|].
  split; [apply setItem_prefix | apply setItem_storage].
Qed.

(** X16. On one adaptor and for a storage key other than ["__proto__"],
    [getItem] after [setItem] returns the value that was set: an array or
    an object as the very instance that was passed; a primitive, when the
    cache reads nothing for the key and the text [JSON.stringify] gives for
    it decodes back to it, as that primitive. *)
Theorem getItem_after_setItem key v a r text tree :
  getStorageKey a key ≠ "__proto__" →
  JSON_stringify v = Some text →
  text ≠ "" →
  JSON_parse text = Some tree →
  content v = Some tree →
  is_object v = true
  ∨ truthy (prop (objectCache a) (getStorageKey a key)) = false →
  (getItem key (setItem key v a r).1 (setItem key v a r).2).1.1 = v.
Proof.
  intros Hk Hstr Htext Hparse Hcontent Hcase.
  destruct (is_object v) eqn:Hobj.
  - by rewrite (proj2 (setItem_object key v a r _ Hk Hobj)).
  - destruct Hcase as [|Hmiss]; [done|].
    rewrite setItem_primitive by done.
    rewrite (getItem_decoded key a _ text tree); [| done | | done | done].
    + by rewrite (primitive_reify v tree).
    + rewrite setItem_realm, Hstr. apply storage_set_get. by right.
Qed.

(** X17. Another adaptor on the same storage, with the same prefix and a
    cache that reads nothing for the key, does not get the object that was
    set: it gets a new one with the same content and a new reference, so
    the two adaptors never return the same instance. *)
Theorem other_adaptor_gets_a_copy key v a b r text tree :
  getStorageKey a key ≠ "__proto__" →
  is_object v = true →
  prefix b = prefix a →
  storage b = storage a →
  truthy (prop (objectCache b) (getStorageKey b key)) = false →
  JSON_stringify v = Some text →
  text ≠ "" →
  JSON_parse text = Some tree →
  content v = Some tree →
  same_content v (getItem key b (setItem key v a r).2).1.1
  ∧ reference (getItem key b (setItem key v a r).2).1.1 = Some (next_ref r)
  ∧ (∀ n, reference v = Some n → (n < next_ref r)%nat →
       (getItem key b (setItem key v a r).2).1.1 ≠ v).
Proof.
  intros Hproto Hobj Hp Hs Hmiss Hstr Htext Hparse Hcontent.
  assert (Hk : getStorageKey b key = getStorageKey a key)
    by (by apply getStorageKey_prefix).
  assert (Hitem : Storage.getItem (storage b) (getStorageKey b key)
                    (setItem key v a r).2 = Text text).
  { rewrite Hk, Hs, setItem_realm, Hstr. apply storage_set_get. by right. }
  rewrite (getItem_decoded key b _ text tree) by done.
  pose proof (setItem_next_ref key v a r) as Hn.
  assert (Hshape : is_composite tree = true)
    by (by rewrite (content_composite v)).
  split; [apply (content_same _ _ tree); [done | apply reify_content]|].
  assert (Href : reference (reify tree (setItem key v a r).2).1
                 = Some (next_ref r)).
  { by rewrite reify_reference, Hn. }
  split; [done|].
  intros n Hv Hlt Heq. rewrite Heq, Hv in Href. injection Href as ->. lia.
Qed.

Lemma has_separator_append (p q : string) :
  has_separator (String.append p (String.append "-" q)) = true.
Proof.
  induction p as [|c p IH]; [done|].
  change (Ascii.eqb c "-"
          || has_separator (String.append p (String.append "-" q)) = true).
  rewrite IH. apply orb_true_r.
Qed.

Lemma Object_prototype_has_no_separator k :
  Object_prototype_has k = true → has_separator k = false.
Proof.
  unfold Object_prototype_has. intros Hk. apply orb_true_iff in Hk.
  destruct Hk as [Hk|Hk].
  - apply bool_decide_eq_true in Hk. by subst.
  - apply bool_decide_eq_true in Hk. unfold Object_prototype_functions in Hk.
    repeat (apply elem_of_cons in Hk as [->|Hk]; [done|]).
    by apply elem_of_nil in Hk.
Qed.

(** X30. An adaptor with a prefix that is not empty never has the name of
    a member of [Object.prototype] as a storage key; so on such an adaptor,
    with a cache that has its first prototype and owns nothing for the
    key, [getItem] goes to the storage, whatever the key. *)
Theorem prefixed_storage_key_is_ordinary a p key r :
  prefix a = Some p →
  p ≠ "" →
  ordinary (getStorageKey a key)
  ∧ (plain (objectCache a) →
     objectCache a !! getStorageKey a key = None →
     getItem key a r =
       match decode (getStorageKey a key)
               (Storage.getItem (storage a) (getStorageKey a key) r) a r with
       | Ok returned => returned
       | Throw _ => (VUndefined, a, r)
       end).
Proof.
  intros Hp Hne.
  assert (Hk : ordinary (getStorageKey a key)).
  { unfold ordinary.
    destruct (Object_prototype_has (getStorageKey a key)) eqn:E; [|done].
    apply Object_prototype_has_no_separator in E.
    unfold getStorageKey in E.
    rewrite Hp, (proj2 (String.eqb_neq p "")) in E by done.
    by rewrite has_separator_append in E. }
  split; [done|].
  intros Hplain Hown. apply getItem_miss.
  by rewrite prop_plain, Object_prototype_ordinary.
Qed.

End StorageAdaptorSequences.

(** * Further properties of the consumer hook *)

Section HookSequences.
Context `{Host}.
Implicit Types (p : Params) (w : World) (v : jsval).

Lemma update_cells p v w :
  memo_fixedInitialValue (cells (update p v w).1) = memo_fixedInitialValue (cells w)
  ∧ pending_effect (cells (update p v w).1) = pending_effect (cells w)
  ∧ pending_cleanup (cells (update p v w).1) = pending_cleanup (cells w).
Proof.
  unfold update. destruct (StateManager.write _ _ _) as [m [calls|e]]; [|done].
  destruct (default false (shouldSaveToStorage p)); [|done].
  by destruct (StorageAdaptor.setItem _ _ _ _) as [a r].
Qed.

Lemma commitEffect_memo w :
  memo_fixedInitialValue (cells (commitEffect w).1)
  = memo_fixedInitialValue (cells w).
Proof.
  unfold commitEffect. destruct (pending_effect (cells w)) as [k|]; [|done].
  destruct (pending_cleanup (cells w)) as [[k0 f0]|].
  - destruct (StateManager.endWatch k0 f0 (manager w)) as [m|]; [|done].
    simpl. by destruct (StateManager.watchForUpdates k _ m).
  - simpl. by destruct (StateManager.watchForUpdates k _ (manager w)).
Qed.

Lemma useSharedState_next_ref p w :
  (next_ref (realm w) ≤ next_ref (realm (useSharedState p w).2))%nat.
Proof.
  rewrite (proj1 (proj2 (proj2 (useSharedState_cells p w)))).
  destruct (default false (shouldSaveToStorage p)); [|done].
  apply getItem_stored_texts.
Qed.

Lemma useSharedState_effect p w :
  pending_effect (cells (useSharedState p w).2) = Some (key p)
  ∧ pending_cleanup (cells (useSharedState p w).2) = pending_cleanup (cells w)
  ∧ notified (useSharedState p w).2 = notified w.
Proof.
  unfold useSharedState. simpl.
  destruct (default false (shouldSaveToStorage p)); [|done].
  by destruct (StorageAdaptor.getItem _ _ _) as [[sv a'] r'].
Qed.

(** X18. For a key that is not the name of a member of [Object.prototype],
    on a state object that still has its first prototype, [setValue] of a
    value or of a function of the consumer returns; it writes to the slot, tells the subscribers of the key and,
    with persistence, stores one and the same value: the argument, or for
    a function what it makes of the value of the slot, not the function.
    Without persistence the realm and the cells of the consumer are as
    before.  For the name of a member of [Object.prototype] under which
    the manager has no list, [setValue] throws a [TypeError], and the
    realm and the cells are as before: nothing is stored. *)
Theorem setValue_uses_computed_value p v w :
  plain (StateManager.read (manager w)) →
  is_builtin v = false →
  (ordinary (key p) →
     (update p v w).2 = Normal
     ∧ StateManager.read (manager (update p v w).1) !! key p
       = Some (computed p v w)
     ∧ notified (update p v w).1
       = notified w
         ++ ((λ f, mkCall f
                     (mkArgs (default VUndefined
                                (StateManager.read (manager w) !! key p))
                             (computed p v w)))
             <$> StateManager.subscribers (manager w) (key p))
     ∧ (default false (shouldSaveToStorage p) = true →
          realm (update p v w).1
          = Storage.setItem (StorageAdaptor.storage (useStorage w))
              (StorageAdaptor.getStorageKey (useStorage w) (key p))
              (JSON_stringify (computed p v w)) (realm w))
     ∧ (default false (shouldSaveToStorage p) = false →
          realm (update p v w).1 = realm w ∧ cells (update p v w).1 = cells w))
  ∧ (Object_prototype_has (key p) = true →
     StateManager.rerendersToTrigger (manager w) !! key p = None →
     (update p v w).2 = Abrupt TypeError
     ∧ realm (update p v w).1 = realm w
     ∧ cells (update p v w).1 = cells w
     ∧ notified (update p v w).1 = notified w).
Proof.
  intros Hplain _. split.
  - intros Hk.
    pose proof (write_returns (key p) (computed p v w) (manager w) (or_introl Hk))
      as Hw.
    destruct (update_storage p v w _ Hw) as (Hr & Ha & Hn).
    split; [by rewrite update_completion, Hw|].
    split; [apply update_slot; by apply ordinary_not_proto|].
    split; [by rewrite Hn, prop_plain_ordinary|].
    split.
    + intros Hp. rewrite Hr, Hp. apply setItem_realm.
    + intros Hp. rewrite Hr, Hp. split; [done|].
      unfold update. fold (computed p v w).
      destruct (StateManager.write _ _ _) as [m written]. simpl in Hw.
      by rewrite Hw, Hp.
  - intros Hk Hlist.
    pose proof (write_throws (key p) (computed p v w) (manager w) Hlist Hk) as Hw.
    split; [by rewrite update_completion, Hw|].
    by apply (update_thrown p v w TypeError).
Qed.

(** X19. An activation only reads: the state manager, the calls made so
    far and the two storages are as before, and so is the whole realm when
    persistence is off. Subscribing is left to the commit of the effect. *)
Theorem activation_only_reads p w :
  manager (useSharedState p w).2 = manager w
  ∧ notified (useSharedState p w).2 = notified w
  ∧ stored_texts (realm (useSharedState p w).2) = stored_texts (realm w)
  ∧ (default false (shouldSaveToStorage p) = false →
       realm (useSharedState p w).2 = realm w).
Proof.
  destruct (useSharedState_cells p w) as (_ & _ & Hr & Hm).
  split; [done|]. split; [apply useSharedState_effect|].
  rewrite Hr. split.
  - destruct (default false (shouldSaveToStorage p)); [|done].
    apply getItem_stored_texts.
  - by intros ->.
Qed.

(** X20. The fixed initial value of a consumer is the initial value of its
    first activation, whatever activations (with whatever initial values),
    [setValue], [clear] and commits follow. *)
Theorem fixedInitialValue_is_first_initialValue ops p w :
  memo_fixedInitialValue (cells w) = None →
  memo_fixedInitialValue (cells (hook_run (OpActivate p :: ops) w))
  = Some (initialValue p).
Proof.
  intros Hnone.
  assert (Hkeep : ∀ w0 v0, memo_fixedInitialValue (cells w0) = Some v0 →
            memo_fixedInitialValue (cells (hook_run ops w0)) = Some v0).
  { induction ops as [|op ops IH]; intros w0 v0 Hv0; [done|].
    unfold hook_run in *. simpl. apply IH.
    destruct op as [p0 | p0 v | p0 |]; simpl.
    - rewrite (proj1 (useSharedState_cells p0 w0)). by rewrite Hv0.
    - rewrite (proj1 (useSharedState_closures p0 w0)).
      by rewrite (proj1 (update_cells p0 v w0)).
    - rewrite (proj2 (useSharedState_closures p0 w0)).
      by rewrite (proj1 (update_cells p0 _ w0)).
    - by rewrite commitEffect_memo. }
  unfold hook_run. simpl. apply Hkeep.
  rewrite (proj1 (useSharedState_cells p w)). by rewrite Hnone.
Qed.

(** X21. On a state object that still has its first prototype, a truthy
    value that is not a function, once set under a key other than
    ["__proto__"], is the value the next activation for that key returns,
    with or without persistence, whatever the storage holds and whether
    [setValue] returned or threw after its store. *)
Theorem value_after_setValue p p' v w :
  key p ≠ "__proto__" →
  plain (StateManager.read (manager w)) →
  key p' = key p →
  is_function v = false →
  truthy v = true →
  value (useSharedState p' (update p v w).1).1 = v.
Proof.
  intros Hk Hplain Hkey Hfun Ht. rewrite useSharedState_value, Hkey.
  assert (Hslot : prop (StateManager.read (manager (update p v w).1)) (key p) = v).
  { apply prop_own. rewrite update_slot by done.
    unfold computed. by rewrite invoke_not_function. }
  rewrite Hslot. unfold js_or. by rewrite Ht, Ht.
Qed.

(** X22. Without persistence, a falsy value that was set under a key other
    than ["__proto__"] is not returned: the state object owns it, and the
    next activation for that key returns the fixed initial value of the
    consumer instead. *)
Theorem falsy_value_falls_back p p' v w :
  key p ≠ "__proto__" →
  plain (StateManager.read (manager w)) →
  key p' = key p →
  is_function v = false →
  truthy v = false →
  default false (shouldSaveToStorage p') = false →
  StateManager.read (manager (update p v w).1) !! key p = Some v
  ∧ value (useSharedState p' (update p v w).1).1
    = default (initialValue p') (memo_fixedInitialValue (cells w)).
Proof.
  intros Hk Hplain Hkey Hfun Ht Hp'.
  assert (Hslot : StateManager.read (manager (update p v w).1) !! key p = Some v).
  { rewrite update_slot by done. unfold computed.
    by rewrite invoke_not_function. }
  split; [done|].
  rewrite useSharedState_value, Hkey, Hp', (prop_own _ _ _ Hslot).
  rewrite (proj1 (update_cells p v w)). unfold js_or. simpl. by rewrite Ht.
Qed.

(** X23. With persistence, for a key that is not the name of a member of
    [Object.prototype] and a state object that still has its first
    prototype, a falsy value does not replace an object that was set
    before: after [setValue] of an array or object and then of a falsy
    value, the slot holds the falsy value and the next activation returns
    the object, which the adaptor still has in its cache. *)
Theorem cached_object_comes_back p obj v w :
  adaptor_of_realm w →
  ordinary (key p) →
  plain (StateManager.read (manager w)) →
  default false (shouldSaveToStorage p) = true →
  is_object obj = true →
  is_function v = false →
  truthy v = false →
  StateManager.read (manager (update p v (update p obj w).1).1) !! key p = Some v
  ∧ value (useSharedState p (update p v (update p obj w).1).1).1 = obj.
Proof.
  intros Hwf Hk Hplain Hp Hobj Hfun Ht.
  pose proof (ordinary_not_proto _ Hk) as Hproto.
  set (w1 := (update p obj w).1). set (w2 := (update p v w1).1).
  assert (Hv : computed p v w1 = v)
    by (unfold computed; by rewrite invoke_not_function).
  assert (Ho : computed p obj w = obj)
    by (unfold computed; rewrite invoke_not_function; [done|by destruct obj]).
  assert (Hslot : StateManager.read (manager w2) !! key p = Some v).
  { unfold w2. by rewrite update_slot, Hv. }
  split; [done|].
  assert (Hprim : is_object v = false) by (by destruct v).
  set (a1 := (StorageAdaptor.setItem (key p) obj (useStorage w) (realm w)).1).
  assert (Ha1 : useStorage w1 = a1).
  { unfold useStorage at 1, w1.
    destruct (update_storage p obj w _
                (write_returns (key p) (computed p obj w) (manager w)
                   (or_introl Hk))) as (_ & -> & _).
    by rewrite Hp, Ho. }
  assert (Ha2 : useStorage w2 = a1).
  { unfold useStorage at 1, w2.
    destruct (update_storage p v w1 _
                (write_returns (key p) (computed p v w1) (manager w1)
                   (or_introl Hk))) as (_ & -> & _).
    rewrite Hp, Hv, setItem_primitive by done. simpl. by rewrite Ha1. }
  rewrite useSharedState_value, Hp, Ha2, (prop_own _ _ _ Hslot). simpl.
  assert (Hsk : StorageAdaptor.getStorageKey (useStorage w) (key p) ≠ "__proto__").
  { unfold StorageAdaptor.getStorageKey.
    by rewrite (proj1 (useStorage_adaptor_of_realm w Hwf)). }
  unfold a1. rewrite (proj2 (setItem_object (key p) obj _ _ _ Hsk Hobj)). simpl.
  unfold js_or. simpl. by rewrite Ht, (is_object_truthy _ Hobj).
Qed.

(** X24. Without persistence nothing survives a reload: for a key that is
    not the name of a member of [Object.prototype], the first activation
    after it returns the initial value it is given, and takes it as the
    fixed initial value, whatever was set before and whatever the storage
    holds; for the name of such a member it returns that member. *)
Theorem reload_without_persistence p w :
  default false (shouldSaveToStorage p) = false →
  value (useSharedState p (reload w)).1
    = js_or (Object_prototype (key p)) (initialValue p)
  ∧ (ordinary (key p) → value (useSharedState p (reload w)).1 = initialValue p)
  ∧ (Object_prototype_has (key p) = true →
       value (useSharedState p (reload w)).1 = Object_prototype (key p))
  ∧ memo_fixedInitialValue (cells (useSharedState p (reload w)).2)
    = Some (initialValue p)
  ∧ realm (useSharedState p (reload w)).2 = realm w.
Proof.
  intros Hp. rewrite useSharedState_value, Hp.
  destruct (useSharedState_cells p (reload w)) as (Hm & _ & Hr & _).
  rewrite Hm, Hr, Hp. simpl.
  change (prop ∅ (key p)) with (Object_prototype (key p)).
  assert (Hor : js_or (js_or (Object_prototype (key p)) VUndefined) (initialValue p)
                = js_or (Object_prototype (key p)) (initialValue p)).
  { unfold js_or. by destruct (truthy (Object_prototype (key p))) eqn:E; rewrite ?E. }
  rewrite !Hor. split; [done|]. split; [|split; [|done]].
  - intros Hk. by rewrite Object_prototype_ordinary.
  - intros Hk. unfold js_or. by rewrite Object_prototype_truthy.
Qed.

(** The effect of a first activation subscribes a new closure. *)
Lemma commitEffect_first p w :
  ordinary (key p) →
  pending_cleanup (cells w) = None →
  ∃ w', commitEffect (useSharedState p w).2 = (w', Normal)
    ∧ StateManager.subscribers (manager w') (key p)
      = StateManager.subscribers (manager w) (key p)
        ++ [next_ref (realm (useSharedState p w).2)]
    ∧ pending_cleanup (cells w')
      = Some (key p, next_ref (realm (useSharedState p w).2))
    ∧ next_ref (realm w') = S (next_ref (realm (useSharedState p w).2)).
Proof.
  intros Hk Hclean. unfold commitEffect.
  destruct (useSharedState_effect p w) as (-> & -> & _). rewrite Hclean.
  rewrite (proj2 (proj2 (proj2 (useSharedState_cells p w)))). simpl.
  destruct (watchForUpdates_returns (key p)
              (next_ref (realm (useSharedState p w).2)) (manager w)
              (or_introl Hk)) as (m' & -> & _ & _ & Hr).
  eexists. split; [done|]. simpl.
  unfold StateManager.subscribers at 1. by rewrite Hr, lookup_insert_eq.
Qed.

(** One render and its commit on a consumer whose last effect subscribed
    [f]: the new closure takes the place of [f]. *)
Lemma render_cycle_replaces p w f (base : list RenderFunction) :
  pending_cleanup (cells w) = Some (key p, f) →
  StateManager.subscribers (manager w) (key p) = base ++ [f] →
  f ∉ base →
  ∃ w', commitEffect (useSharedState p w).2 = (w', Normal)
    ∧ StateManager.subscribers (manager w') (key p)
      = base ++ [next_ref (realm (useSharedState p w).2)]
    ∧ pending_cleanup (cells w')
      = Some (key p, next_ref (realm (useSharedState p w).2))
    ∧ next_ref (realm w') = S (next_ref (realm (useSharedState p w).2)).
Proof.
  intros Hclean Hsubs Hf. unfold commitEffect.
  destruct (useSharedState_effect p w) as (-> & -> & _). rewrite Hclean.
  rewrite (proj2 (proj2 (proj2 (useSharedState_cells p w)))).
  unfold StateManager.endWatch.
  destruct (StateManager.rerendersToTrigger (manager w) !! key p) as [l|] eqn:El.
  2:{ unfold StateManager.subscribers in Hsubs. rewrite El in Hsubs.
      by destruct base. }
  assert (l = base ++ [f]) as ->
    by (unfold StateManager.subscribers in Hsubs; by rewrite El in Hsubs).
  simpl. unfold StateManager.watchForUpdates. simpl.
  rewrite lookup_insert_eq. eexists. split; [done|]. simpl.
  unfold StateManager.subscribers. simpl.
  rewrite lookup_insert_eq. simpl.
  rewrite filter_app, filter_ne_absent by done.
  rewrite filter_cons_False, filter_nil, app_nil_r by (intros ?; done).
  done.
Qed.

Lemma render_cycles_subscribe_once p n w :
  ordinary (key p) →
  pending_cleanup (cells w) = None →
  subscribers_allocated (key p) w →
  ∃ w' f, render_cycles p (S n) w = (w', Normal)
    ∧ StateManager.subscribers (manager w') (key p)
      = StateManager.subscribers (manager w) (key p) ++ [f]
    ∧ pending_cleanup (cells w') = Some (key p, f)
    ∧ (next_ref (realm w) ≤ f < next_ref (realm w'))%nat.
Proof.
  intros Hk Hclean Halloc. induction n as [|n IH].
  - simpl. destruct (commitEffect_first p w Hk Hclean) as (w' & Hok & Hs & Hc & Hn).
    exists w', (next_ref (realm (useSharedState p w).2)).
    split; [done|]. split; [done|]. split; [done|].
    pose proof (useSharedState_next_ref p w) as Hle. lia.
  - destruct IH as (w1 & f & Hok & Hs & Hc & Hlo & Hhi).
    change (render_cycles p (S (S n)) w)
      with (match render_cycles p (S n) w with
            | (w', Normal) => commitEffect (useSharedState p w').2
            | (w', Abrupt e) => (w', Abrupt e)
            end).
    rewrite Hok.
    assert (Hf : f ∉ StateManager.subscribers (manager w) (key p)).
    { intros Hin. apply Halloc in Hin. lia. }
    destruct (render_cycle_replaces p w1 f _ Hc Hs Hf)
      as (w2 & Hok2 & Hs2 & Hc2 & Hn2).
    exists w2, (next_ref (realm (useSharedState p w1).2)).
    split; [done|]. split; [done|]. split; [done|].
    pose proof (useSharedState_next_ref p w1) as Hle. lia.
Qed.

(** X25. For a key that is not the name of a member of [Object.prototype],
    the subscriptions of a consumer do not pile up: after any number of
    renders, each followed by the commit of its effect, the commits never
    threw and the consumer has one subscription under its key, at the end
    of the list, which is the one its next cleanup will remove; the
    subscriptions that were there before are untouched.  For the name of
    such a member, on a manager with no list for it, the first commit
    throws a [TypeError] and nothing is subscribed. *)
Theorem subscriptions_do_not_pile_up p n w :
  pending_cleanup (cells w) = None →
  (ordinary (key p) →
   subscribers_allocated (key p) w →
   ∃ w' f, render_cycles p (S n) w = (w', Normal)
     ∧ StateManager.subscribers (manager w') (key p)
       = StateManager.subscribers (manager w) (key p) ++ [f]
     ∧ (f ∉ StateManager.subscribers (manager w) (key p))
     ∧ pending_cleanup (cells w') = Some (key p, f))
  ∧ (Object_prototype_has (key p) = true →
     StateManager.rerendersToTrigger (manager w) !! key p = None →
     (commitEffect (useSharedState p w).2).2 = Abrupt TypeError
     ∧ manager (commitEffect (useSharedState p w).2).1 = manager w
     ∧ pending_cleanup (cells (commitEffect (useSharedState p w).2).1) = None).
Proof.
  intros Hclean. split.
  - intros Hk Halloc.
    destruct (render_cycles_subscribe_once p n w Hk Hclean Halloc)
      as (w' & f & Hok & Hs & Hc & Hlo & Hhi).
    exists w', f. split; [done|]. split; [done|]. split; [|done].
    intros Hin. apply Halloc in Hin. lia.
  - intros Hk Hlist. unfold commitEffect.
    destruct (useSharedState_effect p w) as (-> & -> & _). rewrite Hclean.
    rewrite (proj2 (proj2 (proj2 (useSharedState_cells p w)))). simpl.
    destruct (watchForUpdates_throws (key p)
                (next_ref (realm (useSharedState p w).2)) (manager w) Hlist Hk)
      as [-> _].
    done.
Qed.

End HookSequences.

(** * Properties of useStoredValue *)

Section StoredValueFacts.
Context `{Host}.
Implicit Types (sw : StoredWorld) (v : jsval).

Lemma useStoredValue_state key d sw :
  (useStoredValue key d sw).1.1
  = match stored_state (stored_cells sw) with
    | Some s => s
    | None =>
        let initial :=
          js_or (StorageAdaptor.getItem key
                   (default (StorageAdaptor.new None (stored_realm sw))
                            (stored_storage (stored_cells sw)))
                   (stored_realm sw)).1.1 d in
        default initial (invoke initial VUndefined)
    end
  ∧ stored_state (stored_cells (useStoredValue key d sw).2)
    = Some (useStoredValue key d sw).1.1
  ∧ (useStoredValue key d sw).1.2 = stored_set key.
Proof.
  unfold useStoredValue.
  by destruct (StorageAdaptor.getItem _ _ _) as [[sv a] r].
Qed.

Lemma stored_set_state key v sw :
  is_function v = false →
  stored_state (stored_cells (stored_set key v sw)) = Some v.
Proof.
  intros Hfun. unfold stored_set.
  destruct (StorageAdaptor.setItem _ _ _ _) as [a r]. simpl.
  by rewrite invoke_not_function.
Qed.



(** X26. What [set] was given is what the next activations return, as it
    is: a falsy value too, and whatever default the activation is given
    and whatever the storage holds by then. *)
Theorem useStoredValue_returns_what_was_set key d v sw sw' :
  is_function v = false →
  stored_cells sw' = stored_cells (stored_set key v sw) →
  (useStoredValue key d sw').1.1 = v.
Proof.
  intros Hfun Hcells.
  rewrite (proj1 (useStoredValue_state key d sw')), Hcells.
  by rewrite stored_set_state.
Qed.

(** X27. The first activation returns what the adaptor's [getItem] returns
    for the key when that is truthy, and the default otherwise, when that
    is not a function (a function is called for the first value, and
    [getItem] returns one for the name of a function of
    [Object.prototype]); every later activation returns the same value,
    whatever default it is given and whatever the storage holds: the
    storage is only looked at for the first value. *)
Theorem useStoredValue_reads_storage_once key d d' sw r' :
  stored_state (stored_cells sw) = None →
  is_function
    (js_or (StorageAdaptor.getItem key
              (default (StorageAdaptor.new None (stored_realm sw))
                       (stored_storage (stored_cells sw)))
              (stored_realm sw)).1.1 d) = false →
  (useStoredValue key d sw).1.1
  = js_or (StorageAdaptor.getItem key
             (default (StorageAdaptor.new None (stored_realm sw))
                      (stored_storage (stored_cells sw)))
             (stored_realm sw)).1.1 d
  ∧ (useStoredValue key d'
       {| stored_realm := r';
          stored_cells := stored_cells (useStoredValue key d sw).2 |}).1.1
    = (useStoredValue key d sw).1.1.
Proof.
  intros Hnone Hfun. split.
  - rewrite (proj1 (useStoredValue_state key d sw)), Hnone.
    cbv zeta. by rewrite invoke_not_function.
  - rewrite (proj1 (useStoredValue_state key d' _)). simpl.
    by rewrite (proj1 (proj2 (useStoredValue_state key d sw))).
Qed.


End StoredValueFacts.

(** * The hook without a provider *)

Section OutsideProvider.
Context `{Host}.
Implicit Types (p : Params) (w : World) (v : jsval).

(** Under a provider the hook is the one studied above. *)
Lemma useSharedState_in_provider p w :
  useSharedState_in provided p w = useSharedState p w.
Proof. reflexivity. Qed.



End OutsideProvider.

(** * The further properties on concrete inputs *)

Section MoreSamples.
#[local] Existing Instance sample_host.

Lemma endWatch_throws_until_watched_witness :
  (existsb (watches "k") [OpWrite "k" (VNum 1)] = false
   ∧ StateManager.endWatch "k" 1
       (manager_run [OpWrite "k" (VNum 1)] StateManager.new) = Throw TypeError)
  ∧ (Object_prototype_has "toString" = true
     ∧ StateManager.endWatch "toString" 1
         (manager_run [OpWatch "toString" 1] StateManager.new) = Throw TypeError)
  ∧ (existsb (watches "k") [OpWatch "k" 2; OpEndWatch "k" 2] = true
     ∧ ordinary "k"
     ∧ ∃ m', StateManager.endWatch "k" 1
               (manager_run [OpWatch "k" 2; OpEndWatch "k" 2] StateManager.new)
             = Ok m').
Proof.
  assert (H1 : existsb (watches "k") [OpWrite "k" (VNum 1)] = false)
    by reflexivity.
  assert (H2 : existsb (watches "k") [OpWatch "k" 2; OpEndWatch "k" 2] = true)
    by (vm_compute; reflexivity).
  assert (H3 : Object_prototype_has "toString" = true)
    by (vm_compute; reflexivity).
  assert (Hk : ordinary "k") by (vm_compute; reflexivity).
  split; [|split].
  - split; [exact H1|].
    exact (proj1 (endWatch_throws_until_watched _ "k" 1%nat) (or_introl H1)).
  - split; [exact H3|].
    exact (proj1 (endWatch_throws_until_watched _ "toString" 1%nat) (or_intror H3)).
  - split; [exact H2|]. split; [exact Hk|].
    exact (proj2 (endWatch_throws_until_watched _ "k" 1%nat) H2 Hk).
Defined.

Lemma read_is_last_write_witness :
  "toString" ≠ "__proto__"
  ∧ plain (StateManager.state two_subscribers)
  ∧ forallb keeps_prototype
      [OpWrite "toString" (VNum 1); OpWrite "__proto__" (VNum 2);
       OpEndWatch "k" 1] = true
  ∧ StateManager.read
      (manager_run [OpWrite "toString" (VNum 1); OpWrite "__proto__" (VNum 2);
                    OpEndWatch "k" 1] two_subscribers) !! "toString"
    = Some (VNum 1).
Proof.
  assert (Hk : "toString" ≠ "__proto__") by discriminate.
  assert (Hp : plain (StateManager.state two_subscribers))
    by (vm_compute; reflexivity).
  assert (Hops : forallb keeps_prototype
            [OpWrite "toString" (VNum 1); OpWrite "__proto__" (VNum 2);
             OpEndWatch "k" 1] = true) by (vm_compute; reflexivity).
  split; [exact Hk|]. split; [exact Hp|]. split; [exact Hops|].
  exact (eq_trans
    (proj1 (read_is_last_write _ two_subscribers "toString" Hk Hp Hops))
    ltac:(vm_compute; reflexivity)).
Defined.

Lemma endWatch_after_watchForUpdates_witness :
  ordinary "k"
  ∧ (1%nat ∉ StateManager.subscribers second_subscriber_only "k")
  ∧ ∃ m1 m', StateManager.watchForUpdates "k" 1 second_subscriber_only = Ok m1
          ∧ StateManager.endWatch "k" 1 m1 = Ok m'
          ∧ StateManager.subscribers m' "k"
            = StateManager.subscribers second_subscriber_only "k".
Proof.
  assert (Hk : ordinary "k") by (vm_compute; reflexivity).
  assert (Hn : 1%nat ∉ StateManager.subscribers second_subscriber_only "k").
  { intros Hin. vm_compute in Hin. apply list_elem_of_In in Hin.
    destruct Hin as [Hin|[]]. discriminate. }
  split; [exact Hk|]. split; [exact Hn|].
  destruct (endWatch_after_watchForUpdates "k" 1%nat second_subscriber_only Hk)
    as (m1 & m' & Hw & Hok & _ & Hsame & _).
  exists m1, m'. split; [exact Hw|]. split; [exact Hok | exact (Hsame Hn)].
Defined.

Lemma write_then_write_witness :
  "k" ≠ "__proto__"
  ∧ plain (StateManager.state two_subscribers)
  ∧ calls_made
      (StateManager.write "k" (VNum 2)
         (StateManager.write "k" (VNum 1) two_subscribers).1).2
    = (λ f, mkCall f (mkArgs (VNum 1) (VNum 2)))
        <$> StateManager.subscribers two_subscribers "k".
Proof.
  assert (Hk : "k" ≠ "__proto__") by discriminate.
  assert (Hp : plain (StateManager.state two_subscribers))
    by (vm_compute; reflexivity).
  split; [exact Hk|]. split; [exact Hp|].
  exact (proj2 (write_then_write "k" (VNum 1) (VNum 2) two_subscribers Hk Hp)).
Defined.

Lemma write_same_value_still_notifies_witness :
  StateManager.state (StateManager.write "k" (VNum 0) two_subscribers).1 !! "k"
  = Some (VNum 0)
  ∧ (StateManager.write "k" (VNum 0)
       (StateManager.write "k" (VNum 0) two_subscribers).1).1
    = (StateManager.write "k" (VNum 0) two_subscribers).1.
Proof.
  assert (Hv : StateManager.state
                 (StateManager.write "k" (VNum 0) two_subscribers).1 !! "k"
               = Some (VNum 0)) by (vm_compute; reflexivity).
  split; [exact Hv|].
  exact (proj1 (write_same_value_still_notifies "k" (VNum 0) _ Hv)).
Defined.

Lemma write_commutes_witness :
  "j" ≠ "k"
  ∧ "j" ≠ "__proto__"
  ∧ "k" ≠ "__proto__"
  ∧ plain (StateManager.state two_subscribers)
  ∧ (StateManager.write "j" (VNum 1)
       (StateManager.write "k" (VNum 2) two_subscribers).1).1
    = (StateManager.write "k" (VNum 2)
         (StateManager.write "j" (VNum 1) two_subscribers).1).1.
Proof.
  assert (Hne : "j" ≠ "k") by discriminate.
  assert (H1 : "j" ≠ "__proto__") by discriminate.
  assert (H2 : "k" ≠ "__proto__") by discriminate.
  assert (Hp : plain (StateManager.state two_subscribers))
    by (vm_compute; reflexivity).
  split; [exact Hne|]. split; [exact H1|]. split; [exact H2|]. split; [exact Hp|].
  exact (proj1 (write_commutes "j" "k" (VNum 1) (VNum 2) two_subscribers
                  Hne H1 H2 Hp)).
Defined.

Lemma endWatch_idempotent_and_commutes_witness :
  StateManager.endWatch "k" 1 two_subscribers = Ok second_subscriber_only
  ∧ StateManager.endWatch "k" 1 second_subscriber_only
    = Ok second_subscriber_only.
Proof.
  assert (E : StateManager.endWatch "k" 1 two_subscribers
              = Ok second_subscriber_only) by (vm_compute; reflexivity).
  split; [exact E|].
  exact (proj1 (endWatch_idempotent_and_commutes "k" 1%nat 2%nat _ _ E)).
Defined.

Lemma storage_setItem_getItem_witness :
  "j" ≠ "k"
  ∧ localStorage ≠ fallbackStorage
  ∧ Storage.getItem fallbackStorage "k"
      (Storage.setItem fallbackStorage "k" (Some "1") (holding "2"))
    = Text "1"
  ∧ Storage.getItem fallbackStorage "__proto__"
      (Storage.setItem fallbackStorage "__proto__" (Some "1") (holding "2"))
    = Member VObjectPrototype
  ∧ Storage.getItem fallbackStorage "j"
      (Storage.setItem fallbackStorage "k" (Some "1") (holding "2"))
    = Storage.getItem fallbackStorage "j" (holding "2")
  ∧ Storage.getItem localStorage "k"
      (Storage.setItem fallbackStorage "k" (Some "1") (holding "2"))
    = Storage.getItem localStorage "k" (holding "2").
Proof.
  assert (Hk : "j" ≠ "k") by discriminate.
  assert (Hs : localStorage ≠ fallbackStorage) by discriminate.
  assert (Hp : "k" ≠ "__proto__") by discriminate.
  split; [exact Hk|]. split; [exact Hs|].
  destruct (storage_setItem_getItem fallbackStorage "k" "1" (holding "2"))
    as (Hsame & _ & Hproto & Hkey & Hother).
  split; [exact (Hsame (or_intror Hp))|].
  split; [exact (proj1 (Hproto ltac:(vm_compute; reflexivity)))|].
  split; [exact (Hkey (Some "1") "j" Hk) | exact (Hother (Some "1") _ "k" Hs)].
Defined.

Lemma getStorageKey_injective_witness :
  StorageAdaptor.getStorageKey app_adaptor "k"
  = StorageAdaptor.getStorageKey app_adaptor "k"
  ∧ "k" = "k".
Proof.
  assert (E : StorageAdaptor.getStorageKey app_adaptor "k"
              = StorageAdaptor.getStorageKey app_adaptor "k") by reflexivity.
  split; [exact E|].
  exact (getStorageKey_injective app_adaptor "k" "k" E).
Defined.

Lemma getStorageKey_prefixes_overlap_witness :
  "app" ≠ ""
  ∧ StorageAdaptor.getStorageKey app_user_adaptor "name"
    = StorageAdaptor.getStorageKey app_adaptor "user-name".
Proof.
  assert (Hp : "app" ≠ "") by discriminate.
  split; [exact Hp|].
  exact (proj1 (getStorageKey_prefixes_overlap app_user_adaptor app_adaptor
                  "app" "user" "name" Hp eq_refl eq_refl)).
Defined.

Lemma primitive_does_not_replace_cached_object_witness :
  StorageAdaptor.objectCache object_set.1
    !! StorageAdaptor.getStorageKey object_set.1 "k" = Some (VObj 1 [])
  ∧ JSON_stringify (VNum 0) = Some "0"
  ∧ StorageAdaptor.getItem "k"
      (StorageAdaptor.setItem "k" (VNum 0) object_set.1 object_set.2).1
      (StorageAdaptor.setItem "k" (VNum 0) object_set.1 object_set.2).2
    = (VObj 1 [], object_set.1,
       (StorageAdaptor.setItem "k" (VNum 0) object_set.1 object_set.2).2).
Proof.
  assert (Hc : StorageAdaptor.objectCache object_set.1
                 !! StorageAdaptor.getStorageKey object_set.1 "k"
               = Some (VObj 1 [])) by (vm_compute; reflexivity).
  assert (Hs : JSON_stringify (VNum 0) = Some "0") by reflexivity.
  split; [exact Hc|]. split; [exact Hs|].
  exact (proj2 (proj2 (primitive_does_not_replace_cached_object
                         "k" object_set.1 object_set.2 (VObj 1 []) (VNum 0) "0"
                         Hc eq_refl eq_refl Hs))).
Defined.

Lemma getItem_nothing_stored_witness :
  Storage.getItem (StorageAdaptor.storage node_adaptor)
    (StorageAdaptor.getStorageKey node_adaptor "k") (empty_realm false) = NoItem
  ∧ StorageAdaptor.getItem "k" node_adaptor (empty_realm false)
    = (VUndefined, node_adaptor, empty_realm false)
  ∧ Object_prototype_has
      (StorageAdaptor.getStorageKey (StorageAdaptor.new None (empty_realm false))
         "constructor") = true
  ∧ StorageAdaptor.getItem "constructor"
      (StorageAdaptor.new None (empty_realm false)) (empty_realm false)
    = (VBuiltin "constructor", StorageAdaptor.new None (empty_realm false),
       empty_realm false).
Proof.
  assert (Hn : Storage.getItem (StorageAdaptor.storage node_adaptor)
                 (StorageAdaptor.getStorageKey node_adaptor "k")
                 (empty_realm false) = NoItem) by reflexivity.
  assert (Hc : Object_prototype_has
                 (StorageAdaptor.getStorageKey
                    (StorageAdaptor.new None (empty_realm false)) "constructor")
               = true) by (vm_compute; reflexivity).
  split; [exact Hn|]. split.
  - exact (proj2 (proj1 (getItem_nothing_stored "k" node_adaptor (empty_realm false))
                    eq_refl (or_introl Hn))).
  - split; [exact Hc|].
    exact (proj2 (proj2 (getItem_nothing_stored "constructor" node_adaptor
                           (empty_realm false)) None (empty_realm false)) Hc).
Defined.

Lemma setItem_writes_one_item_witness :
  "j" ≠ StorageAdaptor.getStorageKey node_adaptor "k"
  ∧ Storage.getItem (StorageAdaptor.storage node_adaptor) "j"
      (StorageAdaptor.setItem "k" (VNum 1) node_adaptor (holding "2")).2
    = Storage.getItem (StorageAdaptor.storage node_adaptor) "j" (holding "2").
Proof.
  assert (Hne : "j" ≠ StorageAdaptor.getStorageKey node_adaptor "k")
    by discriminate.
  split; [exact Hne|].
  exact (proj1 (proj1 (setItem_writes_one_item "k" (VNum 1) node_adaptor
                         (holding "2")) "j" Hne)).
Defined.

Lemma getItem_after_setItem_witness :
  StorageAdaptor.getStorageKey node_adaptor "k" ≠ "__proto__"
  ∧ JSON_stringify (VNum 3) = Some "3"
  ∧ JSON_parse "3" = Some (JNum 3)
  ∧ (StorageAdaptor.getItem "k"
       (StorageAdaptor.setItem "k" (VNum 3) node_adaptor (empty_realm false)).1
       (StorageAdaptor.setItem "k" (VNum 3) node_adaptor (empty_realm false)).2).1.1
    = VNum 3.
Proof.
  assert (Hk : StorageAdaptor.getStorageKey node_adaptor "k" ≠ "__proto__")
    by discriminate.
  split; [exact Hk|]. split; [reflexivity|]. split; [reflexivity|].
  apply (getItem_after_setItem "k" (VNum 3) node_adaptor (empty_realm false)
           "3" (JNum 3)).
  - exact Hk.
  - reflexivity.
  - discriminate.
  - reflexivity.
  - reflexivity.
  - right. reflexivity.
Defined.

Lemma other_adaptor_gets_a_copy_witness :
  StorageAdaptor.getStorageKey browser_adaptor "k" ≠ "__proto__"
  ∧ is_object (VObj 1 []) = true
  ∧ JSON_stringify (VObj 1 []) = Some "{}"
  ∧ JSON_parse "{}" = Some (JObj [])
  ∧ reference (StorageAdaptor.getItem "k" browser_adaptor object_set.2).1.1
    = Some 2%nat.
Proof.
  assert (Hk : StorageAdaptor.getStorageKey browser_adaptor "k" ≠ "__proto__")
    by discriminate.
  split; [exact Hk|].
  split; [reflexivity|]. split; [reflexivity|]. split; [reflexivity|].
  refine (proj1 (proj2 (other_adaptor_gets_a_copy "k" (VObj 1 []) browser_adaptor
                          browser_adaptor (empty_realm true) "{}" (JObj [])
                          Hk _ _ _ _ _ _ _ _))).
  - reflexivity.
  - reflexivity.
  - reflexivity.
  - reflexivity.
  - reflexivity.
  - discriminate.
  - reflexivity.
  - reflexivity.
Defined.

Lemma setValue_uses_computed_value_witness :
  plain (StateManager.read (manager (persisted_world 5 1)))
  ∧ is_builtin (VFun 0) = false
  ∧ ordinary (key (counter 5 (Some true)))
  ∧ (update (counter 5 (Some true)) (VFun 0) (persisted_world 5 1)).2 = Normal
  ∧ StateManager.read
      (manager (update (counter 5 (Some true)) (VFun 0) (persisted_world 5 1)).1)
      !! "counter" = Some (VNum 2)
  ∧ Object_prototype_has (key (consumer_of "toString" 5 (Some true))) = true
  ∧ (update (consumer_of "toString" 5 (Some true)) (VNum 3)
       (persisted_world 5 1)).2 = Abrupt TypeError.
Proof.
  assert (Hp : plain (StateManager.read (manager (persisted_world 5 1))))
    by (vm_compute; reflexivity).
  assert (Hk : ordinary (key (counter 5 (Some true))))
    by (vm_compute; reflexivity).
  assert (Ht : Object_prototype_has (key (consumer_of "toString" 5 (Some true)))
               = true) by (vm_compute; reflexivity).
  split; [exact Hp|]. split; [reflexivity|]. split; [exact Hk|].
  destruct (proj1 (setValue_uses_computed_value (counter 5 (Some true)) (VFun 0)
                     (persisted_world 5 1) Hp eq_refl) Hk) as (Hn & Hs & _).
  split; [exact Hn|].
  split; [exact (eq_trans Hs ltac:(vm_compute; reflexivity))|].
  split; [exact Ht|].
  exact (proj1 (proj2 (setValue_uses_computed_value
                         (consumer_of "toString" 5 (Some true)) (VNum 3)
                         (persisted_world 5 1) Hp eq_refl)
                  Ht ltac:(vm_compute; reflexivity))).
Defined.

Lemma activation_only_reads_witness :
  default false (shouldSaveToStorage (counter 5 None)) = false
  ∧ realm (useSharedState (counter 5 None) (counter_world 5 1)).2
    = realm (counter_world 5 1).
Proof.
  split; [reflexivity|].
  exact (proj2 (proj2 (proj2
           (activation_only_reads (counter 5 None) (counter_world 5 1))))
           eq_refl).
Defined.

Lemma fixedInitialValue_is_first_initialValue_witness :
  memo_fixedInitialValue (cells (empty_world false)) = None
  ∧ memo_fixedInitialValue
      (cells (hook_run [OpActivate (counter 1 None);
                        OpSetValue (counter 1 None) (VNum 7);
                        OpActivate (counter 2 None);
                        OpCommit;
                        OpClear (counter 2 None);
                        OpActivate (counter 3 None)]
                (empty_world false)))
    = Some (VNum 1).
Proof.
  split; [reflexivity|].
  exact (fixedInitialValue_is_first_initialValue _ (counter 1 None)
           (empty_world false) eq_refl).
Defined.

Lemma value_after_setValue_witness :
  key (consumer_of "toString" 5 None) ≠ "__proto__"
  ∧ plain (StateManager.read (manager (counter_world 5 1)))
  ∧ truthy (VNum 3) = true
  ∧ value (useSharedState (consumer_of "toString" 9 None)
             (update (consumer_of "toString" 5 None) (VNum 3)
                (counter_world 5 1)).1).1
    = VNum 3.
Proof.
  assert (Hk : key (consumer_of "toString" 5 None) ≠ "__proto__") by discriminate.
  assert (Hp : plain (StateManager.read (manager (counter_world 5 1))))
    by (vm_compute; reflexivity).
  split; [exact Hk|]. split; [exact Hp|]. split; [reflexivity|].
  exact (value_after_setValue (consumer_of "toString" 5 None)
           (consumer_of "toString" 9 None) (VNum 3)
           (counter_world 5 1) Hk Hp eq_refl eq_refl eq_refl).
Defined.

Lemma falsy_value_falls_back_witness :
  key (counter 5 None) ≠ "__proto__"
  ∧ plain (StateManager.read (manager (counter_world 5 1)))
  ∧ truthy (VStr "") = false
  ∧ value (useSharedState (counter 9 None)
             (update (counter 5 None) (VStr "") (counter_world 5 1)).1).1
    = default (initialValue (counter 9 None))
        (memo_fixedInitialValue (cells (counter_world 5 1))).
Proof.
  assert (Hk : key (counter 5 None) ≠ "__proto__") by discriminate.
  assert (Hp : plain (StateManager.read (manager (counter_world 5 1))))
    by (vm_compute; reflexivity).
  split; [exact Hk|]. split; [exact Hp|]. split; [reflexivity|].
  exact (proj2 (falsy_value_falls_back (counter 5 None) (counter 9 None)
                  (VStr "") (counter_world 5 1)
                  Hk Hp eq_refl eq_refl eq_refl eq_refl)).
Defined.

Lemma cached_object_comes_back_witness :
  adaptor_of_realm (persisted_world 5 1)
  ∧ ordinary (key (counter 5 (Some true)))
  ∧ plain (StateManager.read (manager (persisted_world 5 1)))
  ∧ is_object (VObj 1 []) = true
  ∧ truthy (VNum 0) = false
  ∧ value (useSharedState (counter 5 (Some true))
             (update (counter 5 (Some true)) (VNum 0)
                (update (counter 5 (Some true)) (VObj 1 [])
                   (persisted_world 5 1)).1).1).1
    = VObj 1 [].
Proof.
  assert (Hwf : adaptor_of_realm (persisted_world 5 1))
    by (vm_compute; split; reflexivity).
  assert (Hk : ordinary (key (counter 5 (Some true))))
    by (vm_compute; reflexivity).
  assert (Hp : plain (StateManager.read (manager (persisted_world 5 1))))
    by (vm_compute; reflexivity).
  split; [exact Hwf|]. split; [exact Hk|]. split; [exact Hp|].
  split; [reflexivity|]. split; [reflexivity|].
  exact (proj2 (cached_object_comes_back (counter 5 (Some true)) (VObj 1 [])
                  (VNum 0) (persisted_world 5 1)
                  Hwf Hk Hp eq_refl eq_refl eq_refl eq_refl)).
Defined.

Lemma reload_without_persistence_witness :
  default false (shouldSaveToStorage (counter 9 None)) = false
  ∧ ordinary (key (counter 9 None))
  ∧ value (useSharedState (counter 9 None) (reload (persisted_world 5 3))).1
    = VNum 9
  ∧ Object_prototype_has (key (consumer_of "constructor" 9 None)) = true
  ∧ value (useSharedState (consumer_of "constructor" 9 None)
             (reload (persisted_world 5 3))).1
    = Object_prototype "constructor".
Proof.
  assert (Hk : ordinary (key (counter 9 None))) by (vm_compute; reflexivity).
  assert (Hc : Object_prototype_has (key (consumer_of "constructor" 9 None)) = true)
    by (vm_compute; reflexivity).
  split; [reflexivity|]. split; [exact Hk|]. split.
  - exact (proj1 (proj2 (reload_without_persistence (counter 9 None)
                           (persisted_world 5 3) eq_refl)) Hk).
  - split; [exact Hc|].
    exact (proj1 (proj2 (proj2 (reload_without_persistence
                                  (consumer_of "constructor" 9 None)
                                  (persisted_world 5 3) eq_refl))) Hc).
Defined.

Lemma subscriptions_do_not_pile_up_witness :
  pending_cleanup (cells (empty_world false)) = None
  ∧ ordinary (key (counter 5 None))
  ∧ subscribers_allocated "counter" (empty_world false)
  ∧ (∃ w' f, render_cycles (counter 5 None) 3 (empty_world false) = (w', Normal)
      ∧ StateManager.subscribers (manager w') "counter"
        = StateManager.subscribers (manager (empty_world false)) "counter" ++ [f])
  ∧ Object_prototype_has (key (consumer_of "constructor" 5 None)) = true
  ∧ (commitEffect
       (useSharedState (consumer_of "constructor" 5 None) (empty_world false)).2).2
    = Abrupt TypeError.
Proof.
  assert (Hk : ordinary (key (counter 5 None))) by (vm_compute; reflexivity).
  assert (Ha : subscribers_allocated "counter" (empty_world false)).
  { intros g Hin. vm_compute in Hin. apply list_elem_of_In in Hin.
    destruct Hin. }
  assert (Hc : Object_prototype_has (key (consumer_of "constructor" 5 None)) = true)
    by (vm_compute; reflexivity).
  split; [reflexivity|]. split; [exact Hk|]. split; [exact Ha|]. split.
  - destruct (proj1 (subscriptions_do_not_pile_up (counter 5 None) 2
                       (empty_world false) eq_refl) Hk Ha)
      as (w' & f & Hok & Hs & _).
    exists w', f. split; [exact Hok | exact Hs].
  - split; [exact Hc|].
    exact (proj1 (proj2 (subscriptions_do_not_pile_up
                           (consumer_of "constructor" 5 None) 0
                           (empty_world false) eq_refl) Hc eq_refl)).
Defined.

Lemma useStoredValue_returns_what_was_set_witness :
  is_function (VNum 0) = false
  ∧ (useStoredValue "k" (VNum 5)
       (stored_set "k" (VNum 0) (stored_start (holding "3")))).1.1
    = VNum 0.
Proof.
  split; [reflexivity|].
  exact (useStoredValue_returns_what_was_set "k" (VNum 5) (VNum 0)
           (stored_start (holding "3")) _ eq_refl eq_refl).
Defined.

Lemma useStoredValue_reads_storage_once_witness :
  stored_state (stored_cells (stored_start (holding "3"))) = None
  ∧ (useStoredValue "k" (VNum 6)
       {| stored_realm := holding "4";
          stored_cells :=
            stored_cells
              (useStoredValue "k" (VNum 5) (stored_start (holding "3"))).2 |}).1.1
    = (useStoredValue "k" (VNum 5) (stored_start (holding "3"))).1.1.
Proof.
  split; [reflexivity|].
  assert (Hf : is_function
            (js_or (StorageAdaptor.getItem "k"
                      (default (StorageAdaptor.new None
                                  (stored_realm (stored_start (holding "3"))))
                               (stored_storage
                                  (stored_cells (stored_start (holding "3")))))
                      (stored_realm (stored_start (holding "3")))).1.1
                   (VNum 5)) = false) by (vm_compute; reflexivity).
  exact (proj2 (useStoredValue_reads_storage_once "k" (VNum 5) (VNum 6)
                  (stored_start (holding "3")) (holding "4") eq_refl Hf)).
Defined.



Lemma prefixed_storage_key_is_ordinary_witness :
  StorageAdaptor.prefix app_adaptor = Some "app"
  ∧ "app" ≠ ""
  ∧ ordinary (StorageAdaptor.getStorageKey app_adaptor "constructor")
  ∧ StorageAdaptor.getItem "constructor" app_adaptor (empty_realm false)
    = (VUndefined, app_adaptor, empty_realm false).
Proof.
  assert (Hp : StorageAdaptor.prefix app_adaptor = Some "app") by reflexivity.
  assert (Hne : "app" ≠ "") by discriminate.
  split; [exact Hp|]. split; [exact Hne|].
  destruct (prefixed_storage_key_is_ordinary app_adaptor "app" "constructor"
              (empty_realm false) Hp Hne) as [Hk Hget].
  split; [exact Hk|].
  exact (eq_trans (Hget eq_refl eq_refl) ltac:(vm_compute; reflexivity)).
Defined.

End MoreSamples.
